(** * china-workday-api: the date-status resolver, the next-rest-day scanner,
      the secondary cache store and its refresh job, and the date-text parser
      of [main.py], embedded in Rocq.

    The embedding follows the Python source function by function.  What the
    program takes from outside is kept as a parameter:
    - the primary calendar source ([chinese_calendar.is_workday] and
      [chinese_calendar.get_holiday_detail]) is a record of two functions
      that answer or raise [NotImplementedError];
    - [json.loads] / [json.dumps] are a codec over an abstract type of texts;
    - the network is a function from the requested URL to what the HTTP
      client did;
    - the cache file, what the file system does to a write, the current
      date and the log are the fields of an explicit world that every
      effectful function threads. *)

From Stdlib Require Import ZArith Lia List String Ascii Bool.
From stdpp Require Import gmap strings list pretty.

Set Warnings "-register-all".
Local Open Scope string_scope.
Local Open Scope list_scope.
Local Open Scope Z_scope.

(* ===================================================================== *)
(** * Exceptions and results *)
(* ===================================================================== *)

(** The Python exceptions the modelled code can raise or catch.  All of them
    are instances of [Exception]. *)
Inductive exn : Type :=
  | NotImplementedError
  | OverflowError
  | ValueError
  | TypeError
  | KeyError
  | AttributeError
  | OSError
  | PermissionError
  | UnicodeEncodeError
  | HTTPException (status_code : Z) (detail : string).

Inductive result (A : Type) : Type :=
  | Ok (a : A)
  | Raise (e : exn).
Arguments Ok {A} a.
Arguments Raise {A} e.

Definition is_NotImplementedError (e : exn) : bool :=
  match e with NotImplementedError => true | _ => false end.

(** [UnicodeEncodeError] is a subclass of [ValueError]. *)
Definition is_ValueError (e : exn) : bool :=
  match e with ValueError | UnicodeEncodeError => true | _ => false end.

(* ===================================================================== *)
(** * datetime.date *)
(* ===================================================================== *)

(** A [datetime.date] is represented by its proleptic Gregorian ordinal
    (0001-01-01 is day 1), the number on which CPython's own
    [Lib/_pydatetime.py] defines [weekday], [__add__] and [__sub__].  The
    dates that exist are the ordinals 1 .. [MAXORDINAL] (9999-12-31). *)
Module PyDate.

Definition date := Z.

Definition MAXORDINAL : Z := 3652059.

Definition valid (d : date) : Prop := 1 <= d <= MAXORDINAL.

Definition is_leap (year : Z) : bool :=
  (year mod 4 =? 0) && (negb (year mod 100 =? 0) || (year mod 400 =? 0)).

Definition days_before_year (year : Z) : Z :=
  let y := year - 1 in y * 365 + y / 4 - y / 100 + y / 400.

Definition DAYS_IN_MONTH : list Z :=
  [-1; 31; 28; 31; 30; 31; 30; 31; 31; 30; 31; 30; 31].

Definition DAYS_BEFORE_MONTH : list Z :=
  [-1; 0; 31; 59; 90; 120; 151; 181; 212; 243; 273; 304; 334].

Definition days_in_month (year month : Z) : Z :=
  if (month =? 2) && is_leap year then 29
  else nth (Z.to_nat month) DAYS_IN_MONTH 0.

Definition days_before_month (year month : Z) : Z :=
  nth (Z.to_nat month) DAYS_BEFORE_MONTH 0
  + (if (2 <? month) && is_leap year then 1 else 0).

Definition ymd2ord (year month day : Z) : Z :=
  days_before_year year + days_before_month year month + day.

(** [date(year, month, day)]: [ValueError] outside the calendar. *)
Definition new (year month day : Z) : result date :=
  if (1 <=? year) && (year <=? 9999)
     && (1 <=? month) && (month <=? 12)
     && (1 <=? day) && (day <=? days_in_month year month)
  then Ok (ymd2ord year month day)
  else Raise ValueError.

Definition DI400Y : Z := 146097.
Definition DI100Y : Z := 36524.
Definition DI4Y : Z := 1461.

(** [_ord2ymd]: the (year, month, day) of an ordinal. *)
Definition ord2ymd (ordinal : Z) : Z * Z * Z :=
  let n := ordinal - 1 in
  let n400 := n / DI400Y in
  let n := n mod DI400Y in
  let year := n400 * 400 + 1 in
  let n100 := n / DI100Y in
  let n := n mod DI100Y in
  let n4 := n / DI4Y in
  let n := n mod DI4Y in
  let n1 := n / 365 in
  let n := n mod 365 in
  let year := year + n100 * 100 + n4 * 4 + n1 in
  if (n1 =? 4) || (n100 =? 4) then (year - 1, 12, 31)
  else
    let leapyear := (n1 =? 3) && (negb (n4 =? 24) || (n100 =? 3)) in
    let month := Z.shiftr (n + 50) 5 in
    let preceding :=
      nth (Z.to_nat month) DAYS_BEFORE_MONTH 0
      + (if (2 <? month) && leapyear then 1 else 0) in
    if n <? preceding then
      let month := month - 1 in
      let preceding :=
        preceding
        - (nth (Z.to_nat month) DAYS_IN_MONTH 0
           + (if (month =? 2) && leapyear then 1 else 0)) in
      (year, month, n - preceding + 1)
    else (year, month, n - preceding + 1).

Definition year (d : date) : Z := fst (fst (ord2ymd d)).
Definition month (d : date) : Z := snd (fst (ord2ymd d)).
Definition day (d : date) : Z := snd (ord2ymd d).

(** [str.zfill]-style padding, for ["%04d"] and ["%02d"] on the
    non-negative fields of a date. *)
Definition zfill (width : nat) (s : string) : string :=
  String.concat "" (repeat "0" (width - String.length s)) +:+ s.

(** [date.isoformat()]: ["%04d-%02d-%02d" % (year, month, day)]. *)
Definition isoformat (d : date) : string :=
  zfill 4 (pretty (year d)) +:+ "-" +:+ zfill 2 (pretty (month d))
  +:+ "-" +:+ zfill 2 (pretty (day d)).

(** [date.weekday()]: Monday is 0, Sunday is 6. *)
Definition weekday (d : date) : Z := (d + 6) mod 7.

(** [timedelta(days=n)]: the magnitude is bounded. *)
Definition timedelta (days : Z) : result Z :=
  if Z.abs days <=? 999999999 then Ok days else Raise OverflowError.

(** [date + timedelta]: [OverflowError] when the sum leaves the
    calendar. *)
Definition add (d : date) (delta : Z) : result date :=
  let o := d + delta in
  if (0 <? o) && (o <=? MAXORDINAL) then Ok o else Raise OverflowError.

(** [(d1 - d2).days]. *)
Definition sub_days (d1 d2 : date) : Z := d1 - d2.

End PyDate.

Abbreviation date := PyDate.date.

(** [str(n)] for an [int]. *)
Definition str (n : Z) : string := pretty n.

(** [range(start, stop)]. *)
Definition range (start stop : Z) : list Z :=
  map (fun k => start + Z.of_nat k) (seq 0 (Z.to_nat (stop - start))).

(* ===================================================================== *)
(** * Python values read from JSON *)
(* ===================================================================== *)

(** What [json.loads] returns: [None], [bool], [int], [str], [list] and
    [dict] with [str] keys.  JSON numbers are modelled as integers. *)
Inductive json : Type :=
  | JNull
  | JBool (b : bool)
  | JInt (z : Z)
  | JStr (s : string)
  | JArr (l : list json)
  | JObj (o : gmap string json).

(** [json.loads] and [json.dumps].  [json_loads t = None] stands for the
    decode error [json.loads] raises on a text that is not JSON.
    [encodable t] says whether [t.encode("utf-8")] succeeds: a [str] that
    holds a lone surrogate has no UTF-8 encoding.  [empty_text] is the
    empty [str], the content of a file that was opened for writing and
    received nothing; it is not JSON. *)
Record json_codec : Type := {
  text : Type;
  json_loads : text -> option json;
  json_dumps : json -> text;
  encodable : text -> bool;
  empty_text : text;
  empty_text_not_json : json_loads empty_text = None;
}.

(** The empty [dict] literal [{}]. *)
Definition empty_dict : json := JObj ∅.

(** Truth value of an object, as [if v:] tests it. *)
Definition truthy (v : json) : bool :=
  match v with
  | JNull => false
  | JBool b => b
  | JInt z => negb (z =? 0)
  | JStr s => negb (String.eqb s "")
  | JArr l => match l with [] => false | _ => true end
  | JObj o => negb (Nat.eqb (size o) 0)
  end.

(** Truth value of an [Optional[str]]. *)
Definition str_truthy (s : option string) : bool :=
  match s with
  | Some t => negb (String.eqb t "")
  | None => false
  end.

(** [a or b] on an [Optional[str]] and a [str]. *)
Definition str_or (a : option string) (b : string) : string :=
  match a with
  | Some t => if String.eqb t "" then b else t
  | None => b
  end.

(** [name if cond and name else other] on an [Optional[str]]. *)
Definition name_if (cond : bool) (name : option string) (other : string)
    : string :=
  match name with
  | Some t => if cond && negb (String.eqb t "") then t else other
  | None => other
  end.

(** [needle in haystack] on two [str]. *)
Fixpoint is_substring (needle haystack : string) : bool :=
  String.prefix needle haystack
  || match haystack with
     | EmptyString => false
     | String _ rest => is_substring needle rest
     end.

(** [v.get(key, default)]: only a [dict] has the method. *)
Definition py_get (v : json) (key : string) (default : json) : result json :=
  match v with
  | JObj o => Ok (match o !! key with Some x => x | None => default end)
  | _ => Raise AttributeError
  end.

(** [key in v] for a [str] key: key membership on a [dict], element
    equality on a [list], substring on a [str]. *)
Definition py_contains (key : string) (v : json) : result bool :=
  match v with
  | JObj o => Ok (match o !! key with Some _ => true | None => false end)
  | JArr l =>
      Ok (existsb (fun x => match x with
                            | JStr s => String.eqb s key
                            | _ => false
                            end) l)
  | JStr s => Ok (is_substring key s)
  | _ => Raise TypeError
  end.

(** [v[key]] for a [str] key. *)
Definition py_getitem (v : json) (key : string) : result json :=
  match v with
  | JObj o => match o !! key with Some x => Ok x | None => Raise KeyError end
  | _ => Raise TypeError
  end.

(** [v[key] = x] for a [str] key. *)
Definition py_setitem (v : json) (key : string) (x : json) : result json :=
  match v with
  | JObj o => Ok (JObj (<[key := x]> o))
  | _ => Raise TypeError
  end.

(** The single-character strings of a [str]. *)
Fixpoint chars (s : string) : list json :=
  match s with
  | EmptyString => []
  | String c rest => JStr (String c EmptyString) :: chars rest
  end.

(** [for item in v]: the elements of a [list], the keys of a [dict], the
    characters of a [str]. *)
Definition py_iter (v : json) : result (list json) :=
  match v with
  | JArr l => Ok l
  | JObj o => Ok (map (fun kv => JStr (fst kv)) (map_to_list o))
  | JStr s => Ok (chars s)
  | _ => Raise TypeError
  end.

(** ** The dict built by the fetcher

    [result] in [fetch_nager_holidays] is keyed by whatever [item["date"]]
    is, so its keys are hashable values of any of the scalar types.  It is
    kept as the list of its items in insertion order. *)
Definition pydict : Type := list (json * json).

Definition hashable (k : json) : bool :=
  match k with
  | JArr _ | JObj _ => false
  | _ => true
  end.

(** [==] on hashable keys: [True == 1] and [False == 0]. *)
Definition key_eqb (a b : json) : bool :=
  match a, b with
  | JNull, JNull => true
  | JStr s, JStr t => String.eqb s t
  | JInt x, JInt y => x =? y
  | JBool x, JBool y => Bool.eqb x y
  | JBool x, JInt y | JInt y, JBool x => (if x then 1 else 0) =? y
  | _, _ => false
  end.

(** [d[k] = v] once [k] is known to be hashable: an equal key keeps its
    place and its first spelling, a new key goes last. *)
Fixpoint pydict_store (d : pydict) (k v : json) : pydict :=
  match d with
  | [] => [(k, v)]
  | (k', v') :: rest =>
      if key_eqb k' k then (k', v) :: rest
      else (k', v') :: pydict_store rest k v
  end.

Definition pydict_setitem (d : pydict) (k v : json) : result pydict :=
  if hashable k then Ok (pydict_store d k v) else Raise TypeError.

(** The [str] that [json.dumps] writes for a key. *)
Definition key_text (k : json) : string :=
  match k with
  | JStr s => s
  | JInt z => str z
  | JBool true => "true"
  | JBool false => "false"
  | _ => "null"
  end.

(** The fetched dict as the value [json.dumps] serialises it to and
    [json.loads] reads back: keys coerced to [str], the last of two keys
    with one spelling winning. *)
Definition json_of_pydict (d : pydict) : json :=
  JObj (fold_left (fun o kv => <[key_text (fst kv) := snd kv]> o) d ∅).

(* ===================================================================== *)
(** * The world and the monad of effects *)
(* ===================================================================== *)

Inductive log_level : Type := INFO | WARNING | ERROR.

(** What an HTTP GET did: the client raised (connection, timeout), or a
    response came back with a status code and a body. *)
Inductive http_outcome (body : Type) : Type :=
  | HttpFailure
  | HttpResponse (status_code : Z) (content : body).
Arguments HttpFailure {body}.
Arguments HttpResponse {body} status_code content.

(** The primary calendar source.  [None] stands for the
    [NotImplementedError] the library raises for a year it has no table
    for. *)
Record primary_source : Type := {
  is_workday : date -> option bool;
  get_holiday_detail : date -> option (bool * option string);
}.

Section Effects.

Context (J : json_codec).

(** [CACHE_FILE] on disk, as the process sees it: absent; there, but
    reading it fails; there with a content; or out of reach, the [stat]
    behind [exists()] failing with an error that [exists()] does not
    swallow ([PermissionError] for a directory that may not be
    searched). *)
Inductive storage : Type :=
  | FileAbsent
  | FileUnreadable
  | FileContent (t : text J)
  | FileInaccessible.

(** What the file system does when [save_cache] writes: nothing wrong;
    [CACHE_DIR.mkdir] raises; opening the file for writing raises, the
    file being left as it was; or the write raises after the file was
    opened and truncated, which leaves it empty. *)
Inductive write_fault : Type :=
  | NoFault
  | MkdirFails
  | OpenFails
  | WriteFails.

Record world : Type := {
  cache_file : storage;
  disk : write_fault;
  clock : date;                          (* date.today() *)
  log : list (log_level * string);       (* records emitted by logger *)
}.

(** The world with another cache file. *)
Definition set_file (w : world) (file : storage) : world :=
  {| cache_file := file; disk := disk w; clock := clock w; log := log w |}.

Definition M (A : Type) : Type := world -> result A * world.

Definition ret {A} (a : A) : M A := fun w => (Ok a, w).

Definition raise {A} (e : exn) : M A := fun w => (Raise e, w).

Definition bind {A B} (m : M A) (k : A -> M B) : M B :=
  fun w =>
    match m w with
    | (Ok a, w') => k a w'
    | (Raise e, w') => (Raise e, w')
    end.

Definition lift {A} (r : result A) : M A := fun w => (r, w).

(** [try: m  except <class>: handler], the class given by [catches]. *)
Definition try_except {A} (catches : exn -> bool)
    (m : M A) (handler : exn -> M A) : M A :=
  fun w =>
    match m w with
    | (Ok a, w') => (Ok a, w')
    | (Raise e, w') => if catches e then handler e w' else (Raise e, w')
    end.

(** [except Exception]. *)
Definition any_Exception (e : exn) : bool := true.

Definition logger (level : log_level) (message : string) : M unit :=
  fun w =>
    (Ok tt, {| cache_file := cache_file w; disk := disk w; clock := clock w;
               log := log w ++ [(level, message)] |}).

Definition date_today : M date := fun w => (Ok (clock w), w).

(** [CACHE_FILE.exists()]: [False] for a missing file, and the error of
    the [stat] for a file out of reach. *)
Definition path_exists : M bool :=
  fun w =>
    match cache_file w with
    | FileAbsent => (Ok false, w)
    | FileInaccessible => (Raise PermissionError, w)
    | _ => (Ok true, w)
    end.

Definition read_text : M (text J) :=
  fun w =>
    match cache_file w with
    | FileContent t => (Ok t, w)
    | _ => (Raise OSError, w)
    end.

(** [CACHE_DIR.mkdir(parents=True, exist_ok=True)]. *)
Definition mkdir : M unit :=
  fun w =>
    match disk w with
    | MkdirFails => (Raise OSError, w)
    | _ => (Ok tt, w)
    end.

(** [CACHE_FILE.write_text(t, encoding="utf-8")]: the file is opened with
    mode ["w"], which truncates it; then [t] is encoded, and written. *)
Definition write_text (t : text J) : M unit :=
  fun w =>
    match cache_file w, disk w with
    | FileInaccessible, _ => (Raise PermissionError, w)
    | _, OpenFails => (Raise OSError, w)
    | _, fault =>
        let truncated := set_file w (FileContent (empty_text J)) in
        if encodable J t then
          match fault with
          | WriteFails => (Raise OSError, truncated)
          | _ => (Ok tt, set_file w (FileContent t))
          end
        else (Raise UnicodeEncodeError, truncated)
    end.

Definition loads (t : text J) : M json :=
  match json_loads J t with
  | Some v => ret v
  | None => raise ValueError
  end.

End Effects.

Arguments FileAbsent {J}.
Arguments FileUnreadable {J}.
Arguments FileContent {J} t.
Arguments FileInaccessible {J}.
Arguments cache_file {J} w.
Arguments disk {J} w.
Arguments set_file {J} w file.
Arguments clock {J} w.
Arguments log {J} w.
Arguments ret {J A} a.
Arguments raise {J A} e.
Arguments bind {J A B} m k.
Arguments lift {J A} r.
Arguments try_except {J A} catches m handler.
Arguments logger {J} level message.
Arguments date_today {J}.
Arguments path_exists {J}.
Arguments read_text {J}.
Arguments mkdir {J}.
Arguments write_text {J} t.
Arguments loads {J} t.

Declare Scope py_scope.
Delimit Scope py_scope with py.
Notation "'let*' x ':=' m 'in' k" := (bind m (fun x => k))
  (at level 10, x pattern, m at level 100, k at level 200) : py_scope.
Notation "m1 ';;' m2" := (bind m1 (fun _ => m2))
  (at level 100, m2 at level 200, right associativity) : py_scope.
Local Open Scope py_scope.

(* ===================================================================== *)
(** * The program *)
(* ===================================================================== *)

Definition WEEKDAY_NAMES : list string :=
  ["周一"; "周二"; "周三"; "周四"; "周五"; "周六"; "周日"].

(** [WEEKDAY_NAMES[d.weekday()]]; the index is always one of 0 .. 6. *)
Definition weekday_name (d : date) : string :=
  nth (Z.to_nat (PyDate.weekday d)) WEEKDAY_NAMES "".

(** [NAGER_API.format(year=year)]. *)
Definition NAGER_API (year : Z) : string :=
  "https://date.nager.at/api/v3/PublicHolidays/" +:+ str year +:+ "/CN".

(** The dict [find_next_rest_day] returns. *)
Record rest_day : Type := {
  rd_date : string;
  rd_weekday : string;
  rd_detail : string;
  rd_days_from_now : Z;
}.

(** The dict [get_date_status] returns.  [ds_next_rest_day] is [None] once
    the key has been popped, [ds_holiday_name] is [None] when the key was
    never set; [ds_warning] is the value under a key that is always
    there. *)
Record date_status : Type := {
  ds_date : string;
  ds_weekday : string;
  ds_is_workday : bool;
  ds_detail : string;
  ds_next_rest_day : option (option rest_day);
  ds_warning : option string;
  ds_holiday_name : option string;
}.

(** [status.pop("next_rest_day", None)]. *)
Definition pop_next_rest_day (s : date_status) : date_status :=
  {| ds_date := ds_date s; ds_weekday := ds_weekday s;
     ds_is_workday := ds_is_workday s; ds_detail := ds_detail s;
     ds_next_rest_day := None; ds_warning := ds_warning s;
     ds_holiday_name := ds_holiday_name s |}.

(** The body of the response of [check_date]. *)
Record check_response : Type := {
  cr_date : date_status;
  cr_next_rest_day : option rest_day;
}.

Definition WARNING_DIFFERS : string := "数据源存在差异，请以官方通知为准".

(** How one turn of a [for] loop ends: falls through to the next turn,
    [break]s, or [return]s from the function. *)
Inductive loop_exit (R : Type) : Type :=
  | Next
  | Break
  | Return (r : R).
Arguments Next {R}.
Arguments Break {R}.
Arguments Return {R} r.

Section Program.

Context (J : json_codec).
Context (primary : primary_source).
Context (http_get : string -> http_outcome (text J)).

(** A call into the primary source. *)
Definition ask {A} (answer : option A) : M J A :=
  match answer with
  | Some a => ret a
  | None => raise NotImplementedError
  end.

(** ** Secondary cache store *)

Definition load_cache : M J json :=
  let* present := path_exists in
  if (present : bool) then
    try_except any_Exception
      (let* t := read_text in loads t)
      (fun _ => logger WARNING "缓存文件读取失败，忽略" ;; ret empty_dict)
  else ret empty_dict.

Definition save_cache (data : json) : M J unit :=
  mkdir ;;
  write_text (json_dumps J data).

(** ** Secondary source fetcher *)

(** The loop [for item in resp.json(): result[item["date"]] =
    item["localName"]], from the value [result] has when the loop starts.
    It returns the value [result] has when the loop stops and the
    exception that stopped it, if any.  The right-hand side of the
    assignment is evaluated first. *)
Fixpoint collect_items (items : list json) (result : pydict)
    : pydict * option exn :=
  match items with
  | [] => (result, None)
  | item :: rest =>
      match py_getitem item "localName" with
      | Raise e => (result, Some e)
      | Ok name =>
          match py_getitem item "date" with
          | Raise e => (result, Some e)
          | Ok key =>
              match pydict_setitem result key name with
              | Raise e => (result, Some e)
              | Ok result' => collect_items rest result'
              end
          end
      end
  end.

(** The [try] block of [fetch_nager_holidays]: the value of [result] when
    the block is left, and how it is left ([Ok true]: the success line was
    logged; [Ok false]: the status was not 200). *)
Definition fetch_attempt (year : Z) : pydict * result bool :=
  match http_get (NAGER_API year) with
  | HttpFailure => ([], Raise OSError)
  | HttpResponse status_code content =>
      if status_code =? 200 then
        match json_loads J content with
        | None => ([], Raise ValueError)
        | Some payload =>
            match py_iter payload with
            | Raise e => ([], Raise e)
            | Ok items =>
                match collect_items items [] with
                | (result, Some e) => (result, Raise e)
                | (result, None) => (result, Ok true)
                end
            end
        end
      else ([], Ok false)
  end.

Definition fetch_nager_holidays (year : Z) : M J pydict :=
  match fetch_attempt year with
  | (result, Ok true) =>
      logger INFO "Nager.Date %d 年数据获取成功，共 %d 条" ;; ret result
  | (result, Ok false) => ret result
  | (result, Raise _) =>
      logger WARNING "Nager.Date 数据获取失败: %s" ;; ret result
  end.

(** ** Cache refresh job *)

(** The [for year in [current_year, current_year + 1]] loop, on the
    current value of [cache].  The fetched dict enters the cache as the
    JSON object it is saved as. *)
Fixpoint refresh_years (years : list Z) (cache : json) : M J json :=
  match years with
  | [] => ret cache
  | year :: rest =>
      let* holidays := fetch_nager_holidays year in
      if match holidays with [] => false | _ => true end then
        let* cache' :=
          lift (py_setitem cache (str year) (json_of_pydict holidays)) in
        refresh_years rest cache'
      else refresh_years rest cache
  end.

Definition update_auxiliary_cache : M J unit :=
  logger INFO "开始更新辅助源缓存..." ;;
  let* today := date_today in
  let current_year := PyDate.year today in
  let* cache := load_cache in
  let* cache := refresh_years [current_year; current_year + 1] cache in
  save_cache cache ;;
  logger INFO "辅助源缓存更新完成".

(** ** Next-rest-day scanner *)

(** A [for] loop whose body may [break] or [return]; the statement after
    the loop is [return None]. *)
Fixpoint for_in {R} (items : list Z) (body : Z -> M J (loop_exit R))
    : M J (option R) :=
  match items with
  | [] => ret None
  | i :: rest =>
      let* how := body i in
      match how with
      | Next => for_in rest body
      | Break => ret None
      | Return r => ret (Some r)
      end
  end.

Definition find_next_rest_day (from_date : date) (max_days : Z)
    : M J (option rest_day) :=
  for_in (range 1 (max_days + 1)) (fun i =>
    let* delta := lift (PyDate.timedelta i) in
    let* d := lift (PyDate.add from_date delta) in
    try_except is_NotImplementedError
      (let* is_work := ask (is_workday primary d) in
       if negb is_work then
         let* detail := ask (get_holiday_detail primary d) in
         let '(on_holiday, holiday_name) := detail in
         let* today := date_today in
         ret (Return
           {| rd_date := PyDate.isoformat d;
              rd_weekday := weekday_name d;
              rd_detail := name_if on_holiday holiday_name "周末";
              rd_days_from_now := PyDate.sub_days d today |})
       else ret Next)
      (fun _ => ret Break)).

(** ** Date status resolver *)

Definition get_date_status (target_date : date) : M J date_status :=
  let* is_work := ask (is_workday primary target_date) in
  let* detail := ask (get_holiday_detail primary target_date) in
  let '(on_holiday, holiday_name) := detail in
  let weekday := PyDate.weekday target_date in
  let weekday_name := weekday_name target_date in
  let detail :=
    if (on_holiday : bool) then str_or holiday_name "法定节假日"
    else if is_work && (5 <=? weekday) then "调休补班"
    else if negb is_work && (weekday <? 5) then "休息日"
    else if is_work then "正常工作日"
    else "周末" in
  let* cache := load_cache in
  let* year_cache :=
    lift (py_get cache (str (PyDate.year target_date)) empty_dict) in
  let date_str := PyDate.isoformat target_date in
  let* warning :=
    if truthy year_cache then
      let* in_nager := lift (py_contains date_str year_cache) in
      if on_holiday && negb in_nager then ret (Some WARNING_DIFFERS)
      else if negb on_holiday && in_nager then ret (Some WARNING_DIFFERS)
      else ret None
    else ret None in
  let* next := find_next_rest_day target_date 30 in
  ret {| ds_date := date_str;
         ds_weekday := weekday_name;
         ds_is_workday := is_work;
         ds_detail := detail;
         ds_next_rest_day := Some next;
         ds_warning := warning;
         ds_holiday_name :=
           if on_holiday && str_truthy holiday_name
           then holiday_name else None |}.

End Program.

(* ===================================================================== *)
(** * datetime.strptime on the formats of [check_date] *)
(* ===================================================================== *)

(** [strptime] turns the format into a regular expression, takes the first
    match the backtracking matcher finds from the start of the text, and
    rejects the text when the match stops short of its end.  The model
    covers the directives the program's formats use ([%Y], [%m], [%d]) and
    reads [\d] on the ASCII digits. *)
Module Strptime.

Inductive directive : Type :=
  | DirY
  | Dirm
  | Dird
  | Literal (c : ascii).

Definition is_flag (c : ascii) : bool :=
  existsb (Ascii.eqb c) ["-"; "_"; "0"; "^"; "#"]%char.

(** The format as a list of directives.  After a [%], CPython up to 3.12
    looks the next character up in its directive table, and ["-"] is not
    in it; later versions first skip the flags [-_0^#].  [skip_flags]
    selects the behaviour.  [None] is the [ValueError] for a bad
    directive or a stray [%]. *)
Fixpoint tokenize (skip_flags : bool) (in_directive : bool) (fmt : string)
    : option (list directive) :=
  match fmt with
  | EmptyString => if in_directive then None else Some []
  | String c rest =>
      if in_directive then
        if Ascii.eqb c "Y" then cons DirY <$> tokenize skip_flags false rest
        else if Ascii.eqb c "m" then
          cons Dirm <$> tokenize skip_flags false rest
        else if Ascii.eqb c "d" then
          cons Dird <$> tokenize skip_flags false rest
        else if skip_flags && is_flag c then tokenize skip_flags true rest
        else None
      else if Ascii.eqb c "%" then tokenize skip_flags true rest
      else cons (Literal c) <$> tokenize skip_flags false rest
  end.

(** The value of [c] when it is a digit between [lo] and [hi]. *)
Definition digit_in (lo hi : Z) (c : ascii) : option Z :=
  let v := Z.of_N (N_of_ascii c) - 48 in
  if (lo <=? v) && (v <=? hi) then Some v else None.

(** One alternative of a directive's pattern: the number it reads and
    the rest of the text, or no match. *)
Definition alternative : Type := string -> option (Z * string).

Definition one (lo hi : Z) : alternative := fun s =>
  match s with
  | String c rest =>
      match digit_in lo hi c with
      | Some a => Some (a, rest)
      | None => None
      end
  | _ => None
  end.

Definition two (lo1 hi1 lo2 hi2 : Z) : alternative := fun s =>
  match s with
  | String c1 (String c2 rest) =>
      match digit_in lo1 hi1 c1, digit_in lo2 hi2 c2 with
      | Some a, Some b => Some (10 * a + b, rest)
      | _, _ => None
      end
  | _ => None
  end.

Definition space_one (lo hi : Z) : alternative := fun s =>
  match s with
  | String c rest => if Ascii.eqb c " " then one lo hi rest else None
  | _ => None
  end.

Definition four : alternative := fun s =>
  match s with
  | String c1 (String c2 (String c3 (String c4 rest))) =>
      match digit_in 0 9 c1, digit_in 0 9 c2,
            digit_in 0 9 c3, digit_in 0 9 c4 with
      | Some a, Some b, Some c, Some d =>
          Some (1000 * a + 100 * b + 10 * c + d, rest)
      | _, _, _, _ => None
      end
  | _ => None
  end.

(** [%Y] is [\d\d\d\d]. *)
Definition pattern_Y : list alternative := [four].

(** [%m] is [1[0-2]|0[1-9]|[1-9]]. *)
Definition pattern_m : list alternative :=
  [two 1 1 0 2; two 0 0 1 9; one 1 9].

(** [%d] is [3[0-1]|[1-2]\d|0[1-9]|[1-9]| [1-9]]. *)
Definition pattern_d : list alternative :=
  [two 3 3 0 1; two 1 2 0 9; two 0 0 1 9; one 1 9; space_one 1 9].

(** The alternatives that match at the head of [s], in the order the
    matcher tries them. *)
Definition attempts (pattern : list alternative) (s : string)
    : list (Z * string) :=
  omap (fun alt => alt s) pattern.

Record fields : Type := {
  f_Y : option Z;
  f_m : option Z;
  f_d : option Z;
}.

Definition no_fields : fields := {| f_Y := None; f_m := None; f_d := None |}.

Definition store (dir : directive) (v : Z) (f : fields) : fields :=
  match dir with
  | DirY => {| f_Y := Some v; f_m := f_m f; f_d := f_d f |}
  | Dirm => {| f_Y := f_Y f; f_m := Some v; f_d := f_d f |}
  | Dird => {| f_Y := f_Y f; f_m := f_m f; f_d := Some v |}
  | Literal _ => f
  end.

Definition pattern_of (dir : directive) : list alternative :=
  match dir with
  | DirY => pattern_Y
  | Dirm => pattern_m
  | Dird => pattern_d
  | Literal _ => []
  end.

(** Every way the directives match a prefix of [s], in the order the
    backtracking matcher finds them: the head is the match [re.match]
    returns. *)
Fixpoint regex_match (dirs : list directive) (s : string) (f : fields)
    : list (fields * string) :=
  match dirs with
  | [] => [(f, s)]
  | Literal c :: dirs' =>
      match s with
      | String c' rest =>
          if Ascii.eqb c c' then regex_match dirs' rest f else []
      | EmptyString => []
      end
  | dir :: dirs' =>
      flat_map (fun hit => regex_match dirs' (snd hit) (store dir (fst hit) f))
               (attempts (pattern_of dir) s)
  end.

(** [datetime.strptime(s, fmt).date()]; every failure is a
    [ValueError]. *)
Definition strptime (skip_flags : bool) (s fmt : string) : result date :=
  match tokenize skip_flags false fmt with
  | None => Raise ValueError
  | Some dirs =>
      match regex_match dirs s no_fields with
      | [] => Raise ValueError
      | (f, rest) :: _ =>
          match rest with
          | EmptyString =>
              PyDate.new (default 1900 (f_Y f)) (default 1 (f_m f))
                         (default 1 (f_d f))
          | _ => Raise ValueError
          end
      end
  end.

End Strptime.

Definition formats : list string :=
  ["%Y-%m-%d"; "%Y-%-m-%-d";
   "%Y_%m_%d"; "%Y_%-m_%-d";
   "%Y%m%d";
   "%Y年%m月%d日"; "%Y年%-m月%-d日"].

Definition FORMAT_ERROR : string :=
  "日期格式错误，支持格式：2026-02-25、2026_02_25、20260225、2026年02月25日等".

(** The loop [for fmt in formats] of [check_date]: the value of [d] after
    it.  A [ValueError] moves on to the next format, any other exception
    leaves the function. *)
Fixpoint try_formats (skip_flags : bool) (target_date : string)
    (fmts : list string) : result (option date) :=
  match fmts with
  | [] => Ok None
  | fmt :: rest =>
      match Strptime.strptime skip_flags target_date fmt with
      | Ok d => Ok (Some d)
      | Raise e =>
          if is_ValueError e then try_formats skip_flags target_date rest
          else Raise e
      end
  end.

Section Endpoint.

Context (J : json_codec).
Context (primary : primary_source).
Context (skip_flags : bool).

Definition check_date (target_date : string) : M J check_response :=
  let* d := lift (try_formats skip_flags target_date formats) in
  match d with
  | None => raise (HTTPException 400 FORMAT_ERROR)
  | Some d =>
      try_except is_NotImplementedError
        (let* status := get_date_status J primary d in
         let status := pop_next_rest_day status in
         let* today := date_today in
         let* next := find_next_rest_day J primary today 30 in
         ret {| cr_date := status; cr_next_rest_day := next |})
        (fun _ =>
           raise (HTTPException 400
             ("暂不支持查询 " +:+ str (PyDate.year d)
              +:+ " 年的数据，chinesecalendar 库尚未收录")))
  end.

End Endpoint.

(* ===================================================================== *)
(** * Vocabulary of the specification *)
(* ===================================================================== *)

(** The index the cache file stands for: what [load_cache] reads from
    it (the empty index for a file out of reach, which [load_cache] does
    not get to read). *)
Definition cached_index {J : json_codec} (w : world J) : json :=
  match cache_file w with
  | FileContent t =>
      match json_loads J t with
      | Some v => v
      | None => empty_dict
      end
  | _ => empty_dict
  end.

(** The world [load_cache] leaves: a warning is logged when the file is
    there and cannot be read or parsed. *)
Definition after_load {J : json_codec} (w : world J) : world J :=
  let warned :=
    {| cache_file := cache_file w; disk := disk w; clock := clock w;
       log := log w ++ [(WARNING, "缓存文件读取失败，忽略")] |} in
  match cache_file w with
  | FileAbsent => w
  | FileUnreadable => warned
  | FileContent t =>
      match json_loads J t with
      | Some _ => w
      | None => warned
      end
  | FileInaccessible => w
  end.

(** The cache file can be examined: [CACHE_FILE.exists()] answers. *)
Definition accessible {J : json_codec} (w : world J) : Prop :=
  cache_file w <> FileInaccessible.

(** What [load_cache] does: it returns the index of the file, or raises
    the error of [exists()]. *)
Definition load_outcome {J : json_codec} (w : world J) : result json :=
  match cache_file w with
  | FileInaccessible => Raise PermissionError
  | _ => Ok (cached_index w)
  end.

(** The cross-check block of [get_date_status] as a function of the cache
    it loaded. *)
Definition cross_check (cache : json) (target_date : date)
    (on_holiday : bool) : result (option string) :=
  match py_get cache (str (PyDate.year target_date)) empty_dict with
  | Raise e => Raise e
  | Ok year_cache =>
      if truthy year_cache then
        match py_contains (PyDate.isoformat target_date) year_cache with
        | Raise e => Raise e
        | Ok in_nager =>
            Ok (if on_holiday && negb in_nager then Some WARNING_DIFFERS
                else if negb on_holiday && in_nager then Some WARNING_DIFFERS
                else None)
        end
      else Ok None
  end.

(** The same block on the world: the cache is what [load_cache] returns,
    and the error of [load_cache] when it raises. *)
Definition cache_check {J : json_codec} (w : world J) (target_date : date)
    (on_holiday : bool) : result (option string) :=
  match load_outcome w with
  | Raise e => Raise e
  | Ok cache => cross_check cache target_date on_holiday
  end.

(** The dict [fetch_nager_holidays] returns for a year. *)
Definition fetched (J : json_codec)
    (http_get : string -> http_outcome (text J)) (year : Z) : pydict :=
  fst (fetch_attempt J http_get year).

(** The loop of [update_auxiliary_cache] as a function of the cache it
    starts from. *)
Fixpoint merged (J : json_codec)
    (http_get : string -> http_outcome (text J)) (years : list Z)
    (cache : json) : result json :=
  match years with
  | [] => Ok cache
  | year :: rest =>
      match fetched J http_get year with
      | [] => merged J http_get rest cache
      | holidays =>
          match py_setitem cache (str year) (json_of_pydict holidays) with
          | Ok cache' => merged J http_get rest cache'
          | Raise e => Raise e
          end
      end
  end.

(** What one run of [update_auxiliary_cache] does: how it ends, and the
    cache file it leaves. *)
Definition refreshed (J : json_codec)
    (http_get : string -> http_outcome (text J)) (w : world J)
    : result unit * storage J :=
  let current_year := PyDate.year (clock w) in
  match load_outcome w with
  | Raise e => (Raise e, cache_file w)
  | Ok cache =>
      match merged J http_get [current_year; current_year + 1] cache with
      | Raise e => (Raise e, cache_file w)
      | Ok cache' =>
          (fst (save_cache J cache' w),
           cache_file (snd (save_cache J cache' w)))
      end
  end.

(** The entry of an index under a key. *)
Definition entry (index : json) (key : string) : option json :=
  match index with
  | JObj o => o !! key
  | _ => None
  end.

(** The index has the shape of the data model at the entry of a year: it
    is a mapping, and the year's entry, when there is one, is a mapping. *)
Definition index_shaped (index : json) (year : Z) : Prop :=
  exists o, index = JObj o /\
    (o !! str year = None \/ exists days, o !! str year = Some (JObj days)).

(** The dates the secondary source lists for a year; empty when the year
    has no entry. *)
Definition secondary_days (index : json) (year : Z) : gmap string json :=
  match entry index (str year) with
  | Some (JObj days) => days
  | _ => ∅
  end.

(** The primary source has data for the date. *)
Definition supported (primary : primary_source) (d : date) : Prop :=
  (exists w, is_workday primary d = Some w) /\
  (exists h, get_holiday_detail primary d = Some h).

(** The primary source says the date is a working day. *)
Definition working (primary : primary_source) (d : date) : Prop :=
  is_workday primary d = Some true.

(** The primary source says the date is not a working day. *)
Definition non_working (primary : primary_source) (d : date) : Prop :=
  is_workday primary d = Some false.

(** Examining the date makes the primary source raise
    [NotImplementedError]. *)
Definition unsupported (primary : primary_source) (d : date) : Prop :=
  is_workday primary d = None \/
  (is_workday primary d = Some false /\ get_holiday_detail primary d = None).

(** What one turn of a loop does: it leaves the world as it was, and falls
    through, breaks, returns or raises as the four predicates say. *)
Definition turn_spec (J : json_codec) {R : Type}
    (body : Z -> M J (loop_exit R))
    (falls_through breaks : Z -> Prop)
    (returns : world J -> Z -> R -> Prop) (fails : Z -> exn -> Prop) : Prop :=
  forall i w,
    snd (body i w) = w /\
    match fst (body i w) with
    | Ok Next => falls_through i
    | Ok Break => breaks i
    | Ok (Return r) => returns w i r
    | Raise e => fails i e
    end.

(** [from_date + timedelta(days=i)] is a date. *)
Definition reachable (from_date : date) (i : Z) : Prop :=
  Z.abs i <= 999999999 /\ 0 < from_date + i <= PyDate.MAXORDINAL.

(** [rd] is the rest day the scanner reports for the non-working day [d]
    when the current date is [today]. *)
Definition rest_day_of (primary : primary_source) (today d : date)
    (rd : rest_day) : Prop :=
  non_working primary d /\
  exists on_holiday holiday_name,
    get_holiday_detail primary d = Some (on_holiday, holiday_name) /\
    rd_date rd = PyDate.isoformat d /\
    rd_weekday rd = weekday_name d /\
    rd_detail rd = name_if on_holiday holiday_name "周末" /\
    rd_days_from_now rd = PyDate.sub_days d today.

Definition is_weekend (d : date) : bool := 5 <=? PyDate.weekday d.

(** The secondary source lists the date. *)
Definition listed_by_secondary (index : json) (d : date) : bool :=
  match secondary_days index (PyDate.year d) !! PyDate.isoformat d with
  | Some _ => true
  | None => false
  end.

(** The priority list of the specification for [detail_reason], a name
    counting as present when it is a non-empty string. *)
Definition detail_by_priority (designated_holiday working_day : bool)
    (holiday_name : option string) (weekend : bool) : string :=
  if designated_holiday then
    match holiday_name with
    | Some name => if String.eqb name "" then "法定节假日" else name
    | None => "法定节假日"
    end
  else if working_day && weekend then "调休补班"
  else if negb working_day && negb weekend then "休息日"
  else if working_day then "正常工作日"
  else "周末".



Definition result_map {A B} (f : A -> B) (r : result A) : result B :=
  match r with
  | Ok a => Ok (f a)
  | Raise e => Raise e
  end.

Definition loop_exit_map {A B} (f : A -> B) (x : loop_exit A) : loop_exit B :=
  match x with
  | Next => Next
  | Break => Break
  | Return r => Return (f r)
  end.

(** A rest day without its [days_from_now]. *)
Definition forget_distance (rd : rest_day) : rest_day :=
  {| rd_date := rd_date rd; rd_weekday := rd_weekday rd;
     rd_detail := rd_detail rd; rd_days_from_now := 0 |}.

(** A verdict without the [days_from_now] of the rest day it carries. *)
Definition forget_days_from_now (s : date_status) : date_status :=
  {| ds_date := ds_date s; ds_weekday := ds_weekday s;
     ds_is_workday := ds_is_workday s; ds_detail := ds_detail s;
     ds_next_rest_day :=
       option_map (option_map forget_distance) (ds_next_rest_day s);
     ds_warning := ds_warning s;
     ds_holiday_name := ds_holiday_name s |}.

(** [json.loads (json.dumps v)] gives [v] back. *)
Definition round_trips (J : json_codec) : Prop :=
  forall v, json_loads J (json_dumps J v) = Some v.

(** ** Date texts *)

Inductive style : Type := Dashed | Underscored | Compact | Cjk.

Definition digit_char (v : Z) : ascii := ascii_of_N (Z.to_N (48 + v)).

(** [YYYY]: four decimal digits. *)
Definition text_YYYY (y : Z) : string :=
  String (digit_char (y / 1000))
    (String (digit_char (y / 100 mod 10))
       (String (digit_char (y / 10 mod 10))
          (String (digit_char (y mod 10)) EmptyString))).

(** [MM] / [DD], zero-padded to two digits or not padded. *)
Definition text_NN (padded : bool) (n : Z) : string :=
  if (n <? 10) && negb padded then String (digit_char n) EmptyString
  else String (digit_char (n / 10)) (String (digit_char (n mod 10)) EmptyString).

(** What follows the year in a date text of a style. *)
Definition text_tail (st : style) (pad_month pad_day : bool) (m d : Z)
    : string :=
  match st with
  | Dashed => "-" +:+ text_NN pad_month m +:+ "-" +:+ text_NN pad_day d
  | Underscored => "_" +:+ text_NN pad_month m +:+ "_" +:+ text_NN pad_day d
  | Compact => text_NN pad_month m +:+ text_NN pad_day d
  | Cjk => "年" +:+ text_NN pad_month m +:+ "月" +:+ text_NN pad_day d +:+ "日"
  end.

Definition date_text (st : style) (pad_month pad_day : bool) (y m d : Z)
    : string :=
  text_YYYY y +:+ text_tail st pad_month pad_day m d.

(** ** Sample collaborators *)

(** The strings of the model are the UTF-8 bytes of a Python [str].
    UTF-8 spells no code point from U+D800 to U+DFFF: a string in which
    the byte [ED] is followed by a byte from [A0] up stands for a [str]
    with a lone surrogate, which has no UTF-8 encoding. *)
Fixpoint utf8 (s : string) : bool :=
  match s with
  | String a ((String b _) as rest) =>
      negb ((N_of_ascii a =? 237)%N && (160 <=? N_of_ascii b)%N) && utf8 rest
  | _ => true
  end.

Fixpoint json_utf8 (v : json) : bool :=
  match v with
  | JStr s => utf8 s
  | JArr l => forallb json_utf8 l
  | JObj o => map_fold (fun k v acc => utf8 k && json_utf8 v && acc) true o
  | _ => true
  end.

(** Whether a text of the sample codec can be encoded: a document can
    when none of its strings holds a lone surrogate.  The function is
    sealed behind its equation, so that evaluating a sample does not
    unfold the traversal of the document. *)
Definition sample_encodable :
  { f : option json -> bool
  | forall t, f t = match t with Some v => json_utf8 v | None => true end }.
Proof.
  exists (fun t => match t with Some v => json_utf8 v | None => true end).
  reflexivity.
Qed.

(** A codec whose texts are either unparseable or the document itself;
    the empty text is unparseable. *)
Definition sample_codec : json_codec :=
  {| text := option json; json_loads := fun t => t; json_dumps := Some;
     encodable := proj1_sig sample_encodable;
     empty_text := None;
     empty_text_not_json := eq_refl |}.

(** The years 2004 .. 2026, as ordinals. *)
Definition in_coverage (d : date) : bool := (731581 <=? d) && (d <=? 739981).

(** A calendar without holidays: Monday to Friday are working days. *)
Definition plain_calendar : primary_source :=
  {| is_workday := fun d =>
       if in_coverage d then Some (PyDate.weekday d <? 5) else None;
     get_holiday_detail := fun d =>
       if in_coverage d then Some (false, None) else None |}.

(** A calendar in which National Day 2026 runs from Thursday 1 October to
    Saturday 3 October, the Saturday being kept as a working day. *)
Definition national_day_calendar : primary_source :=
  {| is_workday := fun d =>
       if in_coverage d then
         Some (if (739890 <=? d) && (d <=? 739891) then false
               else if d =? 739892 then true
               else PyDate.weekday d <? 5)
       else None;
     get_holiday_detail := fun d =>
       if in_coverage d then
         Some (if (739890 <=? d) && (d <=? 739892)
               then (true, Some "国庆节") else (false, None))
       else None |}.

(** An index that lists 2026-10-01 and 2026-10-02 for 2026. *)
Definition sample_index : json :=
  JObj {[ "2026" := JObj {[ "2026-10-01" := JStr "National Day";
                            "2026-10-02" := JStr "National Day" ]};
          "2025" := JObj {[ "2025-10-01" := JStr "National Day" ]} ]}.

Definition sample_world (today : date) : world sample_codec :=
  {| cache_file := FileContent (Some sample_index : text sample_codec);
     disk := NoFault; clock := today; log := [] |}.

Definition corrupt_world (today : date) : world sample_codec :=
  {| cache_file := FileContent (None : text sample_codec);
     disk := NoFault; clock := today; log := [] |}.

(** A network on which the provider answers for 2026 and fails for any
    other year. *)
Definition sample_http (url : string) : http_outcome (text sample_codec) :=
  if String.eqb url (NAGER_API 2026) then
    HttpResponse 200
      (Some (JArr [JObj {[ "date" := JStr "2026-01-01";
                           "localName" := JStr "元旦" ]}]))
  else HttpFailure.

(** ** Parsing what follows the year

    Every format of [check_date] starts with [%Y], so a text that starts
    with four digits is parsed by reading the year and then matching the
    rest of the format against the rest of the text. *)

(** [g] laid over [f]: the fields [g] has, else those of [f]. *)
Definition overlay (f g : Strptime.fields) : Strptime.fields :=
  {| Strptime.f_Y :=
       match Strptime.f_Y g with Some v => Some v | None => Strptime.f_Y f end;
     Strptime.f_m :=
       match Strptime.f_m g with Some v => Some v | None => Strptime.f_m f end;
     Strptime.f_d :=
       match Strptime.f_d g with Some v => Some v | None => Strptime.f_d f end |}.

(** The fields the first match of [dirs] reads from [tail], when that match
    consumes all of [tail]. *)
Definition tail_outcome (dirs : list Strptime.directive) (tail : string)
    : option Strptime.fields :=
  match Strptime.regex_match dirs tail Strptime.no_fields with
  | (g, EmptyString) :: _ => Some g
  | _ => None
  end.

(** The outcome on [tail] of the first format, in the order of the list,
    whose directives after [%Y] match it. *)
Fixpoint first_tail (skip_flags : bool) (tail : string) (fmts : list string)
    : option Strptime.fields :=
  match fmts with
  | [] => None
  | fmt :: rest =>
      match Strptime.tokenize skip_flags false fmt with
      | Some (Strptime.DirY :: dirs) =>
          match tail_outcome dirs tail with
          | Some g => Some g
          | None => first_tail skip_flags tail rest
          end
      | Some _ => None
      | None => first_tail skip_flags tail rest
      end
  end.

(** The texts the parser reads as the date they spell: any padding with a
    separator, full padding without. *)
Definition spelled_unambiguously (st : style) (pad_month pad_day : bool)
    : bool :=
  match st with
  | Compact => pad_month && pad_day
  | _ => true
  end.

Definition tail_parses (skip_flags : bool) (st : style)
    (pad_month pad_day : bool) (m d : Z) : bool :=
  match first_tail skip_flags (text_tail st pad_month pad_day m d) formats with
  | Some g =>
      match Strptime.f_Y g, Strptime.f_m g, Strptime.f_d g with
      | None, Some m', Some d' => (m' =? m) && (d' =? d)
      | _, _, _ => false
      end
  | None => false
  end.

(** The check of [tail_parses] over every day number of a month, and over
    every month. *)
Definition days_parse (skip_flags : bool) (st : style)
    (pad_month pad_day : bool) (m : Z) : bool :=
  forallb (tail_parses skip_flags st pad_month pad_day m) (range 1 32).

Definition months_parse (skip_flags : bool) (st : style)
    (pad_month pad_day : bool) : bool :=
  forallb (days_parse skip_flags st pad_month pad_day) (range 1 13).

(* ===================================================================== *)
(** * The endpoints for today and tomorrow *)
(* ===================================================================== *)

(** The body of the response of [check_default]. *)
Record default_response : Type := {
  dr_today : date_status;
  dr_tomorrow : date_status;
  dr_next_rest_day : option rest_day;
}.

(** The body of the response of [check_today]. *)
Record today_response : Type := {
  tr_today : date_status;
  tr_next_rest_day : option rest_day;
}.

(** The body of the response of [check_tomorrow]. *)
Record tomorrow_response : Type := {
  mr_tomorrow : date_status;
  mr_next_rest_day : option rest_day;
}.

Section Daily.

Context (J : json_codec).
Context (primary : primary_source).

Definition check_default : M J default_response :=
  let* today := date_today in
  let* delta := lift (PyDate.timedelta 1) in
  let* tomorrow := lift (PyDate.add today delta) in
  let* today_status := get_date_status J primary today in
  let* tomorrow_status := get_date_status J primary tomorrow in
  let today_status := pop_next_rest_day today_status in
  let tomorrow_status := pop_next_rest_day tomorrow_status in
  let* next := find_next_rest_day J primary today 30 in
  ret {| dr_today := today_status; dr_tomorrow := tomorrow_status;
         dr_next_rest_day := next |}.

Definition check_today : M J today_response :=
  let* today := date_today in
  let* status := get_date_status J primary today in
  let status := pop_next_rest_day status in
  let* next := find_next_rest_day J primary today 30 in
  ret {| tr_today := status; tr_next_rest_day := next |}.

Definition check_tomorrow : M J tomorrow_response :=
  let* today := date_today in
  let* delta := lift (PyDate.timedelta 1) in
  let* tomorrow := lift (PyDate.add today delta) in
  let* status := get_date_status J primary tomorrow in
  let status := pop_next_rest_day status in
  let* next := find_next_rest_day J primary today 30 in
  ret {| mr_tomorrow := status; mr_next_rest_day := next |}.

End Daily.

(** ** Further vocabulary *)

(** The detail of the 400 error [check_date] raises for a date the primary
    source has no data for. *)
Definition unsupported_year_error (d : date) : string :=
  "暂不支持查询 " +:+ str (PyDate.year d)
  +:+ " 年的数据，chinesecalendar 库尚未收录".

(** An item of the provider's payload as the fetcher reads it: the date
    and the name of an object that has a [str] under ["date"] and anything
    under ["localName"]. *)
Definition item_of (item : json) : option (string * json) :=
  match item with
  | JObj o =>
      match o !! "localName", o !! "date" with
      | Some name, Some (JStr d) => Some (d, name)
      | _, _ => None
      end
  | _ => None
  end.

(** The name the last pair with date [d] carries. *)
Definition last_name (pairs : list (string * json)) (d : string)
    : option json :=
  fold_left (fun found p => if String.eqb (fst p) d then Some (snd p)
                            else found) pairs None.

(** The value a dict built by the fetcher holds under a [str] key. *)
Definition pydict_get (r : pydict) (d : string) : option json :=
  option_map snd (find (fun kv => key_eqb (fst kv) (JStr d)) r).

(** The [str] keys of a dict built by the fetcher. *)
Definition str_keys (r : pydict) : list string :=
  omap (fun kv => match fst kv with JStr s => Some s | _ => None end) r.

(** Every key is a [str], and no key occurs twice. *)
Definition str_keyed (r : pydict) : Prop :=
  Forall (fun kv => exists s, fst kv = JStr s) r /\ NoDup (str_keys r).

(** What follows the year either is not matched by the format or spells
    the month [m] and the day [d] under it. *)
Definition format_spells (skip_flags : bool) (tail : string) (m d : Z)
    (fmt : string) : bool :=
  match Strptime.tokenize skip_flags false fmt with
  | None => true
  | Some (Strptime.DirY :: dirs) =>
      match tail_outcome dirs tail with
      | None => true
      | Some g =>
          match Strptime.f_Y g, Strptime.f_m g, Strptime.f_d g with
          | None, Some m', Some d' => (m' =? m) && (d' =? d)
          | _, _, _ => false
          end
      end
  | Some _ => false
  end.

Definition tail_spells (skip_flags : bool) (tail : string) (m d : Z)
    : bool :=
  forallb (format_spells skip_flags tail m d) formats.

Definition days_spell (skip_flags : bool) (st : style)
    (pad_month pad_day : bool) (m : Z) : bool :=
  forallb (fun d =>
    tail_spells skip_flags (text_tail st pad_month pad_day m d) m d)
    (range 1 32).

Definition months_spell (skip_flags : bool) (st : style)
    (pad_month pad_day : bool) : bool :=
  forallb (days_spell skip_flags st pad_month pad_day) (range 1 13).

(** ** Further sample collaborators *)

(** A cache directory the process may not search. *)
Definition inaccessible_world (today : date) : world sample_codec :=
  {| cache_file := FileInaccessible; disk := NoFault; clock := today;
     log := [] |}.

(** A [str] that is one lone surrogate, U+D800, what [json.loads] makes
    of the escape [\ud800]. *)
Definition lone_surrogate : string :=
  String (ascii_of_N 237) (String (ascii_of_N 160)
    (String (ascii_of_N 128) EmptyString)).

(** A cache file that holds a name with a lone surrogate. *)
Definition surrogate_index : json :=
  JObj {[ "2025" := JObj {[ "2025-10-01" := JStr lone_surrogate ]} ]}.

Definition surrogate_world (today : date) : world sample_codec :=
  {| cache_file := FileContent (Some surrogate_index : text sample_codec);
     disk := NoFault; clock := today; log := [] |}.



(** A payload whose second item has no ["localName"]. *)
Definition broken_payload : json :=
  JArr [JObj {[ "date" := JStr "2026-01-01"; "localName" := JStr "元旦" ]};
        JObj {[ "date" := JStr "2026-02-17" ]};
        JObj {[ "date" := JStr "2026-02-18"; "localName" := JStr "春节" ]}].

Definition broken_http (url : string) : http_outcome (text sample_codec) :=
  HttpResponse 200 (Some broken_payload).

(** A payload that names 1 January twice. *)
Definition repeating_payload : list json :=
  [JObj {[ "date" := JStr "2026-01-01"; "localName" := JStr "New Year" ]};
   JObj {[ "date" := JStr "2026-02-17"; "localName" := JStr "春节" ]};
   JObj {[ "date" := JStr "2026-01-01"; "localName" := JStr "元旦" ]}].

Definition repeating_http (url : string)
    : http_outcome (text sample_codec) :=
  HttpResponse 200 (Some (JArr repeating_payload)).

(** The primary source has no data for the date: one of its two
    functions raises [NotImplementedError] on it. *)
Definition no_data (primary : primary_source) (d : date) : Prop :=
  is_workday primary d = None \/ get_holiday_detail primary d = None.

(* ===================================================================== *)
(** * Ranges *)
(* ===================================================================== *)

Lemma range_nil start stop : stop <= start -> range start stop = [].
Proof.
  intros H. unfold range.
  replace (Z.to_nat (stop - start)) with 0%nat by lia. reflexivity.
Qed.

Lemma range_cons start stop :
  start < stop -> range start stop = start :: range (start + 1) stop.
Proof.
  intros H. unfold range.
  replace (Z.to_nat (stop - start)) with (S (Z.to_nat (stop - (start + 1))))
    by lia.
  cbn [seq map]. f_equal; [lia |].
  rewrite <- seq_shift, map_map. apply map_ext. intros k. lia.
Qed.

Lemma elem_of_range start stop i :
  In i (range start stop) <-> start <= i < stop.
Proof.
  unfold range. rewrite in_map_iff. split.
  - intros (k & <- & Hk). apply in_seq in Hk. lia.
  - intros H. exists (Z.to_nat (i - start)). split; [lia |].
    apply in_seq. lia.
Qed.

(** A range cut at one of its elements: what precedes is the range up to
    that element. *)
Lemma range_split start stop pre i post :
  range start stop = pre ++ i :: post ->
  start <= i < stop /\ pre = range start i.
Proof.
  revert start. induction pre as [| p pre IH]; intros start H.
  - destruct (Z_lt_le_dec start stop) as [Hlt | Hle].
    + rewrite range_cons in H by assumption. cbn in H.
      injection H as <- _. split; [lia |]. now rewrite range_nil by lia.
    + rewrite range_nil in H by assumption. discriminate.
  - destruct (Z_lt_le_dec start stop) as [Hlt | Hle].
    + rewrite range_cons in H by assumption. cbn in H.
      injection H as <- H. apply IH in H as [Hi ->].
      split; [lia |]. now rewrite (range_cons start i) by lia.
    + rewrite range_nil in H by assumption. discriminate.
Qed.

(* ===================================================================== *)
(** * Loops *)
(* ===================================================================== *)

Section Loops.

Context (J : json_codec) {R : Type}.
Context (body : Z -> M J (loop_exit R)).
Context (falls_through breaks : Z -> Prop).
Context (returns : world J -> Z -> R -> Prop) (fails : Z -> exn -> Prop).

Lemma for_in_cons i items w :
  for_in J (i :: items) body w =
  match body i w with
  | (Ok Next, w') => for_in J items body w'
  | (Ok Break, w') => (Ok None, w')
  | (Ok (Return r), w') => (Ok (Some r), w')
  | (Raise e, w') => (Raise e, w')
  end.
Proof.
  cbn [for_in]. unfold bind.
  destruct (body i w) as [[[| | r] | e] w']; reflexivity.
Qed.

(** A loop leaves at the first turn that does not fall through. *)
Lemma for_in_inv :
  turn_spec J body falls_through breaks returns fails ->
  forall items w,
    snd (for_in J items body w) = w /\
    match fst (for_in J items body w) with
    | Ok (Some r) =>
        exists pre i post,
          items = pre ++ i :: post /\ Forall falls_through pre /\
          returns w i r
    | Ok None =>
        Forall falls_through items \/
        exists pre i post,
          items = pre ++ i :: post /\ Forall falls_through pre /\ breaks i
    | Raise e =>
        exists pre i post,
          items = pre ++ i :: post /\ Forall falls_through pre /\ fails i e
    end.
Proof.
  intros Hturn items. induction items as [| i items IH]; intros w.
  - cbn. split; [reflexivity | left; constructor].
  - rewrite for_in_cons.
    destruct (Hturn i w) as [Hw Hi].
    destruct (body i w) as [[[| | r] | e] w']; cbn in Hw, Hi; subst w'.
    + destruct (IH w) as [Hw' Hrest]. split; [assumption |].
      destruct (fst (for_in J items body w)) as [[r |] | e].
      * destruct Hrest as (pre & k & post & -> & Hpre & Hk).
        exists (i :: pre), k, post. repeat split; auto.
      * destruct Hrest as [Hall | (pre & k & post & -> & Hpre & Hk)].
        -- left. constructor; assumption.
        -- right. exists (i :: pre), k, post. repeat split; auto.
      * destruct Hrest as (pre & k & post & -> & Hpre & Hk).
        exists (i :: pre), k, post. repeat split; auto.
    + cbn. split; [reflexivity |]. right.
      exists [], i, items. repeat split; auto.
    + cbn. split; [reflexivity |].
      exists [], i, items. repeat split; auto.
    + cbn. split; [reflexivity |].
      exists [], i, items. repeat split; auto.
Qed.

End Loops.

(* ===================================================================== *)
(** * The next-rest-day scanner *)
(* ===================================================================== *)

Section Scanner.

Context (J : json_codec) (primary : primary_source).

Lemma find_next_rest_day_inv from_date max_days (w : world J) :
  snd (find_next_rest_day J primary from_date max_days w) = w /\
  match fst (find_next_rest_day J primary from_date max_days w) with
  | Ok (Some rd) =>
      exists i,
        1 <= i <= max_days /\
        (forall j, 1 <= j < i -> working primary (from_date + j)) /\
        reachable from_date i /\
        rest_day_of primary (clock w) (from_date + i) rd
  | Ok None =>
      (forall j, 1 <= j <= max_days ->
         reachable from_date j /\ working primary (from_date + j)) \/
      exists i,
        1 <= i <= max_days /\
        (forall j, 1 <= j < i -> working primary (from_date + j)) /\
        reachable from_date i /\
        unsupported primary (from_date + i)
  | Raise e =>
      e = OverflowError /\
      exists i,
        1 <= i <= max_days /\
        (forall j, 1 <= j < i -> working primary (from_date + j)) /\
        ~ reachable from_date i
  end.
Proof.
  unfold find_next_rest_day.
  match goal with
  | |- context [for_in J ?items ?body w] =>
      pose proof (for_in_inv J body
        (fun i => reachable from_date i /\ working primary (from_date + i))
        (fun i => reachable from_date i /\
                  unsupported primary (from_date + i))
        (fun w i rd => reachable from_date i /\
                       rest_day_of primary (clock w) (from_date + i) rd)
        (fun i e => e = OverflowError /\ ~ reachable from_date i)) as Hinv
  end.
  assert (Hsplit : forall pre i post,
    range 1 (max_days + 1) = pre ++ i :: post ->
    Forall (fun i => reachable from_date i /\
                     working primary (from_date + i)) pre ->
    1 <= i <= max_days /\
    forall j, 1 <= j < i -> working primary (from_date + j)).
  { intros pre i post Hcut Hpre. apply range_split in Hcut as [Hi ->].
    split; [lia |]. intros j Hj.
    rewrite Forall_forall in Hpre.
    apply (Hpre j). apply list_elem_of_In, elem_of_range. lia. }
  specialize (fun Hturn => Hinv Hturn (range 1 (max_days + 1)) w).
  lapply Hinv; clear Hinv;
    [intros [Hw Hres]; split; [exact Hw |] |]; cycle 1.
  - (* one turn of the loop *)
    intros i w0. unfold bind, lift, try_except, ask, date_today, ret, raise,
      reachable, PyDate.timedelta, PyDate.add, unsupported, working,
      rest_day_of, non_working.
    destruct (Z.abs i <=? 999999999) eqn:Habs; cbn;
      [| split; [reflexivity | split; [reflexivity | lia]]].
    destruct ((0 <? from_date + i) && (from_date + i <=? PyDate.MAXORDINAL))
      eqn:Hrange; cbn;
      [| split; [reflexivity | split; [reflexivity | lia]]].
    assert (Hreach : Z.abs i <= 999999999 /\
                     0 < from_date + i <= PyDate.MAXORDINAL) by lia.
    destruct (is_workday primary (from_date + i)) as [[|] |] eqn:Hwork; cbn.
    + auto.
    + destruct (get_holiday_detail primary (from_date + i))
        as [[on_holiday holiday_name] |] eqn:Hdetail; cbn.
      * split; [reflexivity |]. split; [assumption |].
        split; [reflexivity |]. exists on_holiday, holiday_name.
        repeat split.
      * auto.
    + auto.
  - destruct (fst (for_in J (range 1 (max_days + 1)) _ w))
      as [[rd |] | e].
    + destruct Hres as (pre & i & post & Hcut & Hpre & Hreach & Hfound).
      destruct (Hsplit _ _ _ Hcut Hpre) as [Hi Hbefore].
      exists i. auto.
    + destruct Hres as [Hall | (pre & i & post & Hcut & Hpre & Hreach & Hun)].
      * left. intros j Hj. rewrite Forall_forall in Hall.
        apply (Hall j). apply list_elem_of_In, elem_of_range. lia.
      * right. destruct (Hsplit _ _ _ Hcut Hpre) as [Hi Hbefore].
        exists i. auto.
    + destruct Hres as (pre & i & post & Hcut & Hpre & -> & Hnot).
      destruct (Hsplit _ _ _ Hcut Hpre) as [Hi Hbefore].
      split; [reflexivity |]. exists i. auto.
Qed.

End Scanner.

Section ScannerClaims.

Context (J : json_codec) (primary : primary_source).

Lemma valid_reachable from_date max_days i :
  PyDate.valid from_date -> from_date + max_days <= PyDate.MAXORDINAL ->
  1 <= i <= max_days -> reachable from_date i.
Proof. unfold PyDate.valid, reachable, PyDate.MAXORDINAL. lia. Qed.

Lemma working_not_non_working d :
  working primary d -> ~ non_working primary d.
Proof. unfold working, non_working. congruence. Qed.

Lemma working_not_unsupported d :
  working primary d -> ~ unsupported primary d.
Proof. unfold working, unsupported. intros H [H' | [H' _]]; congruence. Qed.

(** Within the calendar the scan returns. *)
Lemma find_next_rest_day_returns from_date max_days (w : world J) :
  PyDate.valid from_date ->
  from_date + max_days <= PyDate.MAXORDINAL ->
  exists r, find_next_rest_day J primary from_date max_days w = (Ok r, w).
Proof.
  intros Hvalid Hbound.
  destruct (find_next_rest_day_inv J primary from_date max_days w)
    as [Hw Hres].
  destruct (find_next_rest_day J primary from_date max_days w)
    as [[r | e] w0]; cbn in Hw, Hres; subst w0.
  - exists r. reflexivity.
  - destruct Hres as (_ & i & Hi & _ & Hnot).
    destruct Hnot. eapply valid_reachable; eauto.
Qed.

Lemma rest_day_of_unique today d rd1 rd2 :
  rest_day_of primary today d rd1 -> rest_day_of primary today d rd2 ->
  rd1 = rd2.
Proof.
  intros (_ & h1 & n1 & Hd1 & A1 & B1 & C1 & D1)
         (_ & h2 & n2 & Hd2 & A2 & B2 & C2 & D2).
  rewrite Hd1 in Hd2. injection Hd2 as <- <-.
  destruct rd1, rd2. cbn in *. congruence.
Qed.

(** The scan stops at the first date that is not a working day. *)
Lemma scan_stops_at from_date max_days i (w : world J) rd :
  PyDate.valid from_date ->
  1 <= i <= max_days ->
  (forall j, 1 <= j < i -> working primary (from_date + j)) ->
  reachable from_date i ->
  rest_day_of primary (clock w) (from_date + i) rd ->
  find_next_rest_day J primary from_date max_days w = (Ok (Some rd), w).
Proof.
  intros Hvalid Hi Hbefore Hreach Hrd.
  destruct (find_next_rest_day_inv J primary from_date max_days w)
    as [Hw Hres].
  destruct (find_next_rest_day J primary from_date max_days w)
    as [r w0] eqn:Hrun.
  cbn in Hw, Hres. subst w0.
  assert (Hnw : non_working primary (from_date + i)) by apply Hrd.
  assert (Hle : forall k,
    (forall j, 1 <= j < k -> working primary (from_date + j)) ->
    k <= i).
  { intros k Hpre. destruct (Z_le_gt_dec k i) as [| Hgt]; [assumption |].
    destruct (working_not_non_working (from_date + i)); auto.
    apply Hpre. lia. }
  destruct r as [[rd' |] | e].
  - destruct Hres as (k & Hk & Hpre & _ & Hrd').
    assert (k <= i) by auto.
    destruct (Z.eq_dec k i) as [-> | Hne].
    + now rewrite (rest_day_of_unique _ _ _ _ Hrd Hrd').
    + destruct (working_not_non_working (from_date + k)).
      * apply Hbefore. lia.
      * apply Hrd'.
  - destruct Hres as [Hall | (k & Hk & Hpre & _ & Hun)].
    + destruct (working_not_non_working (from_date + i)); auto.
      apply Hall. assumption.
    + assert (k <= i) by auto.
      destruct (Z.eq_dec k i) as [-> | Hne].
      * destruct Hrd as (Hn & h & n & Hd & _).
        unfold unsupported, non_working in *.
        destruct Hun as [Hun | [_ Hun]]; congruence.
      * destruct (working_not_unsupported (from_date + k)); auto.
        apply Hbefore. lia.
  - destruct Hres as (_ & k & Hk & Hpre & Hnot).
    assert (k <= i) by auto.
    destruct Hnot. unfold reachable, PyDate.valid in *. lia.
Qed.

(** C3 (as amended).  For every start date and every horizon, a result of
    [find_next_rest_day] is the rest day of a date [from_date + i] with
    1 <= i <= horizon that the primary source marks non-working, every
    date of the range before it being a working day, so it is the
    earliest non-working day of the range and lies after [from_date]; when
    [from_date + horizon] is no later than 9999-12-31, the function returns
    (it does not raise), and returns [None] if the range holds no
    non-working day; the only exception it lets out is the
    [OverflowError] of a range that runs past 9999-12-31; and every date
    from [from_date + 1] to [from_date + horizon], the last one included,
    is examined: a non-working day of the range with working days only
    before it is the rest day returned. *)
Theorem find_next_rest_day_earliest from_date max_days (w : world J) :
  PyDate.valid from_date ->
  (forall rd w',
     find_next_rest_day J primary from_date max_days w = (Ok (Some rd), w') ->
     exists i,
       1 <= i <= max_days /\
       non_working primary (from_date + i) /\
       (forall j, 1 <= j < i -> working primary (from_date + j)) /\
       (forall j, 1 <= j < i -> ~ non_working primary (from_date + j)) /\
       rd_date rd = PyDate.isoformat (from_date + i) /\
       from_date < from_date + i) /\
  (from_date + max_days <= PyDate.MAXORDINAL ->
   exists r,
     find_next_rest_day J primary from_date max_days w = (Ok r, w) /\
     ((forall i, 1 <= i <= max_days ->
         ~ non_working primary (from_date + i)) -> r = None)) /\
  (forall e w',
     find_next_rest_day J primary from_date max_days w = (Raise e, w') ->
     e = OverflowError /\ PyDate.MAXORDINAL < from_date + max_days) /\
  (forall i on_holiday holiday_name,
     1 <= i <= max_days ->
     from_date + i <= PyDate.MAXORDINAL ->
     (forall j, 1 <= j < i -> working primary (from_date + j)) ->
     non_working primary (from_date + i) ->
     get_holiday_detail primary (from_date + i)
       = Some (on_holiday, holiday_name) ->
     find_next_rest_day J primary from_date max_days w =
     (Ok (Some {| rd_date := PyDate.isoformat (from_date + i);
                  rd_weekday := weekday_name (from_date + i);
                  rd_detail := name_if on_holiday holiday_name "周末";
                  rd_days_from_now :=
                    PyDate.sub_days (from_date + i) (clock w) |}), w)).
Proof.
  intros Hvalid.
  assert (Hfound : forall i on_holiday holiday_name,
     1 <= i <= max_days ->
     from_date + i <= PyDate.MAXORDINAL ->
     (forall j, 1 <= j < i -> working primary (from_date + j)) ->
     non_working primary (from_date + i) ->
     get_holiday_detail primary (from_date + i)
       = Some (on_holiday, holiday_name) ->
     find_next_rest_day J primary from_date max_days w =
     (Ok (Some {| rd_date := PyDate.isoformat (from_date + i);
                  rd_weekday := weekday_name (from_date + i);
                  rd_detail := name_if on_holiday holiday_name "周末";
                  rd_days_from_now :=
                    PyDate.sub_days (from_date + i) (clock w) |}), w)).
  { intros i on_holiday holiday_name Hi Hbound Hbefore Hnw Hdetail.
    apply (scan_stops_at from_date max_days i); try assumption.
    - unfold reachable, PyDate.valid, PyDate.MAXORDINAL in *. lia.
    - split; [assumption |]. exists on_holiday, holiday_name.
      repeat split; assumption || reflexivity. }
  destruct (find_next_rest_day_inv J primary from_date max_days w)
    as [Hw Hres].
  destruct (find_next_rest_day J primary from_date max_days w)
    as [r w0] eqn:Hrun.
  cbn in Hw, Hres. subst w0. split; [| split; [| split]]; [| | | exact Hfound].
  - intros rd w' [= -> <-].
    destruct Hres as (i & Hi & Hbefore & _ & Hnw & _ & _ & _ & Hdate & _).
    exists i. repeat split; auto; try lia.
    intros j Hj. apply working_not_non_working. auto.
  - intros Hbound. destruct r as [r | e].
    + exists r. split; [reflexivity |]. intros Hnone.
      destruct r as [rd |]; [| reflexivity].
      destruct Hres as (i & Hi & _ & _ & Hnw & _).
      destruct (Hnone i Hi Hnw).
    + destruct Hres as (_ & i & Hi & _ & Hnot).
      destruct Hnot. eapply valid_reachable; eauto.
  - intros e w' [= -> <-].
    destruct Hres as (-> & i & Hi & _ & Hnot). split; [reflexivity |].
    destruct (Z_lt_le_dec PyDate.MAXORDINAL (from_date + max_days))
      as [Hlt | Hle]; [assumption |].
    destruct Hnot. eapply valid_reachable; eauto.
Qed.

(** C4.  The [days_from_now] of the rest day found is the number of days
    from the current date to the date found, whatever the start date of
    the scan: it differs from the distance to the start date by the
    distance between the start date and today. *)
Theorem days_from_now_counts_from_today from_date max_days (w w' : world J)
    rd :
  find_next_rest_day J primary from_date max_days w = (Ok (Some rd), w') ->
  exists d,
    from_date < d <= from_date + max_days /\
    rd_date rd = PyDate.isoformat d /\
    rd_days_from_now rd = PyDate.sub_days d (clock w) /\
    rd_days_from_now rd =
      PyDate.sub_days d from_date + PyDate.sub_days from_date (clock w).
Proof.
  intros Hrun.
  destruct (find_next_rest_day_inv J primary from_date max_days w)
    as [_ Hres].
  rewrite Hrun in Hres. cbn in Hres.
  destruct Hres as (i & Hi & _ & _ & _ & h & n & _ & Hdate & _ & _ & Hdays).
  exists (from_date + i). repeat split; auto; try lia.
  rewrite Hdays. unfold PyDate.sub_days. lia.
Qed.

(** The scanner never lets [NotImplementedError] out. *)
Lemma find_next_rest_day_contains_unsupported from_date max_days
    (w : world J) :
  fst (find_next_rest_day J primary from_date max_days w)
  <> Raise NotImplementedError.
Proof.
  destruct (find_next_rest_day_inv J primary from_date max_days w)
    as [_ Hres].
  destruct (fst (find_next_rest_day J primary from_date max_days w))
    as [r | e]; [discriminate |].
  destruct Hres as [-> _]. discriminate.
Qed.

(** C5.  When the scan reaches a date for which the primary source
    raises [NotImplementedError] (every date of the range before it
    being a working day), [find_next_rest_day] stops there and returns
    [None]; the error does not reach the caller. *)
Theorem unsupported_year_stops_scan from_date max_days k (w : world J) :
  PyDate.valid from_date ->
  1 <= k <= max_days ->
  from_date + k <= PyDate.MAXORDINAL ->
  (forall j, 1 <= j < k -> working primary (from_date + j)) ->
  unsupported primary (from_date + k) ->
  find_next_rest_day J primary from_date max_days w = (Ok None, w).
Proof.
  intros Hvalid Hk Hbound Hbefore Hun.
  destruct (find_next_rest_day_inv J primary from_date max_days w)
    as [Hw Hres].
  destruct (find_next_rest_day J primary from_date max_days w)
    as [r w0] eqn:Hrun.
  cbn in Hw, Hres. subst w0.
  assert (Hcmp : forall i,
    (forall j, 1 <= j < i -> working primary (from_date + j)) ->
    1 <= i -> i <= k).
  { intros i Hpre Hi. destruct (Z_le_gt_dec i k) as [| Hgt]; [assumption |].
    destruct (working_not_unsupported (from_date + k)); auto.
    apply Hpre. lia. }
  destruct r as [[rd |] | e].
  - destruct Hres as (i & Hi & Hpre & _ & Hnw & h & n & Hdetail & _).
    assert (i <= k) by (apply Hcmp; [assumption | lia]).
    destruct (Z.eq_dec i k) as [-> | Hne].
    + unfold unsupported, non_working in *.
      destruct Hun as [Hun | [_ Hun]]; congruence.
    + destruct (working_not_non_working (from_date + i)); auto.
      apply Hbefore. lia.
  - reflexivity.
  - destruct Hres as (_ & i & Hi & Hpre & Hnot).
    assert (i <= k) by (apply Hcmp; [assumption | lia]).
    destruct Hnot. apply (valid_reachable from_date k); auto. lia.
Qed.

End ScannerClaims.

(* ===================================================================== *)
(** * The secondary cache store *)
(* ===================================================================== *)

Section Store.

Context (J : json_codec).

Lemma load_cache_run (w : world J) :
  load_cache J w = (load_outcome w, after_load w).
Proof.
  unfold load_cache, load_outcome, cached_index, after_load, bind,
    path_exists, try_except, read_text, loads, logger, ret, raise.
  destruct w as [file fault today records]. cbn.
  destruct file as [| | t |]; cbn; try reflexivity.
  destruct (json_loads J t); reflexivity.
Qed.

Lemma load_outcome_accessible (w : world J) :
  accessible w -> load_outcome w = Ok (cached_index w).
Proof.
  unfold accessible, load_outcome.
  destruct (cache_file w); congruence.
Qed.

Lemma load_outcome_inaccessible (w : world J) :
  cache_file w = FileInaccessible -> load_outcome w = Raise PermissionError.
Proof. unfold load_outcome. now intros ->. Qed.

Lemma accessible_dec (w : world J) :
  {accessible w} + {cache_file w = FileInaccessible}.
Proof.
  unfold accessible. destruct (cache_file w); (left; discriminate) || auto.
Qed.

Lemma after_load_cache_file (w : world J) :
  cache_file (after_load w) = cache_file w.
Proof.
  unfold after_load. destruct w as [[| | t |] fault today records]; cbn;
    try reflexivity.
  destruct (json_loads J t); reflexivity.
Qed.

Lemma after_load_clock (w : world J) : clock (after_load w) = clock w.
Proof.
  unfold after_load. destruct w as [[| | t |] fault today records]; cbn;
    try reflexivity.
  destruct (json_loads J t); reflexivity.
Qed.

Lemma after_load_disk (w : world J) : disk (after_load w) = disk w.
Proof.
  unfold after_load. destruct w as [[| | t |] fault today records]; cbn;
    try reflexivity.
  destruct (json_loads J t); reflexivity.
Qed.

Lemma after_load_inaccessible (w : world J) :
  cache_file w = FileInaccessible -> after_load w = w.
Proof. unfold after_load. now intros ->. Qed.

Lemma cache_check_accessible (w : world J) target_date on_holiday :
  accessible w ->
  cache_check w target_date on_holiday
  = cross_check (cached_index w) target_date on_holiday.
Proof.
  intros H. unfold cache_check. now rewrite load_outcome_accessible.
Qed.

Lemma cache_check_inaccessible (w : world J) target_date on_holiday :
  cache_file w = FileInaccessible ->
  cache_check w target_date on_holiday = Raise PermissionError.
Proof.
  intros H. unfold cache_check. now rewrite load_outcome_inaccessible.
Qed.

(** One run of [save_cache], step by step. *)
Lemma save_cache_run data (w : world J) :
  save_cache J data w =
  match disk w with
  | MkdirFails => (Raise OSError, w)
  | _ => write_text (json_dumps J data) w
  end.
Proof.
  unfold save_cache, bind, mkdir. destruct (disk w); reflexivity.
Qed.

(** A save that returns has written the text. *)
Lemma save_cache_returned data (w w' : world J) :
  save_cache J data w = (Ok tt, w') ->
  w' = set_file w (FileContent (json_dumps J data)) /\
  accessible w /\ encodable J (json_dumps J data) = true.
Proof.
  rewrite save_cache_run. unfold write_text, accessible.
  destruct (disk w), (cache_file w),
    (encodable J (json_dumps J data)); intros [= <-];
    repeat split; discriminate.
Qed.

(** On a file within reach and a file system without fault, a text that
    can be encoded is written. *)
Lemma save_cache_writes data (w : world J) :
  accessible w -> disk w = NoFault ->
  encodable J (json_dumps J data) = true ->
  save_cache J data w
  = (Ok tt, set_file w (FileContent (json_dumps J data))).
Proof.
  unfold accessible. intros Hfile Hdisk Henc.
  rewrite save_cache_run, Hdisk. unfold write_text.
  rewrite Hdisk, Henc. destruct (cache_file w); congruence.
Qed.

(** A text that cannot be encoded: the file is emptied, and
    [UnicodeEncodeError] raised. *)
Lemma save_cache_unencodable data (w : world J) :
  accessible w -> disk w = NoFault \/ disk w = WriteFails ->
  encodable J (json_dumps J data) = false ->
  save_cache J data w
  = (Raise UnicodeEncodeError, set_file w (FileContent (empty_text J))).
Proof.
  unfold accessible. intros Hfile Hdisk Henc.
  rewrite save_cache_run. unfold write_text. rewrite Henc.
  destruct Hdisk as [-> | ->]; destruct (cache_file w);
    congruence.
Qed.

(** The exceptions [save_cache] lets out, and what each leaves of the
    file. *)
Lemma save_cache_raised data (w w' : world J) e :
  save_cache J data w = (Raise e, w') ->
  (e = OSError /\ w' = w /\ (disk w = MkdirFails \/ disk w = OpenFails)) \/
  (e = PermissionError /\ w' = w /\ cache_file w = FileInaccessible) \/
  (e = UnicodeEncodeError /\ accessible w /\
   encodable J (json_dumps J data) = false /\
   w' = set_file w (FileContent (empty_text J))) \/
  (e = OSError /\ accessible w /\ disk w = WriteFails /\
   encodable J (json_dumps J data) = true /\
   w' = set_file w (FileContent (empty_text J))).
Proof.
  rewrite save_cache_run. unfold write_text, accessible.
  destruct (disk w) eqn:Hdisk;
    destruct (cache_file w) eqn:Hfile;
    destruct (encodable J (json_dumps J data)) eqn:Henc;
    cbv zeta; intros [= <- <-];
    intuition (auto; try congruence).
Qed.

End Store.

(* ===================================================================== *)
(** * The date status resolver *)
(* ===================================================================== *)

Section Resolver.

Context (J : json_codec) (primary : primary_source).

(** One run of the resolver, step by step. *)
Lemma get_date_status_run target_date (w : world J) :
  get_date_status J primary target_date w =
  match is_workday primary target_date with
  | None => (Raise NotImplementedError, w)
  | Some is_work =>
      match get_holiday_detail primary target_date with
      | None => (Raise NotImplementedError, w)
      | Some (on_holiday, holiday_name) =>
          match cache_check w target_date on_holiday with
          | Raise e => (Raise e, after_load w)
          | Ok warning =>
              match find_next_rest_day J primary target_date 30
                      (after_load w) with
              | (Raise e, w') => (Raise e, w')
              | (Ok next, w') =>
                  (Ok {| ds_date := PyDate.isoformat target_date;
                         ds_weekday := weekday_name target_date;
                         ds_is_workday := is_work;
                         ds_detail :=
                           if on_holiday
                           then str_or holiday_name "法定节假日"
                           else if is_work
                                   && (5 <=? PyDate.weekday target_date)
                           then "调休补班"
                           else if negb is_work
                                   && (PyDate.weekday target_date <? 5)
                           then "休息日"
                           else if is_work then "正常工作日"
                           else "周末";
                         ds_next_rest_day := Some next;
                         ds_warning := warning;
                         ds_holiday_name :=
                           if on_holiday && str_truthy holiday_name
                           then holiday_name else None |}, w')
              end
          end
      end
  end.
Proof.
  unfold get_date_status, cache_check, cross_check.
  unfold bind at 1. unfold ask at 1.
  destruct (is_workday primary target_date) as [is_work |];
    [| reflexivity].
  cbn [ret]. unfold bind at 1. unfold ask at 1.
  destruct (get_holiday_detail primary target_date)
    as [[on_holiday holiday_name] |]; [| reflexivity].
  cbn [ret]. unfold bind at 1. rewrite load_cache_run.
  destruct (load_outcome w) as [cache | e]; [| reflexivity].
  unfold bind at 1. unfold lift at 1.
  destruct (py_get cache (str (PyDate.year target_date))
              empty_dict) as [year_cache | e]; [| reflexivity].
  destruct (truthy year_cache).
  - unfold bind at 1. unfold bind at 1. unfold lift at 1.
    destruct (py_contains (PyDate.isoformat target_date) year_cache)
      as [in_nager | e]; [| reflexivity].
    destruct (on_holiday && negb in_nager);
      [| destruct (negb on_holiday && in_nager)];
      cbn [ret]; unfold bind at 1;
      destruct (find_next_rest_day J primary target_date 30 (after_load w))
        as [[next | e] w']; reflexivity.
  - unfold bind at 1. cbn [ret]. unfold bind at 1.
    destruct (find_next_rest_day J primary target_date 30 (after_load w))
      as [[next | e] w']; reflexivity.
Qed.

End Resolver.

Section LoopsRelated.

Context (J : json_codec) {R : Type}.
Context (body : Z -> M J (loop_exit R)).
Context (erase : R -> R) (alike : world J -> world J -> Prop).

(** Two runs of a loop whose turns agree up to [erase] agree up to
    [erase]. *)
Lemma for_in_alike :
  (forall i w1 w2, alike w1 w2 ->
     snd (body i w1) = w1 /\ snd (body i w2) = w2 /\
     result_map (loop_exit_map erase) (fst (body i w1)) =
     result_map (loop_exit_map erase) (fst (body i w2))) ->
  forall items w1 w2, alike w1 w2 ->
    result_map (option_map erase) (fst (for_in J items body w1)) =
    result_map (option_map erase) (fst (for_in J items body w2)).
Proof.
  intros Hturn items. induction items as [| i items IH]; intros w1 w2 Hw.
  - reflexivity.
  - rewrite !for_in_cons.
    destruct (Hturn i w1 w2 Hw) as (H1 & H2 & Hsame).
    destruct (body i w1) as [[[| | r1] | e1] w1'];
      destruct (body i w2) as [[[| | r2] | e2] w2'];
      cbn in H1, H2, Hsame; subst; try discriminate; cbn.
    + apply IH. assumption.
    + reflexivity.
    + injection Hsame as ->. reflexivity.
    + injection Hsame as ->. reflexivity.
Qed.

End LoopsRelated.

Section ResolverClaims.

Context (J : json_codec) (primary : primary_source).

Lemma scan_turn_alike from_date (erase : rest_day -> rest_day)
    (alike : world J -> world J -> Prop) :
  (forall d w1 w2 on_holiday holiday_name, alike w1 w2 ->
     erase {| rd_date := PyDate.isoformat d; rd_weekday := weekday_name d;
              rd_detail := name_if on_holiday holiday_name "周末";
              rd_days_from_now := PyDate.sub_days d (clock w1) |} =
     erase {| rd_date := PyDate.isoformat d; rd_weekday := weekday_name d;
              rd_detail := name_if on_holiday holiday_name "周末";
              rd_days_from_now := PyDate.sub_days d (clock w2) |}) ->
  forall max_days w1 w2, alike w1 w2 ->
    result_map (option_map erase)
      (fst (find_next_rest_day J primary from_date max_days w1)) =
    result_map (option_map erase)
      (fst (find_next_rest_day J primary from_date max_days w2)).
Proof.
  intros Herase max_days w1 w2 Hw. unfold find_next_rest_day.
  apply for_in_alike with (alike := alike); [| assumption].
  clear w1 w2 Hw. intros i w1 w2 Hw.
  unfold bind, lift, try_except, ask, date_today, ret, raise,
    PyDate.timedelta, PyDate.add.
  destruct (Z.abs i <=? 999999999); cbn; [| auto].
  destruct ((0 <? from_date + i) && (from_date + i <=? PyDate.MAXORDINAL));
    cbn; [| auto].
  destruct (is_workday primary (from_date + i)) as [[|] |]; cbn; auto.
  destruct (get_holiday_detail primary (from_date + i))
    as [[on_holiday holiday_name] |]; cbn; auto.
  repeat split. do 2 f_equal. apply Herase. assumption.
Qed.

(** The scan reads the world only for the current date. *)
Lemma find_next_rest_day_same_clock from_date max_days (w1 w2 : world J) :
  clock w1 = clock w2 ->
  fst (find_next_rest_day J primary from_date max_days w1) =
  fst (find_next_rest_day J primary from_date max_days w2).
Proof.
  intros Hclock.
  pose proof (scan_turn_alike from_date id
                (fun w1 w2 => clock w1 = clock w2)) as H.
  specialize (H ltac:(intros; cbn; congruence) max_days w1 w2 Hclock).
  destruct (fst (find_next_rest_day J primary from_date max_days w1))
    as [[r1 |] | e1];
    destruct (fst (find_next_rest_day J primary from_date max_days w2))
      as [[r2 |] | e2]; cbn in H; congruence.
Qed.

(** The current date enters the scan through [days_from_now] only. *)
Lemma find_next_rest_day_forget from_date max_days (w1 w2 : world J) :
  result_map (option_map forget_distance)
    (fst (find_next_rest_day J primary from_date max_days w1)) =
  result_map (option_map forget_distance)
    (fst (find_next_rest_day J primary from_date max_days w2)).
Proof.
  apply (scan_turn_alike from_date forget_distance (fun _ _ => True));
    [| exact I].
  reflexivity.
Qed.

Lemma find_next_rest_day_world from_date max_days (w : world J) :
  snd (find_next_rest_day J primary from_date max_days w) = w.
Proof. apply find_next_rest_day_inv. Qed.

(** The resolver returns a verdict for a supported date whose 30-day
    window is within the calendar, when the cache file can be examined and
    the index has the shape of the data model. *)
Lemma get_date_status_returns target_date (w : world J) :
  accessible w ->
  supported primary target_date ->
  PyDate.valid target_date ->
  target_date + 30 <= PyDate.MAXORDINAL ->
  index_shaped (cached_index w) (PyDate.year target_date) ->
  exists v, get_date_status J primary target_date w = (Ok v, after_load w).
Proof.
  intros Hfile [[is_work Hwork] [[on_holiday holiday_name] Hdetail]]
    Hvalid Hbound (o & Hindex & Hentry).
  rewrite get_date_status_run, Hwork, Hdetail.
  rewrite cache_check_accessible by assumption.
  assert (Hcheck : exists warning,
    cross_check (cached_index w) target_date on_holiday = Ok warning).
  { unfold cross_check. rewrite Hindex. cbn [py_get].
    destruct Hentry as [-> | [days ->]].
    - cbn. eauto.
    - destruct (truthy (JObj days)); cbn; eauto. }
  destruct Hcheck as [warning ->].
  destruct (find_next_rest_day_returns J primary target_date 30
              (after_load w) Hvalid Hbound) as [next ->].
  eauto.
Qed.

Lemma weekday_not_weekend d :
  (PyDate.weekday d <? 5) = negb (is_weekend d).
Proof. unfold is_weekend. lia. Qed.

(** A verdict was given: the cache was within reach, and the cross-check
    went through. *)
Lemma cache_check_returned (w : world J) target_date on_holiday warning :
  cache_check w target_date on_holiday = Ok warning ->
  accessible w /\
  cross_check (cached_index w) target_date on_holiday = Ok warning.
Proof.
  intros H. destruct (accessible_dec J w) as [Hfile | Hfile].
  - split; [assumption |]. now rewrite <- cache_check_accessible.
  - rewrite cache_check_inaccessible in H by assumption. discriminate.
Qed.



Lemma truthy_dict days : truthy (JObj days) = false <-> days = ∅.
Proof.
  cbn. rewrite negb_false_iff, Nat.eqb_eq. apply map_size_empty_iff.
Qed.

(** The cross-check on an index of the shape of the data model. *)
Lemma cross_check_shaped index target_date on_holiday :
  index_shaped index (PyDate.year target_date) ->
  cross_check index target_date on_holiday =
  Ok (if truthy (JObj (secondary_days index (PyDate.year target_date)))
         && negb (Bool.eqb on_holiday
                    (listed_by_secondary index target_date))
      then Some WARNING_DIFFERS else None).
Proof.
  intros (o & -> & Hentry).
  unfold cross_check, listed_by_secondary, secondary_days, entry.
  cbn [py_get].
  destruct Hentry as [-> | [days ->]].
  - reflexivity.
  - destruct (truthy (JObj days)) eqn:Hdays; [| reflexivity].
    cbn [py_contains andb].
    destruct (days !! PyDate.isoformat target_date), on_holiday;
      reflexivity.
Qed.

(** C2.  On an index of the shape of the data model, the verdict carries
    the warning exactly when the entry of the target's year is non-empty
    and the designated-holiday status differs from the presence of the
    target's ISO date among the keys of that entry; the warning is the
    fixed message; and with an absent or empty entry there is none.  A
    verdict is returned for a supported date when the cache file can be
    examined. *)
Theorem warning_iff_sources_disagree target_date (w : world J)
    on_holiday holiday_name :
  index_shaped (cached_index w) (PyDate.year target_date) ->
  get_holiday_detail primary target_date = Some (on_holiday, holiday_name) ->
  (forall v w',
     get_date_status J primary target_date w = (Ok v, w') ->
     (ds_warning v <> None <->
        secondary_days (cached_index w) (PyDate.year target_date) <> ∅ /\
        on_holiday <> listed_by_secondary (cached_index w) target_date) /\
     (ds_warning v = None \/ ds_warning v = Some WARNING_DIFFERS) /\
     (secondary_days (cached_index w) (PyDate.year target_date) = ∅ ->
      ds_warning v = None)) /\
  (accessible w ->
   supported primary target_date -> PyDate.valid target_date ->
   target_date + 30 <= PyDate.MAXORDINAL ->
   exists v w', get_date_status J primary target_date w = (Ok v, w')).
Proof.
  intros Hshape Hdetail. split.
  - intros v w'. rewrite get_date_status_run, Hdetail.
    destruct (is_workday primary target_date) as [is_work |];
      [| discriminate].
    destruct (accessible_dec J w) as [Hfile | Hfile];
      [| rewrite cache_check_inaccessible by assumption; discriminate].
    rewrite cache_check_accessible by assumption.
    rewrite cross_check_shaped by assumption.
    set (days := secondary_days (cached_index w) (PyDate.year target_date)).
    set (listed := listed_by_secondary (cached_index w) target_date).
    destruct (find_next_rest_day J primary target_date 30 (after_load w))
      as [[next | e] w0]; [| discriminate].
    destruct (truthy (JObj days)) eqn:Hdays.
    + assert (Hne : days <> ∅).
      { intros Hempty. apply truthy_dict in Hempty. congruence. }
      destruct on_holiday, listed; intros [= <- _]; cbn;
        intuition congruence.
    + apply truthy_dict in Hdays. intros [= <- _]; cbn.
      intuition congruence.
  - intros Hfile Hsup Hvalid Hbound.
    destruct (get_date_status_returns target_date w) as [v Hv]; eauto.
Qed.

(** C6 (as amended).  Two runs of the resolver on the same target with
    the same primary source and the same cache file return verdicts that
    agree on everything but the [days_from_now] of the next rest day, and
    return the same verdict (or raise the same exception) when the
    current date is the same as well; a run leaves the cache file and the
    clock as they were, its only effect being the warning [load_cache]
    logs for a file it cannot read. *)
Theorem resolver_deterministic_up_to_today target_date (w1 w2 : world J) :
  cache_file w1 = cache_file w2 ->
  result_map forget_days_from_now
    (fst (get_date_status J primary target_date w1)) =
  result_map forget_days_from_now
    (fst (get_date_status J primary target_date w2)) /\
  (clock w1 = clock w2 ->
   fst (get_date_status J primary target_date w1) =
   fst (get_date_status J primary target_date w2)) /\
  cache_file (snd (get_date_status J primary target_date w1))
    = cache_file w1 /\
  clock (snd (get_date_status J primary target_date w1)) = clock w1 /\
  (snd (get_date_status J primary target_date w1) = w1 \/
   snd (get_date_status J primary target_date w1) = after_load w1).
Proof.
  intros Hfile.
  assert (Hcheck : forall on_holiday,
    cache_check w1 target_date on_holiday
    = cache_check w2 target_date on_holiday).
  { intros on_holiday. unfold cache_check, load_outcome, cached_index.
    now rewrite Hfile. }
  rewrite !get_date_status_run.
  destruct (is_workday primary target_date) as [is_work |];
    [| cbn; repeat split; auto].
  destruct (get_holiday_detail primary target_date)
    as [[on_holiday holiday_name] |]; [| cbn; repeat split; auto].
  rewrite Hcheck.
  destruct (cache_check w2 target_date on_holiday)
    as [warning | e];
    [| cbn; rewrite after_load_cache_file, after_load_clock;
       repeat split; auto].
  pose proof (find_next_rest_day_forget target_date 30
                (after_load w1) (after_load w2)) as Hforget.
  pose proof (find_next_rest_day_same_clock target_date 30
                (after_load w1) (after_load w2)) as Hsame.
  rewrite !after_load_clock in Hsame.
  pose proof (find_next_rest_day_world target_date 30 (after_load w1))
    as Hworld.
  destruct (find_next_rest_day J primary target_date 30 (after_load w1))
    as [[next1 | e1] w1'];
    destruct (find_next_rest_day J primary target_date 30 (after_load w2))
      as [[next2 | e2] w2'];
    cbn in Hforget, Hsame, Hworld; subst w1'; try discriminate;
    cbn; rewrite after_load_cache_file, after_load_clock.
  - repeat split; auto.
    + unfold forget_days_from_now. cbn. do 3 f_equal. congruence.
    + intros Hclock. specialize (Hsame Hclock). congruence.
  - repeat split; auto; intros; congruence.
Qed.

End ResolverClaims.

Section StoreClaims.

Context (J : json_codec).

(** C7.  [load_cache] returns for a cache file that is absent, unreadable
    or not JSON (the empty index) and for one that parses (its content),
    and leaves the file as it was; but [CACHE_FILE.exists()] is evaluated
    outside the [try], so on a file out of reach [load_cache] raises the
    [PermissionError] of that test, and logs nothing. *)
Theorem load_cache_fails_out_of_reach (w : world J) :
  (cache_file w = FileInaccessible ->
   load_cache J w = (Raise PermissionError, w)) /\
  (accessible w ->
   exists v w',
     load_cache J w = (Ok v, w') /\
     cache_file w' = cache_file w /\
     match cache_file w with
     | FileContent t =>
         match json_loads J t with
         | Some parsed => v = parsed
         | None => v = empty_dict
         end
     | _ => v = empty_dict
     end).
Proof.
  rewrite load_cache_run. split.
  - intros Hfile.
    now rewrite load_outcome_inaccessible, after_load_inaccessible.
  - intros Hfile. exists (cached_index w), (after_load w).
    rewrite load_outcome_accessible by assumption.
    split; [reflexivity |]. split; [apply after_load_cache_file |].
    unfold cached_index.
    destruct (cache_file w) as [| | t |]; try reflexivity.
    destruct (json_loads J t); reflexivity.
Qed.

Lemma cached_index_written data (w : world J) :
  round_trips J ->
  cached_index (set_file w (FileContent (json_dumps J data))) = data.
Proof. intros Hrt. unfold cached_index. cbn. now rewrite Hrt. Qed.

(** Loading what was written. *)
Lemma load_cache_written data (w : world J) :
  round_trips J ->
  load_cache J (set_file w (FileContent (json_dumps J data)))
  = (Ok data, set_file w (FileContent (json_dumps J data))).
Proof.
  intros Hrt. rewrite load_cache_run. f_equal.
  - rewrite load_outcome_accessible by discriminate.
    now rewrite cached_index_written.
  - unfold after_load. cbn [set_file cache_file]. now rewrite Hrt.
Qed.

(** Loading an emptied file. *)
Lemma load_cache_emptied (w : world J) :
  load_cache J (set_file w (FileContent (empty_text J)))
  = (Ok empty_dict, after_load (set_file w (FileContent (empty_text J)))).
Proof.
  rewrite load_cache_run. f_equal.
  rewrite load_outcome_accessible by discriminate.
  unfold cached_index. cbn [set_file cache_file].
  now rewrite empty_text_not_json.
Qed.

(** C8 (as amended).  With a codec that reads back what it writes: when
    [load_cache] returns an index and [save_cache] returns from saving
    it, the next [load_cache] returns that index; the three calls do
    return when the file can be examined, the file system has no fault
    and the index can be encoded; and when the index cannot be encoded,
    [save_cache] raises [UnicodeEncodeError] after it has emptied the
    file, so that the next [load_cache] returns the empty index. *)
Theorem save_load_round_trip (w : world J) :
  round_trips J ->
  (forall index w1 w2,
     load_cache J w = (Ok index, w1) ->
     save_cache J index w1 = (Ok tt, w2) ->
     load_cache J w2 = (Ok index, w2)) /\
  (accessible w -> disk w = NoFault ->
   encodable J (json_dumps J (cached_index w)) = true ->
   exists index w1 w2,
     load_cache J w = (Ok index, w1) /\
     save_cache J index w1 = (Ok tt, w2) /\
     load_cache J w2 = (Ok index, w2)) /\
  (accessible w -> disk w = NoFault \/ disk w = WriteFails ->
   encodable J (json_dumps J (cached_index w)) = false ->
   exists w1 w2 w3,
     load_cache J w = (Ok (cached_index w), w1) /\
     save_cache J (cached_index w) w1 = (Raise UnicodeEncodeError, w2) /\
     load_cache J w2 = (Ok empty_dict, w3)).
Proof.
  intros Hrt. split; [| split].
  - intros index w1 w2 _ Hsave.
    destruct (save_cache_returned J _ _ _ Hsave) as (-> & _ & _).
    now apply load_cache_written.
  - intros Hfile Hdisk Henc.
    exists (cached_index w), (after_load w),
      (set_file (after_load w)
         (FileContent (json_dumps J (cached_index w)))).
    split; [| split].
    + rewrite load_cache_run. now rewrite load_outcome_accessible.
    + apply save_cache_writes; try assumption.
      * unfold accessible. now rewrite after_load_cache_file.
      * now rewrite after_load_disk.
    + now apply load_cache_written.
  - intros Hfile Hdisk Henc.
    exists (after_load w),
      (set_file (after_load w) (FileContent (empty_text J))),
      (after_load (set_file (after_load w) (FileContent (empty_text J)))).
    split; [| split].
    + rewrite load_cache_run. now rewrite load_outcome_accessible.
    + rewrite save_cache_run, after_load_disk. unfold write_text.
      rewrite after_load_cache_file, after_load_disk, Henc.
      unfold accessible in Hfile.
      destruct Hdisk as [-> | ->];
        destruct (cache_file w); try congruence; reflexivity.
    + apply load_cache_emptied.
Qed.

End StoreClaims.

(* ===================================================================== *)
(** * The cache refresh job *)
(* ===================================================================== *)

Section Refresh.

Context (J : json_codec).
Context (http_get : string -> http_outcome (text J)).

Lemma fetch_nager_holidays_run year (w : world J) :
  fst (fetch_nager_holidays J http_get year w)
    = Ok (fetched J http_get year) /\
  cache_file (snd (fetch_nager_holidays J http_get year w)) = cache_file w /\
  clock (snd (fetch_nager_holidays J http_get year w)) = clock w.
Proof.
  unfold fetch_nager_holidays, fetched.
  destruct (fetch_attempt J http_get year) as [result [[|] | e]];
    cbn; auto.
Qed.

Lemma fetch_nager_holidays_disk year (w : world J) :
  disk (snd (fetch_nager_holidays J http_get year w)) = disk w.
Proof.
  unfold fetch_nager_holidays.
  destruct (fetch_attempt J http_get year) as [result [[|] | e]];
    reflexivity.
Qed.

Lemma refresh_years_cons year rest cache (w : world J) :
  refresh_years J http_get (year :: rest) cache w =
  match fetch_nager_holidays J http_get year w with
  | (Ok [], w1) => refresh_years J http_get rest cache w1
  | (Ok holidays, w1) =>
      match py_setitem cache (str year) (json_of_pydict holidays) with
      | Ok cache' => refresh_years J http_get rest cache' w1
      | Raise e => (Raise e, w1)
      end
  | (Raise e, w1) => (Raise e, w1)
  end.
Proof.
  cbn [refresh_years]. unfold bind at 1.
  destruct (fetch_nager_holidays J http_get year w)
    as [[[| item holidays] | e] w1]; reflexivity.
Qed.

Lemma refresh_years_run years : forall cache (w : world J),
  fst (refresh_years J http_get years cache w)
    = merged J http_get years cache /\
  cache_file (snd (refresh_years J http_get years cache w)) = cache_file w /\
  clock (snd (refresh_years J http_get years cache w)) = clock w.
Proof.
  induction years as [| year rest IH]; intros cache w.
  - cbn. auto.
  - rewrite refresh_years_cons. cbn [merged].
    destruct (fetch_nager_holidays_run year w) as (Hres & Hfile & Hclock).
    destruct (fetch_nager_holidays J http_get year w) as [r w1].
    cbn in Hres, Hfile, Hclock. subst r.
    destruct (fetched J http_get year) as [| item holidays].
    + destruct (IH cache w1) as (H1 & H2 & H3).
      repeat split; congruence.
    + destruct (py_setitem cache (str year)
                  (json_of_pydict (item :: holidays))) as [cache' | e].
      * destruct (IH cache' w1) as (H1 & H2 & H3).
        repeat split; congruence.
      * cbn. auto.
Qed.

Lemma refresh_years_disk years : forall cache (w : world J),
  disk (snd (refresh_years J http_get years cache w)) = disk w.
Proof.
  induction years as [| year rest IH]; intros cache w; [reflexivity |].
  rewrite refresh_years_cons.
  pose proof (fetch_nager_holidays_disk year w) as Hdisk.
  destruct (fetch_nager_holidays J http_get year w)
    as [[[| item holidays] | e] w1]; cbn [snd] in Hdisk.
  - now rewrite IH.
  - destruct (py_setitem cache (str year)
                (json_of_pydict (item :: holidays))) as [cache' | e];
      [now rewrite IH | exact Hdisk].
  - exact Hdisk.
Qed.

Lemma load_outcome_alike (w1 w2 : world J) :
  cache_file w1 = cache_file w2 -> load_outcome w1 = load_outcome w2.
Proof. unfold load_outcome, cached_index. now intros ->. Qed.

(** [save_cache] looks at the cache file and at the file system only. *)
Lemma save_cache_alike data (w1 w2 : world J) :
  cache_file w1 = cache_file w2 -> disk w1 = disk w2 ->
  fst (save_cache J data w1) = fst (save_cache J data w2) /\
  cache_file (snd (save_cache J data w1))
    = cache_file (snd (save_cache J data w2)).
Proof.
  intros Hfile Hdisk. rewrite !save_cache_run. unfold write_text.
  rewrite Hfile, Hdisk.
  destruct (disk w2), (cache_file w2) eqn:Hfile2,
    (encodable J (json_dumps J data)); cbn; split; congruence.
Qed.

Lemma save_cache_frame data (w : world J) :
  disk (snd (save_cache J data w)) = disk w /\
  clock (snd (save_cache J data w)) = clock w.
Proof.
  rewrite save_cache_run. unfold write_text.
  destruct (disk w) eqn:Hdisk, (cache_file w),
    (encodable J (json_dumps J data)); cbn; auto.
Qed.

(** One run of the job: how it ends and what it leaves. *)
Lemma update_auxiliary_cache_ends (w : world J) :
  exists w',
    update_auxiliary_cache J http_get w = (fst (refreshed J http_get w), w') /\
    cache_file w' = snd (refreshed J http_get w) /\
    disk w' = disk w /\ clock w' = clock w.
Proof.
  unfold update_auxiliary_cache, refreshed, bind.
  cbn [logger date_today clock]. rewrite load_cache_run.
  match goal with
  | |- context [load_outcome ?w0] =>
      assert (Hout : load_outcome w0 = load_outcome w) by reflexivity;
      assert (Hfile0 : cache_file (after_load w0) = cache_file w)
        by (now rewrite after_load_cache_file);
      assert (Hdisk0 : disk (after_load w0) = disk w)
        by (now rewrite after_load_disk);
      assert (Hclock0 : clock (after_load w0) = clock w)
        by (now rewrite after_load_clock);
      rewrite Hout; clear Hout; generalize dependent (after_load w0)
  end.
  intros w0 Hfile0 Hdisk0 Hclock0.
  destruct (load_outcome w) as [cache | e]; [| eexists; cbn; eauto].
  destruct (refresh_years_run
              [PyDate.year (clock w); PyDate.year (clock w) + 1]
              cache w0) as (Hres & Hfile & Hclock).
  pose proof (refresh_years_disk
                [PyDate.year (clock w); PyDate.year (clock w) + 1]
                cache w0) as Hdisk.
  match goal with
  | |- context [refresh_years J http_get ?ys cache w0] =>
      destruct (refresh_years J http_get ys cache w0) as [r w1]
  end.
  cbn [fst snd] in Hres, Hfile, Hclock, Hdisk. subst r.
  destruct (merged J http_get _ cache) as [cache' | e];
    [| eexists; cbn; repeat split; congruence].
  destruct (save_cache_alike cache' w1 w) as [Hfst Hleft]; [congruence.. |].
  destruct (save_cache_frame cache' w1) as [Hd Hc].
  destruct (save_cache J cache' w1) as [[[] | e] w2];
    cbn [fst snd logger] in *; rewrite <- Hfst;
    eexists; (split; [reflexivity |]); cbn; repeat split; congruence.
Qed.

Lemma update_auxiliary_cache_run (w : world J) :
  fst (update_auxiliary_cache J http_get w) = fst (refreshed J http_get w) /\
  cache_file (snd (update_auxiliary_cache J http_get w))
    = snd (refreshed J http_get w) /\
  disk (snd (update_auxiliary_cache J http_get w)) = disk w /\
  clock (snd (update_auxiliary_cache J http_get w)) = clock w.
Proof.
  destruct (update_auxiliary_cache_ends w) as (w' & -> & H).
  split; [reflexivity | exact H].
Qed.


Lemma merged_only_TypeError y1 y2 cache e :
  merged J http_get [y1; y2] cache = Raise e -> e = TypeError.
Proof.
  cbn [merged].
  destruct (fetched J http_get y1) as [| i1 h1];
    destruct (fetched J http_get y2) as [| i2 h2];
    destruct cache as [| b | z | s | l | o]; cbn [py_setitem];
    congruence.
Qed.

(** The merge of a merged cache changes nothing. *)
Lemma merged_idempotent y1 y2 cache cache' :
  merged J http_get [y1; y2] cache = Ok cache' ->
  merged J http_get [y1; y2] cache' = Ok cache'.
Proof.
  cbn [merged].
  destruct (fetched J http_get y1) as [| i1 h1];
    destruct (fetched J http_get y2) as [| i2 h2];
    destruct cache as [| b | z | s | l | o]; cbn [py_setitem];
    try discriminate; intros [= <-]; cbn [py_setitem]; try reflexivity;
    do 2 f_equal; apply map_eq; intros k; rewrite !lookup_insert;
    repeat case_decide; congruence.
Qed.

(** What a run of the job comes to, case by case. *)
Lemma refreshed_cases (w : world J) :
  let years := [PyDate.year (clock w); PyDate.year (clock w) + 1] in
  (cache_file w = FileInaccessible /\
   refreshed J http_get w = (Raise PermissionError, cache_file w)) \/
  (accessible w /\
   merged J http_get years (cached_index w) = Raise TypeError /\
   refreshed J http_get w = (Raise TypeError, cache_file w)) \/
  (accessible w /\
   exists cache,
     merged J http_get years (cached_index w) = Ok cache /\
     refreshed J http_get w
     = (fst (save_cache J cache w),
        cache_file (snd (save_cache J cache w)))).
Proof.
  intros years. unfold refreshed. fold years.
  destruct (accessible_dec J w) as [Hfile | Hfile].
  - right. rewrite load_outcome_accessible by assumption.
    destruct (merged J http_get years (cached_index w))
      as [cache | e] eqn:Hmerged.
    + right. split; [assumption |]. exists cache. auto.
    + left. rewrite (merged_only_TypeError _ _ _ _ Hmerged) in *. auto.
  - left. rewrite load_outcome_inaccessible by assumption. auto.
Qed.


(** A run that gets to write the merged index. *)
Lemma update_auxiliary_cache_writes (w : world J) cache :
  accessible w ->
  merged J http_get [PyDate.year (clock w); PyDate.year (clock w) + 1]
    (cached_index w) = Ok cache ->
  fst (update_auxiliary_cache J http_get w) = fst (save_cache J cache w) /\
  cache_file (snd (update_auxiliary_cache J http_get w))
    = cache_file (snd (save_cache J cache w)).
Proof.
  intros Hfile Hmerged.
  destruct (update_auxiliary_cache_run w) as (-> & -> & _ & _).
  unfold refreshed.
  rewrite load_outcome_accessible by assumption. rewrite Hmerged. auto.
Qed.




End Refresh.

(* ===================================================================== *)
(** * The date-text parser *)
(* ===================================================================== *)

Section Parser.

Import Strptime.

Lemma digit_in_digit_char lo hi v :
  0 <= v <= 9 ->
  digit_in lo hi (digit_char v) =
  if (lo <=? v) && (v <=? hi) then Some v else None.
Proof.
  intros Hv. unfold digit_in, digit_char.
  rewrite N_ascii_embedding by lia.
  replace (Z.of_N (Z.to_N (48 + v)) - 48) with v by lia. reflexivity.
Qed.

Lemma append_cons c s rest : String c s +:+ rest = String c (s +:+ rest).
Proof. reflexivity. Qed.

Lemma append_nil rest : "" +:+ rest = rest.
Proof. reflexivity. Qed.

Lemma four_text_YYYY y rest :
  0 <= y <= 9999 -> four (text_YYYY y +:+ rest) = Some (y, rest).
Proof.
  intros Hy. unfold four, text_YYYY. rewrite !append_cons, append_nil.
  assert (H3 : 0 <= y / 1000 <= 9) by (Z.div_mod_to_equations; lia).
  assert (H2 : 0 <= y / 100 mod 10 <= 9) by (Z.div_mod_to_equations; lia).
  assert (H1 : 0 <= y / 10 mod 10 <= 9) by (Z.div_mod_to_equations; lia).
  assert (H0 : 0 <= y mod 10 <= 9) by (Z.div_mod_to_equations; lia).
  rewrite !digit_in_digit_char by assumption.
  replace ((0 <=? y / 1000) && (y / 1000 <=? 9)) with true by lia.
  replace ((0 <=? y / 100 mod 10) && (y / 100 mod 10 <=? 9)) with true
    by lia.
  replace ((0 <=? y / 10 mod 10) && (y / 10 mod 10 <=? 9)) with true by lia.
  replace ((0 <=? y mod 10) && (y mod 10 <=? 9)) with true by lia.
  do 2 f_equal. Z.div_mod_to_equations. lia.
Qed.

Lemma overlay_store dir v f g :
  overlay f (overlay (store dir v no_fields) g) = overlay (store dir v f) g.
Proof.
  destruct g as [[gy |] [gm |] [gd |]], dir; reflexivity.
Qed.

Lemma overlay_no_fields f : overlay f no_fields = f.
Proof. destruct f. reflexivity. Qed.

Lemma map_flat_map_hits {A B C} (f : B -> C) (g : A -> list B) l :
  map f (flat_map g l) = flat_map (fun a => map f (g a)) l.
Proof.
  induction l as [| a l IH]; [reflexivity |].
  cbn. now rewrite map_app, IH.
Qed.

(** The fields read so far do not influence the match. *)
Lemma regex_match_overlay dirs : forall s f,
  regex_match dirs s f =
  map (fun hit => (overlay f (fst hit), snd hit))
      (regex_match dirs s no_fields).
Proof.
  induction dirs as [| dir dirs IH]; intros s f.
  - cbn. now rewrite overlay_no_fields.
  - assert (Hdir : forall pattern v0,
      flat_map (fun hit => regex_match dirs (snd hit)
                             (store v0 (fst hit) f))
               (attempts pattern s) =
      map (fun hit => (overlay f (fst hit), snd hit))
          (flat_map (fun hit => regex_match dirs (snd hit)
                                  (store v0 (fst hit) no_fields))
                    (attempts pattern s))).
    { intros pattern v0. rewrite map_flat_map_hits.
      apply flat_map_ext. intros [v r]. cbn [fst snd].
      rewrite (IH r (store v0 v f)), (IH r (store v0 v no_fields)).
      rewrite map_map. apply map_ext. intros [g r']. cbn [fst snd].
      now rewrite overlay_store. }
    destruct dir as [| | | c]; cbn [regex_match]; try apply Hdir.
    destruct s as [| c' rest]; [reflexivity |].
    destruct (Ascii.eqb c c'); [apply IH | reflexivity].
Qed.

Lemma strptime_after_year skip_flags fmt dirs y tail :
  tokenize skip_flags false fmt = Some (DirY :: dirs) ->
  0 <= y <= 9999 ->
  strptime skip_flags (text_YYYY y +:+ tail) fmt =
  match tail_outcome dirs tail with
  | Some g =>
      PyDate.new (default y (f_Y g)) (default 1 (f_m g)) (default 1 (f_d g))
  | None => Raise ValueError
  end.
Proof.
  intros Htok Hy. unfold strptime, tail_outcome. rewrite Htok.
  cbn [regex_match pattern_of pattern_Y attempts omap].
  unfold attempts. cbn [omap list_omap]. rewrite four_text_YYYY by assumption.
  cbn [flat_map fst snd]. rewrite app_nil_r.
  rewrite regex_match_overlay.
  destruct (regex_match dirs tail no_fields) as [| [g rest] hits];
    [reflexivity |].
  cbn [map fst snd]. destruct rest; [| reflexivity].
  destruct g as [[gy |] [gm |] [gd |]]; reflexivity.
Qed.

Lemma strptime_bad_format skip_flags s fmt :
  tokenize skip_flags false fmt = None ->
  strptime skip_flags s fmt = Raise ValueError.
Proof. intros H. unfold strptime. now rewrite H. Qed.

Lemma try_formats_after_year skip_flags y tail g dt : forall fmts,
  first_tail skip_flags tail fmts = Some g ->
  0 <= y <= 9999 ->
  PyDate.new (default y (f_Y g)) (default 1 (f_m g)) (default 1 (f_d g))
    = Ok dt ->
  try_formats skip_flags (text_YYYY y +:+ tail) fmts = Ok (Some dt).
Proof.
  induction fmts as [| fmt fmts IH]; intros Hfirst Hy Hnew;
    [discriminate |].
  cbn [first_tail try_formats] in *.
  destruct (tokenize skip_flags false fmt) as [[| [| | | c] dirs] |] eqn:Htok;
    try discriminate.
  - rewrite (strptime_after_year _ _ _ _ _ Htok Hy).
    destruct (tail_outcome dirs tail) as [g' |].
    + injection Hfirst as ->. now rewrite Hnew.
    + cbn. auto.
  - rewrite strptime_bad_format by assumption. cbn. auto.
Qed.

Lemma forallb_In {A} (f : A -> bool) l x :
  forallb f l = true -> In x l -> f x = true.
Proof. intros H. apply forallb_forall. exact H. Qed.

Lemma months_parse_holds skip_flags st pad_month pad_day :
  spelled_unambiguously st pad_month pad_day = true ->
  months_parse skip_flags st pad_month pad_day = true.
Proof.
  intros Hok.
  destruct skip_flags, st, pad_month, pad_day;
    try discriminate Hok; vm_compute; reflexivity.
Qed.

Lemma tail_parses_holds skip_flags st pad_month pad_day m d :
  spelled_unambiguously st pad_month pad_day = true ->
  1 <= m <= 12 -> 1 <= d <= 31 ->
  tail_parses skip_flags st pad_month pad_day m d = true.
Proof.
  intros Hok Hm Hd.
  pose proof (months_parse_holds skip_flags st pad_month pad_day Hok)
    as Hmonths.
  assert (Hdays : days_parse skip_flags st pad_month pad_day m = true).
  { apply (forallb_In _ (range 1 13)); [exact Hmonths |].
    apply elem_of_range. lia. }
  apply (forallb_In _ (range 1 32)); [exact Hdays |].
  apply elem_of_range. lia.
Qed.

Lemma days_in_month_le_31 y m : 1 <= m <= 12 -> PyDate.days_in_month y m <= 31.
Proof.
  intros Hm. unfold PyDate.days_in_month.
  destruct ((m =? 2) && PyDate.is_leap y); [lia |].
  assert (Hcases : m = 1 \/ m = 2 \/ m = 3 \/ m = 4 \/ m = 5 \/ m = 6 \/
                   m = 7 \/ m = 8 \/ m = 9 \/ m = 10 \/ m = 11 \/ m = 12)
    by lia.
  destruct Hcases as
    [-> | [-> | [-> | [-> | [-> | [-> | [-> | [-> | [-> | [-> | [-> | ->]]]]]]]]]]];
    vm_compute; discriminate.
Qed.

Lemma new_valid y m d :
  1 <= y <= 9999 -> 1 <= m <= 12 -> 1 <= d <= PyDate.days_in_month y m ->
  PyDate.new y m d = Ok (PyDate.ymd2ord y m d).
Proof.
  intros Hy Hm Hd. unfold PyDate.new.
  replace ((1 <=? y) && (y <=? 9999) && (1 <=? m) && (m <=? 12)
           && (1 <=? d) && (d <=? PyDate.days_in_month y m)) with true
    by lia.
  reflexivity.
Qed.

Lemma strptime_only_ValueError skip_flags s fmt e :
  strptime skip_flags s fmt = Raise e -> e = ValueError.
Proof.
  unfold strptime, PyDate.new.
  destruct (tokenize skip_flags false fmt) as [dirs |]; [| congruence].
  destruct (regex_match dirs s no_fields) as [| [f rest] hits];
    [congruence |].
  destruct rest; [| congruence].
  match goal with |- context [if ?c then _ else _] => destruct c end;
    congruence.
Qed.

(** The loop of [check_date] stops at the first format that parses. *)
Lemma try_formats_first skip_flags target found : forall fmts,
  try_formats skip_flags target fmts = Ok (Some found) <->
  exists pre fmt post,
    fmts = pre ++ fmt :: post /\
    strptime skip_flags target fmt = Ok found /\
    Forall (fun f => strptime skip_flags target f = Raise ValueError) pre.
Proof.
  induction fmts as [| fmt fmts IH]; cbn [try_formats].
  - split; [discriminate |].
    intros (pre & f & post & H & _). destruct pre; discriminate.
  - destruct (strptime skip_flags target fmt) as [dt | e] eqn:Hfmt.
    + split.
      * intros [= ->]. exists [], fmt, fmts. repeat split; auto.
      * intros (pre & f & post & Hcut & Hf & Hpre).
        destruct pre as [| p pre]; cbn in Hcut; injection Hcut as -> ->.
        -- congruence.
        -- inversion Hpre; subst. congruence.
    + apply strptime_only_ValueError in Hfmt as Hval. subst e.
      cbn [is_ValueError]. rewrite IH. split.
      * intros (pre & f & post & -> & Hf & Hpre).
        exists (fmt :: pre), f, post. repeat split; auto.
      * intros (pre & f & post & Hcut & Hf & Hpre).
        destruct pre as [| p pre]; cbn in Hcut; injection Hcut as -> ->.
        -- congruence.
        -- inversion Hpre; subst. exists pre, f, post. auto.
Qed.

Lemma try_formats_none skip_flags target : forall fmts,
  Forall (fun f => strptime skip_flags target f = Raise ValueError) fmts ->
  try_formats skip_flags target fmts = Ok None.
Proof.
  induction fmts as [| fmt fmts IH]; intros Hall; [reflexivity |].
  inversion Hall as [| ? ? Hfmt Hrest]; subst.
  cbn [try_formats]. rewrite Hfmt. cbn. auto.
Qed.

(** C9 (as amended).  The parser of [check_date] reads [YYYY-MM-DD],
    [YYYY_MM_DD] and [YYYY年MM月DD日], with the month and the day zero-padded
    or not, and [YYYYMMDD] with both zero-padded, as the date they spell;
    ["2026_2_25"] parses as ["2026-02-25"] does; the date returned is that
    of the first format of the list that parses the text; and a text no
    format parses is answered with the 400 error that lists the
    formats. *)
Theorem check_date_reads_formats skip_flags y m d :
  1 <= y <= 9999 -> 1 <= m <= 12 -> 1 <= d <= PyDate.days_in_month y m ->
  (forall st pad_month pad_day,
     spelled_unambiguously st pad_month pad_day = true ->
     try_formats skip_flags (date_text st pad_month pad_day y m d) formats
     = Ok (Some (PyDate.ymd2ord y m d))) /\
  (try_formats skip_flags "2026_2_25" formats
     = try_formats skip_flags "2026-02-25" formats /\
   try_formats skip_flags "2026-02-25" formats
     = Ok (Some (PyDate.ymd2ord 2026 2 25))) /\
  (forall target found,
     try_formats skip_flags target formats = Ok (Some found) <->
     exists pre fmt post,
       formats = pre ++ fmt :: post /\
       strptime skip_flags target fmt = Ok found /\
       Forall (fun f => strptime skip_flags target f = Raise ValueError)
         pre) /\
  (forall J primary target (w : world J),
     Forall (fun f => strptime skip_flags target f = Raise ValueError)
       formats ->
     check_date J primary skip_flags target w
     = (Raise (HTTPException 400 FORMAT_ERROR), w)).
Proof.
  intros Hy Hm Hd. split; [| split; [| split]].
  - intros st pad_month pad_day Hok.
    assert (Hd31 : 1 <= d <= 31)
      by (pose proof (days_in_month_le_31 y m Hm); lia).
    pose proof (tail_parses_holds skip_flags st pad_month pad_day m d
                  Hok Hm Hd31) as Htail.
    unfold tail_parses in Htail. unfold date_text.
    destruct (first_tail skip_flags (text_tail st pad_month pad_day m d)
                formats) as [g |] eqn:Hfirst; [| discriminate].
    apply (try_formats_after_year _ _ _ g _ _ Hfirst); [lia |].
    destruct g as [[gy |] [gm |] [gd |]]; cbn in Htail; try discriminate.
    apply andb_prop in Htail as [Hgm Hgd].
    apply Z.eqb_eq in Hgm, Hgd. subst gm gd. cbn [f_Y f_m f_d default].
    apply new_valid; assumption.
  - destruct skip_flags; vm_compute; split; reflexivity.
  - intros target found. apply try_formats_first.
  - intros J primary target w Hnone. unfold check_date.
    unfold bind, lift. rewrite try_formats_none by assumption.
    reflexivity.
Qed.

End Parser.

(* ===================================================================== *)
(** * The claims on sample inputs *)
(* ===================================================================== *)

(** 2026-02-25 is a Wednesday; the Saturday after it is 2026-02-28. *)
Example scan_from_wednesday :
  find_next_rest_day sample_codec plain_calendar 739672 30
    (sample_world 739672)
  = (Ok (Some {| rd_date := "2026-02-28"; rd_weekday := "周六";
                 rd_detail := "周末"; rd_days_from_now := 3 |}),
     sample_world 739672).
Proof. vm_compute. reflexivity. Qed.

Lemma sample_codec_round_trips : round_trips sample_codec.
Proof. intros v. reflexivity. Qed.

Lemma sample_encodes (v : json) :
  encodable sample_codec (json_dumps sample_codec v) = json_utf8 v.
Proof.
  unfold encodable, json_dumps, sample_codec.
  destruct sample_encodable as [f Hf]. cbn. apply Hf.
Qed.

Lemma sample_index_encodable :
  encodable sample_codec (json_dumps sample_codec sample_index) = true.
Proof. rewrite sample_encodes. vm_compute. reflexivity. Qed.

Lemma surrogate_index_unencodable :
  encodable sample_codec (json_dumps sample_codec surrogate_index) = false.
Proof. rewrite sample_encodes. vm_compute. reflexivity. Qed.

(** The refresh of the sample world against the sample network merges
    the answer for 2026 into the index. *)
Lemma sample_refresh_merged :
  merged sample_codec sample_http [PyDate.year 739672; PyDate.year 739672 + 1]
    sample_index
  = Ok (JObj {[ "2026" := JObj {[ "2026-01-01" := JStr "元旦" ]};
                "2025" := JObj {[ "2025-10-01" := JStr "National Day" ]} ]}).
Proof. vm_compute. reflexivity. Qed.

Lemma sample_refresh_completes :
  fst (update_auxiliary_cache sample_codec sample_http (sample_world 739672))
    = Ok tt /\
  cache_file (snd (update_auxiliary_cache sample_codec sample_http
                     (sample_world 739672)))
    = FileContent
        (json_dumps sample_codec
           (JObj {[ "2026" := JObj {[ "2026-01-01" := JStr "元旦" ]};
                    "2025" := JObj {[ "2025-10-01" :=
                                        JStr "National Day" ]} ]})).
Proof.
  destruct (update_auxiliary_cache_writes sample_codec sample_http
              (sample_world 739672) _ ltac:(discriminate)
              sample_refresh_merged) as [-> ->].
  rewrite save_cache_writes;
    [split; reflexivity | discriminate | reflexivity |].
  rewrite sample_encodes. vm_compute. reflexivity.
Qed.

Lemma sample_index_shaped today :
  index_shaped (cached_index (sample_world today)) 2026.
Proof.
  eexists. split; [reflexivity |]. right.
  exists {[ "2026-10-01" := JStr "National Day";
            "2026-10-02" := JStr "National Day" ]}.
  vm_compute. reflexivity.
Qed.



(** Thursday 1 October 2026 in the plain calendar: the secondary source
    lists the date and the primary source does not designate it, so the
    verdict carries the warning. *)
Lemma warning_iff_sources_disagree_witness :
  index_shaped (cached_index (sample_world 739672)) (PyDate.year 739890) /\
  get_holiday_detail plain_calendar 739890 = Some (false, None) /\
  exists v w',
    get_date_status sample_codec plain_calendar 739890 (sample_world 739672)
      = (Ok v, w') /\
    ds_warning v = Some WARNING_DIFFERS.
Proof.
  assert (Hshape : index_shaped (cached_index (sample_world 739672))
                     (PyDate.year 739890)) by apply sample_index_shaped.
  split; [exact Hshape |]. split; [reflexivity |].
  destruct (warning_iff_sources_disagree sample_codec plain_calendar 739890
              (sample_world 739672) false None Hshape eq_refl)
    as [Hwarning Hreturns].
  destruct Hreturns as (v & w' & Hrun).
  - discriminate.
  - split; eexists; reflexivity.
  - unfold PyDate.valid, PyDate.MAXORDINAL. lia.
  - unfold PyDate.MAXORDINAL. lia.
  - exists v, w'. split; [exact Hrun |].
    destruct (Hwarning v w' Hrun) as (Hiff & [Hnone | Hsome] & _);
      [| exact Hsome].
    exfalso. apply Hiff; [| exact Hnone].
    split; [| discriminate].
    intros Hempty. apply (f_equal (fun days => days !! "2026-10-01")) in Hempty.
    vm_compute in Hempty. discriminate.
Defined.

(** From Wednesday 25 February 2026 with a horizon of 3 days: Thursday
    and Friday are working days, and Saturday 28 February, the last day of
    the range, is the rest day returned. *)
Lemma find_next_rest_day_earliest_witness :
  PyDate.valid 739672 /\
  working plain_calendar (739672 + 1) /\
  working plain_calendar (739672 + 2) /\
  non_working plain_calendar (739672 + 3) /\
  find_next_rest_day sample_codec plain_calendar 739672 3
    (sample_world 739672)
  = (Ok (Some {| rd_date := "2026-02-28"; rd_weekday := "周六";
                 rd_detail := "周末"; rd_days_from_now := 3 |}),
     sample_world 739672).
Proof.
  assert (Hvalid : PyDate.valid 739672)
    by (unfold PyDate.valid, PyDate.MAXORDINAL; lia).
  split; [exact Hvalid |]. split; [reflexivity |]. split; [reflexivity |].
  split; [reflexivity |].
  destruct (find_next_rest_day_earliest sample_codec plain_calendar 739672 3
              (sample_world 739672) Hvalid) as (_ & _ & _ & Hfound).
  apply (Hfound 3 false None).
  - lia.
  - unfold PyDate.MAXORDINAL. lia.
  - intros j Hj. assert (Hcases : j = 1 \/ j = 2) by lia.
    destruct Hcases as [-> | ->]; reflexivity.
  - reflexivity.
  - reflexivity.
Defined.

(** C3 as stated fails: from 9999-12-31 the first date of the range is
    past the last date there is, and the scan raises [OverflowError]
    although the range holds no non-working day. *)
Lemma find_next_rest_day_counterexample :
  PyDate.valid PyDate.MAXORDINAL /\
  PyDate.isoformat PyDate.MAXORDINAL = "9999-12-31" /\
  (forall i, 1 <= i <= 30 ->
     ~ non_working plain_calendar (PyDate.MAXORDINAL + i)) /\
  find_next_rest_day sample_codec plain_calendar PyDate.MAXORDINAL 30
    (sample_world 739672)
  = (Raise OverflowError, sample_world 739672).
Proof.
  split; [unfold PyDate.valid, PyDate.MAXORDINAL; lia |].
  split; [vm_compute; reflexivity |].
  split; [| vm_compute; reflexivity].
  intros i Hi. unfold non_working, plain_calendar, in_coverage; cbn.
  replace ((731581 <=? PyDate.MAXORDINAL + i)
           && (PyDate.MAXORDINAL + i <=? 739981)) with false
    by (unfold PyDate.MAXORDINAL; lia).
  discriminate.
Qed.

(** A scan that starts on Wednesday 30 September 2026 while today is
    25 February 2026: the Saturday found is 3 days after the start and 220
    days from today. *)
Lemma days_from_now_counts_from_today_witness :
  find_next_rest_day sample_codec plain_calendar 739889 30
    (sample_world 739672)
  = (Ok (Some {| rd_date := "2026-10-03"; rd_weekday := "周六";
                 rd_detail := "周末"; rd_days_from_now := 220 |}),
     sample_world 739672) /\
  exists d,
    739889 < d <= 739889 + 30 /\
    "2026-10-03" = PyDate.isoformat d /\
    220 = PyDate.sub_days d 739672.
Proof.
  assert (Hrun :
    find_next_rest_day sample_codec plain_calendar 739889 30
      (sample_world 739672)
    = (Ok (Some {| rd_date := "2026-10-03"; rd_weekday := "周六";
                   rd_detail := "周末"; rd_days_from_now := 220 |}),
       sample_world 739672)) by (vm_compute; reflexivity).
  split; [exact Hrun |].
  destruct (days_from_now_counts_from_today sample_codec plain_calendar
              739889 30 _ _ _ Hrun) as (d & Hd & Hdate & Hdays & _).
  exists d. auto.
Defined.

(** From Sunday 27 December 2026 the last four days of the year are
    working days and 2027 has no table: the scan stops on 1 January. *)
Lemma unsupported_year_stops_scan_witness :
  unsupported plain_calendar (739977 + 5) /\
  find_next_rest_day sample_codec plain_calendar 739977 30
    (sample_world 739672) = (Ok None, sample_world 739672).
Proof.
  assert (Hun : unsupported plain_calendar (739977 + 5))
    by (left; reflexivity).
  split; [exact Hun |].
  apply (unsupported_year_stops_scan sample_codec plain_calendar 739977 30 5).
  - unfold PyDate.valid, PyDate.MAXORDINAL. lia.
  - lia.
  - unfold PyDate.MAXORDINAL. lia.
  - intros j Hj.
    assert (Hcases : j = 1 \/ j = 2 \/ j = 3 \/ j = 4) by lia.
    destruct Hcases as [-> | [-> | [-> | ->]]]; reflexivity.
  - exact Hun.
Defined.

(** Two runs a day apart on the same cache file. *)
Lemma resolver_deterministic_up_to_today_witness :
  cache_file (sample_world 739672) = cache_file (sample_world 739673) /\
  result_map forget_days_from_now
    (fst (get_date_status sample_codec plain_calendar 739890
            (sample_world 739672))) =
  result_map forget_days_from_now
    (fst (get_date_status sample_codec plain_calendar 739890
            (sample_world 739673))).
Proof.
  split; [reflexivity |].
  apply (resolver_deterministic_up_to_today sample_codec plain_calendar
           739890 (sample_world 739672) (sample_world 739673) eq_refl).
Defined.

(** C6 as stated fails: the same target, primary source and cache file give
    two different verdicts on two different days. *)
Lemma resolver_deterministic_counterexample :
  cache_file (sample_world 739672) = cache_file (sample_world 739673) /\
  log (sample_world 739672) = log (sample_world 739673) /\
  fst (get_date_status sample_codec plain_calendar 739890
         (sample_world 739672))
  <> fst (get_date_status sample_codec plain_calendar 739890
            (sample_world 739673)).
Proof.
  split; [reflexivity |]. split; [reflexivity |].
  vm_compute. discriminate.
Qed.

(** [load_cache] on a cache directory the process may not search. *)
Example load_cache_out_of_reach :
  load_cache sample_codec (inaccessible_world 739672)
  = (Raise PermissionError, inaccessible_world 739672).
Proof. reflexivity. Qed.

(** The sample index, loaded, saved and loaded again. *)
Lemma save_load_round_trip_witness :
  round_trips sample_codec /\
  exists index w1 w2,
    load_cache sample_codec (sample_world 739672) = (Ok index, w1) /\
    save_cache sample_codec index w1 = (Ok tt, w2) /\
    load_cache sample_codec w2 = (Ok index, w2) /\
    index = sample_index.
Proof.
  split; [exact sample_codec_round_trips |].
  destruct (save_load_round_trip sample_codec (sample_world 739672)
              sample_codec_round_trips) as (_ & Hreturns & _).
  destruct Hreturns as (index & w1 & w2 & Hload & Hsave & Hagain).
  - discriminate.
  - reflexivity.
  - exact sample_index_encodable.
  - exists index, w1, w2. repeat split; try assumption.
    assert (Hsample :
      load_cache sample_codec (sample_world 739672)
      = (Ok sample_index, sample_world 739672)) by (vm_compute; reflexivity).
    rewrite Hsample in Hload. now injection Hload as <- _.
Defined.

(** C8 as stated fails: a cache file with a lone surrogate in a name is
    loaded, the save of what was loaded raises [UnicodeEncodeError] and
    leaves the file empty, and the next load returns the empty index. *)
Lemma save_load_round_trip_counterexample :
  round_trips sample_codec /\
  (exists w1 w2 w3,
     load_cache sample_codec (surrogate_world 739672)
       = (Ok surrogate_index, w1) /\
     save_cache sample_codec surrogate_index w1
       = (Raise UnicodeEncodeError, w2) /\
     load_cache sample_codec w2 = (Ok empty_dict, w3)) /\
  surrogate_index <> empty_dict.
Proof.
  split; [exact sample_codec_round_trips |]. split.
  - exists (surrogate_world 739672),
      (set_file (surrogate_world 739672)
         (FileContent (empty_text sample_codec))),
      (after_load
         (set_file (surrogate_world 739672)
            (FileContent (empty_text sample_codec)))).
    split; [reflexivity |]. split; [| reflexivity].
    apply save_cache_unencodable;
      [discriminate | now left | exact surrogate_index_unencodable].
  - intros H. apply (f_equal (fun index => entry index "2025")) in H.
    vm_compute in H. discriminate.
Qed.

(** 25 February 2026 in every spelling. *)
Lemma check_date_reads_formats_witness :
  1 <= 2026 <= 9999 /\ 1 <= 2 <= 12 /\
  1 <= 25 <= PyDate.days_in_month 2026 2 /\
  try_formats false (date_text Underscored false false 2026 2 25) formats
  = Ok (Some (PyDate.ymd2ord 2026 2 25)).
Proof.
  assert (Hy : 1 <= 2026 <= 9999) by lia.
  assert (Hm : 1 <= 2 <= 12) by lia.
  assert (Hd : 1 <= 25 <= PyDate.days_in_month 2026 2)
    by (vm_compute; split; discriminate).
  split; [exact Hy |]. split; [exact Hm |]. split; [exact Hd |].
  destruct (check_date_reads_formats false 2026 2 25 Hy Hm Hd) as [Hreads _].
  apply Hreads. reflexivity.
Defined.

Example underscored_text : date_text Underscored false false 2026 2 25 = "2026_2_25".
Proof. reflexivity. Qed.

(** C9 as stated fails for [YYYYMMDD] without padding: ["2026111"], the
    compact spelling of 11 January 2026 with an unpadded month, is read as
    1 November 2026. *)
Lemma compact_unpadded_counterexample :
  date_text Compact false true 2026 1 11 = "2026111" /\
  (forall skip_flags,
     try_formats skip_flags (date_text Compact false true 2026 1 11) formats
     = Ok (Some (PyDate.ymd2ord 2026 11 1))) /\
  PyDate.ymd2ord 2026 11 1 <> PyDate.ymd2ord 2026 1 11 /\
  PyDate.isoformat (PyDate.ymd2ord 2026 11 1) = "2026-11-01".
Proof.
  split; [reflexivity |].
  split; [intros [|]; vm_compute; reflexivity |].
  split; [vm_compute; discriminate | vm_compute; reflexivity].
Qed.



Example refresh_replaces_2026 :
  entry (cached_index
           (snd (update_auxiliary_cache sample_codec sample_http
                   (sample_world 739672)))) "2026"
  = Some (JObj {[ "2026-01-01" := JStr "元旦" ]}).
Proof.
  destruct sample_refresh_completes as [_ Hfile].
  unfold cached_index. rewrite Hfile. vm_compute. reflexivity.
Qed.

(* ===================================================================== *)
(** * Further properties of the scanner *)
(* ===================================================================== *)

Section ScannerMore.

Context (J : json_codec) (primary : primary_source).

(** X1.  With a horizon of zero or less the range is empty:
    [find_next_rest_day] returns [None] whatever the start date and the
    primary source, without raising. *)
Theorem empty_horizon_finds_nothing from_date max_days (w : world J) :
  max_days <= 0 ->
  find_next_rest_day J primary from_date max_days w = (Ok None, w).
Proof.
  intros H. unfold find_next_rest_day.
  rewrite range_nil by lia. reflexivity.
Qed.

(** X2.  A rest day found within a horizon is the rest day found within
    every longer horizon. *)
Theorem longer_horizon_same_rest_day from_date max_days more
    (w w' : world J) rd :
  PyDate.valid from_date ->
  max_days <= more ->
  find_next_rest_day J primary from_date max_days w = (Ok (Some rd), w') ->
  find_next_rest_day J primary from_date more w = (Ok (Some rd), w).
Proof.
  intros Hvalid Hmore Hrun.
  destruct (find_next_rest_day_inv J primary from_date max_days w)
    as [_ Hres].
  rewrite Hrun in Hres. cbn in Hres.
  destruct Hres as (i & Hi & Hpre & Hreach & Hrd).
  apply (scan_stops_at J primary from_date more i); auto. lia.
Qed.

(** X3.  When the scan starts from the current date, the [days_from_now]
    of the rest day found lies between 1 and the horizon. *)
Theorem days_from_now_within_horizon max_days (w w' : world J) rd :
  find_next_rest_day J primary (clock w) max_days w = (Ok (Some rd), w') ->
  1 <= rd_days_from_now rd <= max_days.
Proof.
  intros Hrun.
  destruct (find_next_rest_day_inv J primary (clock w) max_days w)
    as [_ Hres].
  rewrite Hrun in Hres. cbn in Hres.
  destruct Hres as (i & Hi & _ & _ & _ & h & n & _ & _ & _ & _ & Hdays).
  rewrite Hdays. unfold PyDate.sub_days. lia.
Qed.

(** X4.  The [detail] of a rest day found is the name of the holiday when
    the primary source marks the date found as a holiday with a non-empty
    name, and ["周末"] in every other case, a day off from Monday to Friday
    included. *)
Theorem rest_day_detail_is_name_or_weekend from_date max_days
    (w w' : world J) rd :
  find_next_rest_day J primary from_date max_days w = (Ok (Some rd), w') ->
  exists d on_holiday holiday_name,
    rd_date rd = PyDate.isoformat d /\
    get_holiday_detail primary d = Some (on_holiday, holiday_name) /\
    ((exists name,
        on_holiday = true /\ holiday_name = Some name /\ name <> "" /\
        rd_detail rd = name) \/
     ((on_holiday = false \/ holiday_name = None \/ holiday_name = Some "") /\
      rd_detail rd = "周末")).
Proof.
  intros Hrun.
  destruct (find_next_rest_day_inv J primary from_date max_days w)
    as [_ Hres].
  rewrite Hrun in Hres. cbn in Hres.
  destruct Hres as (i & _ & _ & _ & _ & h & n & Hd & Hdate & _ & Hdetail & _).
  exists (from_date + i), h, n. split; [assumption |].
  split; [assumption |]. rewrite Hdetail. unfold name_if.
  destruct n as [name |]; [| right; auto].
  destruct h; cbn [andb]; [| right; auto].
  destruct (String.eqb_spec name "") as [-> | Hne]; cbn [negb].
  - right. auto.
  - left. exists name. auto.
Qed.

End ScannerMore.

(* ===================================================================== *)
(** * Further properties of the resolver *)
(* ===================================================================== *)

Section ResolverMore.

Context (J : json_codec) (primary : primary_source).

Lemma cross_check_errors cache target_date on_holiday e :
  cross_check cache target_date on_holiday = Raise e ->
  (e = AttributeError /\ forall o, cache <> JObj o) \/ e = TypeError.
Proof.
  unfold cross_check.
  destruct cache as [| b | z | s | l | o]; cbn [py_get];
    try (intros [= <-]; left; split; [reflexivity | discriminate]).
  destruct (truthy _); [| discriminate].
  destruct (py_contains _ _) as [in_nager | e'] eqn:Hin; [discriminate |].
  intros [= <-]. right.
  unfold py_contains in Hin.
  destruct (match o !! str (PyDate.year target_date) with
            | Some x => x | None => empty_dict end); congruence.
Qed.

(** What makes the cross-check on the world fail. *)
Lemma cache_check_errors (w : world J) target_date on_holiday e :
  cache_check w target_date on_holiday = Raise e ->
  (e = AttributeError /\ accessible w /\
   forall o, cached_index w <> JObj o) \/
  e = TypeError \/
  (e = PermissionError /\ cache_file w = FileInaccessible).
Proof.
  intros Hcheck. destruct (accessible_dec J w) as [Hfile | Hfile].
  - rewrite cache_check_accessible in Hcheck by assumption.
    destruct (cross_check_errors _ _ _ _ Hcheck) as [[-> H] | ->]; auto.
  - rewrite cache_check_inaccessible in Hcheck by assumption.
    injection Hcheck as <-. auto.
Qed.

(** What a verdict is made of. *)
Lemma get_date_status_ok target_date (w w' : world J) v :
  get_date_status J primary target_date w = (Ok v, w') ->
  exists is_work on_holiday holiday_name warning next,
    is_workday primary target_date = Some is_work /\
    get_holiday_detail primary target_date = Some (on_holiday, holiday_name) /\
    cross_check (cached_index w) target_date on_holiday = Ok warning /\
    find_next_rest_day J primary target_date 30 (after_load w)
      = (Ok next, after_load w) /\
    w' = after_load w /\
    ds_date v = PyDate.isoformat target_date /\
    ds_weekday v = weekday_name target_date /\
    ds_is_workday v = is_work /\
    ds_detail v =
      detail_by_priority on_holiday is_work holiday_name
        (is_weekend target_date) /\
    ds_next_rest_day v = Some next /\
    ds_warning v = warning /\
    ds_holiday_name v =
      (if on_holiday && str_truthy holiday_name then holiday_name else None).
Proof.
  rewrite get_date_status_run.
  destruct (is_workday primary target_date) as [is_work |]; [| discriminate].
  destruct (get_holiday_detail primary target_date)
    as [[on_holiday holiday_name] |]; [| discriminate].
  destruct (cache_check w target_date on_holiday)
    as [warning | e] eqn:Hcheck; [| discriminate].
  apply cache_check_returned in Hcheck as [_ Hcheck].
  pose proof (find_next_rest_day_world J primary target_date 30
                (after_load w)) as Hworld.
  destruct (find_next_rest_day J primary target_date 30 (after_load w))
    as [[next | e] w0] eqn:Hfind; [| discriminate].
  cbn in Hworld. subst w0. intros [= <- <-].
  exists is_work, on_holiday, holiday_name, warning, next.
  repeat split; try reflexivity; try assumption.
  cbn [ds_detail]. rewrite weekday_not_weekend.
  fold (is_weekend target_date).
  unfold detail_by_priority, str_or.
  destruct on_holiday; [| reflexivity].
  destruct holiday_name; reflexivity.
Qed.

Lemma weekday_name_listed d : In (weekday_name d) WEEKDAY_NAMES.
Proof.
  unfold weekday_name. apply nth_In.
  pose proof (Z.mod_pos_bound (d + 6) 7 ltac:(lia)) as H.
  unfold PyDate.weekday, WEEKDAY_NAMES. cbn [Datatypes.length]. lia.
Qed.

(** X5.  The resolver raises [NotImplementedError] exactly when the
    primary source has no data for the target date, and then it has not
    read the cache: the world is as it was, nothing is logged. *)
Theorem resolver_unsupported_date target_date (w : world J) :
  (is_workday primary target_date = None \/
   get_holiday_detail primary target_date = None) <->
  get_date_status J primary target_date w = (Raise NotImplementedError, w).
Proof.
  rewrite get_date_status_run.
  destruct (is_workday primary target_date) as [is_work |];
    [| split; auto].
  destruct (get_holiday_detail primary target_date)
    as [[on_holiday holiday_name] |]; [| split; auto].
  split; [intros [H | H]; discriminate |].
  destruct (cache_check w target_date on_holiday)
    as [warning | e] eqn:Hcheck.
  - pose proof (find_next_rest_day_contains_unsupported J primary
                  target_date 30 (after_load w)) as Hnot.
    destruct (find_next_rest_day J primary target_date 30 (after_load w))
      as [[next | e] w0]; [discriminate |].
    intros [= -> _]. now destruct Hnot.
  - intros [= -> _].
    destruct (cache_check_errors _ _ _ _ Hcheck) as [[H _] | [H | [H _]]];
      discriminate.
Qed.

(** X6.  The resolver raises [AttributeError] exactly when the primary
    source has data for the target date and the JSON in the cache file is
    not an object: a cache file with, say, a list in it fails every
    supported query. *)
Theorem resolver_needs_object_cache target_date (w : world J) :
  fst (get_date_status J primary target_date w) = Raise AttributeError <->
  supported primary target_date /\ forall o, cached_index w <> JObj o.
Proof.
  rewrite get_date_status_run. unfold supported.
  destruct (is_workday primary target_date) as [is_work |];
    [| split; [discriminate | intros [[[? ?] _] _]; discriminate]].
  destruct (get_holiday_detail primary target_date)
    as [[on_holiday holiday_name] |];
    [| split; [discriminate | intros [[_ [? ?]] _]; discriminate]].
  destruct (cache_check w target_date on_holiday)
    as [warning | e] eqn:Hcheck.
  - apply cache_check_returned in Hcheck as [_ Hcheck]. split.
    + destruct (find_next_rest_day_inv J primary target_date 30
                  (after_load w)) as [_ Hres].
      destruct (find_next_rest_day J primary target_date 30 (after_load w))
        as [[next | e] w0]; [discriminate |].
      cbn in Hres. destruct Hres as [-> _]. discriminate.
    + intros [_ Hnot]. exfalso. unfold cross_check in Hcheck.
      destruct (cached_index w) as [| b | z | s | l | o];
        cbn [py_get] in Hcheck; try discriminate.
      now destruct (Hnot o).
  - cbn [fst]. split.
    + intros [= ->].
      destruct (cache_check_errors _ _ _ _ Hcheck)
        as [(_ & _ & H) | [H | [H _]]]; try discriminate.
      split; [split; eauto | exact H].
    + intros [_ Hnot].
      destruct (accessible_dec J w) as [Hfile | Hfile].
      * rewrite cache_check_accessible in Hcheck by assumption.
        unfold cross_check in Hcheck.
        destruct (cached_index w) as [| b | z | s | l | o];
          cbn [py_get] in Hcheck; try congruence.
        now destruct (Hnot o).
      * exfalso. apply (Hnot ∅). unfold cached_index. now rewrite Hfile.
Qed.

(** X7.  A verdict carries [holiday_name] exactly when the primary source
    marks the date as a holiday with a non-empty name, and then [detail] is
    that name. *)
Theorem holiday_name_iff_named_holiday target_date (w w' : world J) v name :
  get_date_status J primary target_date w = (Ok v, w') ->
  (ds_holiday_name v = Some name <->
   get_holiday_detail primary target_date = Some (true, Some name) /\
   name <> "") /\
  (ds_holiday_name v = Some name -> ds_detail v = name).
Proof.
  intros Hrun.
  destruct (get_date_status_ok _ _ _ _ Hrun)
    as (is_work & h & n & warning & next & _ & Hd & _ & _ & _ & _ & _ & _
        & Hdetail & _ & _ & Hname).
  rewrite Hname, Hdetail, Hd. unfold detail_by_priority, str_truthy.
  destruct h; cbn [andb].
  - destruct n as [t |].
    + destruct (String.eqb_spec t "") as [-> | Hne]; cbn [negb].
      * split; [split; [discriminate | intros [[= <-] H]; now destruct H]
               | discriminate].
      * split; [split; [intros [= ->]; auto | intros [[= ->] _]; reflexivity]
               | intros [= ->]; reflexivity].
    + split; [split; [discriminate | intros [[=] _]] | discriminate].
  - split; [split; [discriminate | intros [[=] _]] | discriminate].
Qed.

(** X8.  For a date that is not a designated holiday, each of the four
    labels of [detail] stands for one combination of working day and
    weekend, and for that combination only. *)
Theorem detail_label_tells_day_kind target_date (w w' : world J) v
    holiday_name :
  get_date_status J primary target_date w = (Ok v, w') ->
  get_holiday_detail primary target_date = Some (false, holiday_name) ->
  (ds_detail v = "调休补班" <->
     ds_is_workday v = true /\ is_weekend target_date = true) /\
  (ds_detail v = "休息日" <->
     ds_is_workday v = false /\ is_weekend target_date = false) /\
  (ds_detail v = "正常工作日" <->
     ds_is_workday v = true /\ is_weekend target_date = false) /\
  (ds_detail v = "周末" <->
     ds_is_workday v = false /\ is_weekend target_date = true).
Proof.
  intros Hrun Hholiday.
  destruct (get_date_status_ok _ _ _ _ Hrun)
    as (is_work & h & n & warning & next & _ & Hd & _ & _ & _ & _ & _
        & Hwork & Hdetail & _).
  rewrite Hholiday in Hd. injection Hd as <- <-.
  rewrite Hdetail, Hwork. unfold detail_by_priority.
  destruct is_work, (is_weekend target_date); cbn;
    repeat split; intros; try discriminate; try reflexivity;
    try (destruct H; discriminate).
Qed.

(** X9.  In every verdict the [weekday] is one of the seven labels of
    [WEEKDAY_NAMES] and [detail] is not the empty string; the same holds
    for the rest day the verdict carries. *)
Theorem verdict_labels_well_formed target_date (w w' : world J) v :
  get_date_status J primary target_date w = (Ok v, w') ->
  In (ds_weekday v) WEEKDAY_NAMES /\ ds_detail v <> "" /\
  forall rd, ds_next_rest_day v = Some (Some rd) ->
    In (rd_weekday rd) WEEKDAY_NAMES /\ rd_detail rd <> "".
Proof.
  intros Hrun.
  destruct (get_date_status_ok _ _ _ _ Hrun)
    as (is_work & h & n & warning & next & _ & _ & _ & Hnext & _ & _
        & Hweekday & _ & Hdetail & Hcarried & _).
  rewrite Hweekday, Hdetail, Hcarried.
  split; [apply weekday_name_listed |]. split.
  - unfold detail_by_priority.
    destruct h.
    + destruct n as [t |]; [| discriminate].
      destruct (String.eqb_spec t ""); [discriminate | assumption].
    + destruct (is_work && is_weekend target_date); [discriminate |].
      destruct (negb is_work && negb (is_weekend target_date));
        [discriminate |].
      destruct is_work; discriminate.
  - intros rd [= ->].
    destruct (find_next_rest_day_inv J primary target_date 30 (after_load w))
      as [_ Hres].
    rewrite Hnext in Hres. cbn in Hres.
    destruct Hres as (i & _ & _ & _ & _ & h' & n' & _ & _ & Hwd & Hdt & _).
    rewrite Hwd, Hdt. split; [apply weekday_name_listed |].
    unfold name_if. destruct n' as [t |]; [| discriminate].
    destruct (h' && negb (String.eqb t "")) eqn:Hc; [| discriminate].
    apply andb_prop in Hc as [_ Hc].
    destruct (String.eqb_spec t ""); [discriminate | assumption].
Qed.

(** X10.  A verdict always has the [next_rest_day] key; a rest day under it
    is a non-working day from 1 to 30 days after the target date, never the
    target date itself, with [days_from_now] counted from the current
    date. *)
Theorem verdict_rest_day_follows_target target_date (w w' : world J) v :
  get_date_status J primary target_date w = (Ok v, w') ->
  exists next,
    ds_next_rest_day v = Some next /\
    forall rd, next = Some rd ->
      exists i,
        1 <= i <= 30 /\
        non_working primary (target_date + i) /\
        rd_date rd = PyDate.isoformat (target_date + i) /\
        rd_days_from_now rd = target_date + i - clock w.
Proof.
  intros Hrun.
  destruct (get_date_status_ok _ _ _ _ Hrun)
    as (is_work & h & n & warning & next & _ & _ & _ & Hnext & _ & _
        & _ & _ & _ & Hcarried & _).
  exists next. split; [assumption |]. intros rd ->.
  destruct (find_next_rest_day_inv J primary target_date 30 (after_load w))
    as [_ Hres].
  rewrite Hnext in Hres. cbn in Hres.
  destruct Hres as (i & Hi & _ & _ & Hnw & h' & n' & _ & Hdate & _ & _ & Hdays).
  exists i. repeat split; auto; try lia.
  rewrite Hdays, after_load_clock. reflexivity.
Qed.

End ResolverMore.

(* ===================================================================== *)
(** * Further properties of the store, the fetcher and the refresh job *)
(* ===================================================================== *)

Section StoreMore.

Context (J : json_codec).


End StoreMore.

Section FetcherMore.

Context (J : json_codec).
Context (http_get : string -> http_outcome (text J)).

Lemma collect_items_strings items :
  Forall (fun item => exists s, item = JStr s) items ->
  fst (collect_items items []) = [].
Proof.
  intros H. destruct H as [| item items [s ->] _]; reflexivity.
Qed.

Lemma py_iter_not_array payload items :
  (forall l, payload <> JArr l) ->
  py_iter payload = Ok items ->
  Forall (fun item => exists s, item = JStr s) items.
Proof.
  intros Hnot. destruct payload as [| b | z | s | l | o]; cbn;
    try discriminate.
  - intros [= <-]. induction s as [| c s IH]; cbn; constructor; eauto.
  - now destruct (Hnot l).
  - intros [= <-]. apply Forall_map, Forall_forall. intros; eauto.
Qed.

(** X12.  [fetch_nager_holidays] never raises and leaves the cache file
    alone; it returns the empty dict when the client fails, when the
    status is not 200, when the body is not JSON and when the JSON is not
    an array. *)
Theorem fetch_nager_holidays_never_raises year (w : world J) :
  exists result w',
    fetch_nager_holidays J http_get year w = (Ok result, w') /\
    cache_file w' = cache_file w /\ clock w' = clock w /\
    (http_get (NAGER_API year) = HttpFailure -> result = []) /\
    (forall status_code content,
       http_get (NAGER_API year) = HttpResponse status_code content ->
       status_code <> 200 -> result = []) /\
    (forall content,
       http_get (NAGER_API year) = HttpResponse 200 content ->
       json_loads J content = None -> result = []) /\
    (forall content payload,
       http_get (NAGER_API year) = HttpResponse 200 content ->
       json_loads J content = Some payload ->
       (forall l, payload <> JArr l) -> result = []).
Proof.
  destruct (fetch_nager_holidays_run J http_get year w) as (Hres & Hf & Hc).
  destruct (fetch_nager_holidays J http_get year w) as [r w'].
  cbn in Hres, Hf, Hc. subst r.
  exists (fetched J http_get year), w'.
  split; [reflexivity |]. split; [assumption |]. split; [assumption |].
  unfold fetched, fetch_attempt. repeat split.
  - intros ->. reflexivity.
  - intros status_code content -> Hne.
    destruct (Z.eqb_spec status_code 200); [contradiction | reflexivity].
  - intros content -> ->. reflexivity.
  - intros content payload -> -> Hnot. cbn.
    destruct (py_iter payload) as [items | e] eqn:Hiter; [| reflexivity].
    pose proof (collect_items_strings items
                  (py_iter_not_array _ _ Hnot Hiter)) as Hempty.
    destruct (collect_items items []) as [result [e |]]; exact Hempty.
Qed.

Lemma key_eqb_str k d : key_eqb k (JStr d) = true -> k = JStr d.
Proof.
  destruct k as [| b | z | s | l | o]; cbn; try discriminate.
  intros H. apply String.eqb_eq in H. now subst.
Qed.

Lemma pydict_get_store r d name d' :
  pydict_get (pydict_store r (JStr d) name) d' =
  if String.eqb d d' then Some name else pydict_get r d'.
Proof.
  unfold pydict_get.
  induction r as [| [k v] r IH]; cbn [pydict_store find fst snd].
  - cbn. destruct (String.eqb d d'); reflexivity.
  - destruct (key_eqb k (JStr d)) eqn:Hk; cbn [find fst snd].
    + apply key_eqb_str in Hk. subst k. cbn [key_eqb].
      destruct (String.eqb d d'); reflexivity.
    + destruct (key_eqb k (JStr d')) eqn:Hk'; [| exact IH].
      apply key_eqb_str in Hk'. subst k. cbn [key_eqb] in Hk.
      destruct (String.eqb_spec d d') as [-> | Hne]; [| reflexivity].
      rewrite String.eqb_refl in Hk. discriminate.
Qed.

Lemma pydict_get_key r d v :
  pydict_get r d = Some v -> d ∈ str_keys r.
Proof.
  unfold pydict_get, str_keys.
  induction r as [| [k v'] r IH]; cbn [find fst snd]; [discriminate |].
  destruct (key_eqb k (JStr d)) eqn:Hk.
  - apply key_eqb_str in Hk. subst k. intros _. cbn. apply elem_of_cons. now left.
  - intros H. specialize (IH H). cbn [omap list_omap fst].
    destruct k; cbn; try exact IH. apply elem_of_cons. now right.
Qed.

Lemma str_keys_store r d name :
  str_keys (pydict_store r (JStr d) name) =
  if decide (d ∈ str_keys r) then str_keys r else str_keys r ++ [d].
Proof.
  induction r as [| [k v] r IH]; cbn [pydict_store].
  - cbn. case_decide as Hin; [| reflexivity].
    now apply elem_of_nil in Hin.
  - destruct (key_eqb k (JStr d)) eqn:Hk.
    + apply key_eqb_str in Hk. subst k. clear IH.
      change (str_keys ((JStr d, name) :: r)) with (d :: str_keys r).
      change (str_keys ((JStr d, v) :: r)) with (d :: str_keys r).
      case_decide as Hn; [reflexivity |].
      destruct Hn. apply elem_of_cons. now left.
    + destruct k as [| b | z | s | l | o]; cbn [key_eqb] in Hk;
        try exact IH.
      change (str_keys ((JStr s, v) :: pydict_store r (JStr d) name))
        with (s :: str_keys (pydict_store r (JStr d) name)).
      change (str_keys ((JStr s, v) :: r)) with (s :: str_keys r).
      rewrite IH. clear IH.
      assert (Hne : d <> s).
      { intros ->. rewrite String.eqb_refl in Hk. discriminate. }
      repeat case_decide; try reflexivity.
      * exfalso. match goal with H : ¬ _ |- _ => apply H end.
        apply elem_of_cons. now right.
      * exfalso.
        match goal with H : _ ∈ _ :: _ |- _ =>
          apply elem_of_cons in H as [? | ?] end; [congruence | contradiction].
Qed.

Lemma str_keyed_store r d name :
  str_keyed r -> str_keyed (pydict_store r (JStr d) name).
Proof.
  intros [Hall Hnodup]. split.
  - clear Hnodup. induction Hall as [| [k v] r [s Hs] Hall IH];
      cbn [pydict_store].
    + constructor; [eexists; reflexivity | constructor].
    + destruct (key_eqb k (JStr d)).
      * constructor; [exists s; exact Hs | assumption].
      * constructor; [exists s; exact Hs | assumption].
  - rewrite str_keys_store.
    destruct (decide (d ∈ str_keys r)) as [| Hnin]; [assumption |].
    apply NoDup_app. split; [assumption |]. split.
    + intros x Hx Hd. apply list_elem_of_singleton in Hd. now subst.
    + apply NoDup_singleton.
Qed.

(** The JSON object a dict with unique [str] keys is saved as holds under
    every key what the dict holds. *)
Lemma fold_insert_lookup r : forall (o : gmap string json) k,
  str_keyed r ->
  fold_left (fun o kv => <[key_text (fst kv) := snd kv]> o) r o !! k =
  match pydict_get r k with
  | Some v => Some v
  | None => o !! k
  end.
Proof.
  induction r as [| [key v] r IH]; intros o k [Hall Hnodup];
    [reflexivity |].
  inversion Hall as [| ? ? [s Hs] Hall']; subst. cbn in Hs. subst key.
  unfold str_keys in Hnodup. cbn in Hnodup.
  apply NoDup_cons in Hnodup as [Hnotin Hnodup].
  cbn [fold_left fst snd key_text].
  rewrite IH by (split; assumption).
  unfold pydict_get at 2. cbn [find fst snd key_eqb].
  destruct (String.eqb_spec s k) as [-> | Hne].
  - destruct (pydict_get r k) as [v' |] eqn:Hget.
    + destruct Hnotin. eapply pydict_get_key; eauto.
    + cbn. apply lookup_insert_eq.
  - fold (pydict_get r k).
    destruct (pydict_get r k); [reflexivity |].
    now rewrite lookup_insert_ne.
Qed.

Lemma collect_well_formed_items items pairs :
  Forall2 (fun item p => item_of item = Some p) items pairs ->
  forall r,
    collect_items items r =
    (fold_left (fun r p => pydict_store r (JStr (fst p)) (snd p)) pairs r,
     None).
Proof.
  induction 1 as [| item [d name] items pairs Hitem _ IH]; intros r;
    [reflexivity |].
  cbn [collect_items fold_left fst snd].
  unfold item_of in Hitem.
  destruct item as [| b | z | s | l | o]; try discriminate.
  cbn [py_getitem].
  destruct (o !! "localName") as [name' |]; [| discriminate].
  destruct (o !! "date") as [[| b | z | s | l | o'] |]; try discriminate.
  injection Hitem as -> ->. cbn. apply IH.
Qed.

Lemma collected_get pairs d : forall r,
  pydict_get
    (fold_left (fun r p => pydict_store r (JStr (fst p)) (snd p)) pairs r) d
  = fold_left (fun found p => if String.eqb (fst p) d then Some (snd p)
                              else found) pairs (pydict_get r d).
Proof.
  induction pairs as [| [d' name] pairs IH]; intros r; [reflexivity |].
  cbn [fold_left fst snd]. rewrite IH, pydict_get_store. reflexivity.
Qed.

Lemma collected_str_keyed pairs : forall r,
  str_keyed r ->
  str_keyed
    (fold_left (fun r p => pydict_store r (JStr (fst p)) (snd p)) pairs r).
Proof.
  induction pairs as [| [d name] pairs IH]; intros r Hr; [assumption |].
  cbn [fold_left fst snd]. apply IH, str_keyed_store, Hr.
Qed.

Lemma str_keyed_nil : str_keyed [].
Proof. split; constructor. Qed.

Lemma collect_items_app items1 items2 r :
  collect_items (items1 ++ items2) r =
  match collect_items items1 r with
  | (r', None) => collect_items items2 r'
  | (r', Some e) => (r', Some e)
  end.
Proof.
  revert r. induction items1 as [| item items1 IH]; intros r;
    [reflexivity |].
  cbn [app collect_items].
  destruct (py_getitem item "localName") as [name | e]; [| reflexivity].
  destruct (py_getitem item "date") as [key | e]; [| reflexivity].
  destruct (pydict_setitem r key name) as [r' | e]; [| reflexivity].
  apply IH.
Qed.

(** X13.  For a 200 response whose body is a JSON array of objects that
    each have a string under ["date"] and a value under ["localName"], the
    dict returned, and the JSON object it is saved as, hold under every
    date the [localName] of the last item with that date, and nothing under
    a date no item has. *)
Theorem fetch_maps_date_to_last_name year content items pairs d :
  http_get (NAGER_API year) = HttpResponse 200 content ->
  json_loads J content = Some (JArr items) ->
  Forall2 (fun item p => item_of item = Some p) items pairs ->
  pydict_get (fetched J http_get year) d = last_name pairs d /\
  entry (json_of_pydict (fetched J http_get year)) d = last_name pairs d.
Proof.
  intros Hget Hjson Hitems.
  assert (Hfetched : fetched J http_get year =
    fold_left (fun r p => pydict_store r (JStr (fst p)) (snd p)) pairs []).
  { unfold fetched, fetch_attempt. rewrite Hget. cbn. rewrite Hjson. cbn.
    now rewrite (collect_well_formed_items _ _ Hitems). }
  rewrite Hfetched.
  assert (Hin_memory :
    pydict_get
      (fold_left (fun r p => pydict_store r (JStr (fst p)) (snd p)) pairs [])
      d = last_name pairs d) by apply collected_get.
  split; [exact Hin_memory |].
  unfold json_of_pydict, entry.
  rewrite fold_insert_lookup by apply collected_str_keyed, str_keyed_nil.
  rewrite Hin_memory, lookup_empty. now destruct (last_name pairs d).
Qed.

(** X14.  When an item of the array cannot be read (it has no
    ["localName"] or no ["date"], or is not an object), the items before it
    are kept: the dict returned holds them, and is not empty when there is
    one. *)
Theorem fetch_keeps_items_before_failure year content good bad rest pairs
    e :
  http_get (NAGER_API year) = HttpResponse 200 content ->
  json_loads J content = Some (JArr (good ++ bad :: rest)) ->
  Forall2 (fun item p => item_of item = Some p) good pairs ->
  (py_getitem bad "localName" = Raise e \/
   py_getitem bad "date" = Raise e) ->
  (forall d, pydict_get (fetched J http_get year) d = last_name pairs d) /\
  (good <> [] -> fetched J http_get year <> []).
Proof.
  intros Hget Hjson Hgood Hbad.
  assert (Hfetched : fetched J http_get year =
    fold_left (fun r p => pydict_store r (JStr (fst p)) (snd p)) pairs []).
  { unfold fetched, fetch_attempt. rewrite Hget. cbn. rewrite Hjson. cbn.
    rewrite collect_items_app, (collect_well_formed_items _ _ Hgood).
    cbn [collect_items].
    destruct (py_getitem bad "localName") as [name | e1]; [| reflexivity].
    destruct Hbad as [Hbad | Hbad]; [discriminate |].
    now rewrite Hbad. }
  rewrite Hfetched. split; [intros d; apply collected_get |].
  intros Hne.
  destruct Hgood as [| item [d name] good pairs Hitem Hgood];
    [contradiction |].
  intros Hempty.
  apply (f_equal (fun r => pydict_get r d)) in Hempty.
  rewrite collected_get in Hempty. cbn [fold_left fst snd] in Hempty.
  rewrite String.eqb_refl in Hempty.
  assert (Hsome : forall found,
    fold_left (fun found p => if String.eqb (fst p) d then Some (snd p)
                              else found) pairs (Some found) <> None).
  { clear. induction pairs as [| [d' n'] pairs IH]; intros found;
      [discriminate |].
    cbn [fold_left fst snd]. destruct (String.eqb d' d); apply IH. }
  now apply Hsome in Hempty.
Qed.

End FetcherMore.

Section RefreshMore.

Context (J : json_codec).
Context (http_get : string -> http_outcome (text J)).

(** A run of the job looks at the cache file, the file system and the
    current date only. *)
Lemma refreshed_alike (w1 w2 : world J) :
  cache_file w1 = cache_file w2 -> disk w1 = disk w2 ->
  clock w1 = clock w2 ->
  refreshed J http_get w1 = refreshed J http_get w2.
Proof.
  intros Hfile Hdisk Hclock. unfold refreshed.
  rewrite (load_outcome_alike J w1 w2 Hfile), Hclock, Hfile.
  destruct (load_outcome w2) as [cache | e]; [| reflexivity].
  destruct (merged J http_get _ cache) as [cache' | e]; [| reflexivity].
  destruct (save_cache_alike J cache' w1 w2 Hfile Hdisk) as [-> ->].
  reflexivity.
Qed.


(** X16.  With a codec that reads back what it writes, a run of the
    refresh job that returns leaves a cache file that is there and parses,
    whatever the file was before: absent, unreadable or not JSON. *)
Theorem refresh_leaves_parseable_cache (w : world J) :
  round_trips J ->
  fst (update_auxiliary_cache J http_get w) = Ok tt ->
  exists t index,
    cache_file (snd (update_auxiliary_cache J http_get w)) = FileContent t /\
    json_loads J t = Some index /\
    cached_index (snd (update_auxiliary_cache J http_get w)) = index.
Proof.
  intros Hrt.
  destruct (update_auxiliary_cache_run J http_get w) as (-> & Hfile & _ & _).
  destruct (refreshed_cases J http_get w)
    as [[Hin Href] | [(Hacc & Hm & Href) | (Hacc & cache & Hm & Href)]];
    rewrite Href in Hfile |- *; cbn [fst snd] in *; try discriminate.
  intros Hok.
  destruct (save_cache J cache w) as [r w2] eqn:Hsave.
  cbn [fst snd] in *. subst r.
  destruct (save_cache_returned J _ _ _ Hsave) as (-> & _ & _).
  cbn [set_file cache_file] in Hfile.
  exists (json_dumps J cache), cache.
  split; [exact Hfile |]. split; [apply Hrt |].
  unfold cached_index. now rewrite Hfile, Hrt.
Qed.

(** A second run on what a first run has left, when the write of the
    first run did not fail. *)
Lemma refreshed_again (w w1 : world J) :
  round_trips J ->
  disk w <> WriteFails ->
  fst (refreshed J http_get w) <> Raise UnicodeEncodeError ->
  cache_file w1 = snd (refreshed J http_get w) ->
  disk w1 = disk w -> clock w1 = clock w ->
  refreshed J http_get w1 = (fst (refreshed J http_get w), cache_file w1).
Proof.
  intros Hrt Hfault Hencoded Hfile Hdisk Hclock.
  assert (Hsame : snd (refreshed J http_get w) = cache_file w ->
    refreshed J http_get w1
    = (fst (refreshed J http_get w), cache_file w1)).
  { intros Hleft. rewrite Hleft in Hfile.
    rewrite (refreshed_alike w1 w Hfile Hdisk Hclock).
    rewrite Hfile, <- Hleft. now destruct (refreshed J http_get w). }
  destruct (refreshed_cases J http_get w)
    as [[Hin Href] | [(Hacc & Hm & Href) | (Hacc & cache & Hm & Href)]];
    try (apply Hsame; now rewrite Href).
  destruct (save_cache J cache w) as [r w2] eqn:Hsave.
  cbn [fst snd] in Href. destruct r as [[] | e].
  - destruct (save_cache_returned J _ _ _ Hsave) as (-> & _ & Henc).
    rewrite Href in Hfile |- *. cbn [fst snd set_file cache_file] in *.
    assert (Hindex : cached_index w1 = cache).
    { unfold cached_index. now rewrite Hfile, Hrt. }
    unfold refreshed.
    rewrite load_outcome_accessible
      by (unfold accessible; rewrite Hfile; discriminate).
    rewrite Hindex, Hclock, (merged_idempotent J http_get _ _ _ _ Hm).
    revert Hsave. rewrite !save_cache_run. unfold write_text.
    rewrite Hdisk, Hfile, Henc.
    destruct (disk w), (cache_file w); try discriminate;
      intros _; cbn [fst snd set_file cache_file]; reflexivity.
  - destruct (save_cache_raised J _ _ _ _ Hsave)
      as [(_ & -> & _) | [(_ & -> & _) | [(-> & _) | (_ & _ & Hdisk' & _)]]].
    + apply Hsame. now rewrite Href.
    + apply Hsame. now rewrite Href.
    + rewrite Href in Hencoded. now destruct Hencoded.
    + now destruct Hfault.
Qed.

(** X17.  With a codec that reads back what it writes, running the refresh
    job a second time on the same day against the same answers of the
    provider ends as the first run did and leaves the same index, unless
    the first run failed in the write itself ([UnicodeEncodeError], or a
    file system that fails on the write). *)
Theorem refresh_twice_is_refresh_once (w : world J) :
  round_trips J ->
  disk w <> WriteFails ->
  fst (update_auxiliary_cache J http_get w) <> Raise UnicodeEncodeError ->
  let w1 := snd (update_auxiliary_cache J http_get w) in
  let w2 := snd (update_auxiliary_cache J http_get w1) in
  cached_index w2 = cached_index w1 /\
  fst (update_auxiliary_cache J http_get w1)
    = fst (update_auxiliary_cache J http_get w).
Proof.
  intros Hrt Hfault Hencoded w1 w2.
  destruct (update_auxiliary_cache_run J http_get w)
    as (Hfst & Hfile & Hdisk & Hclock).
  destruct (update_auxiliary_cache_run J http_get w1)
    as (Hfst1 & Hfile1 & _ & _).
  fold w1 in Hfile, Hdisk, Hclock. fold w2 in Hfile1.
  rewrite Hfst in Hencoded.
  rewrite (refreshed_again w w1 Hrt Hfault Hencoded Hfile Hdisk Hclock)
    in Hfst1, Hfile1.
  cbn [fst snd] in Hfst1, Hfile1. split; [| congruence].
  unfold cached_index. now rewrite Hfile1.
Qed.

End RefreshMore.

(* ===================================================================== *)
(** * Further properties of the endpoints *)
(* ===================================================================== *)

Section EndpointsMore.

Context (J : json_codec) (primary : primary_source).

Lemma get_date_status_unsupported target_date (w : world J) :
  is_workday primary target_date = None \/
  get_holiday_detail primary target_date = None ->
  get_date_status J primary target_date w = (Raise NotImplementedError, w).
Proof.
  intros H. rewrite get_date_status_run.
  destruct (is_workday primary target_date) as [is_work |]; [| reflexivity].
  destruct H as [H | H]; [discriminate |]. now rewrite H.
Qed.

(** The exceptions the resolver lets out. *)
Lemma get_date_status_errors target_date (w w' : world J) e :
  get_date_status J primary target_date w = (Raise e, w') ->
  (e = NotImplementedError /\
   (is_workday primary target_date = None \/
    get_holiday_detail primary target_date = None)) \/
  e = AttributeError \/ e = TypeError \/ e = OverflowError \/
  e = PermissionError.
Proof.
  rewrite get_date_status_run.
  destruct (is_workday primary target_date) as [is_work |];
    [| intros [= <- _]; auto].
  destruct (get_holiday_detail primary target_date)
    as [[on_holiday holiday_name] |]; [| intros [= <- _]; auto].
  destruct (cache_check w target_date on_holiday)
    as [warning | e0] eqn:Hcheck.
  - destruct (find_next_rest_day_inv J primary target_date 30 (after_load w))
      as [_ Hres].
    destruct (find_next_rest_day J primary target_date 30 (after_load w))
      as [[next | e0] w0]; [discriminate |].
    cbn in Hres. destruct Hres as [-> _]. intros [= <- _]. auto.
  - intros [= <- _].
    destruct (cache_check_errors _ _ _ _ _ Hcheck)
      as [[-> _] | [-> | [-> _]]]; auto 6.
Qed.

Lemma find_next_rest_day_errors from_date max_days (w w' : world J) e :
  find_next_rest_day J primary from_date max_days w = (Raise e, w') ->
  e = OverflowError.
Proof.
  intros Hrun.
  destruct (find_next_rest_day_inv J primary from_date max_days w)
    as [_ Hres].
  rewrite Hrun in Hres. cbn in Hres. apply Hres.
Qed.

(** One run of [check_date] on a text that parses. *)
Lemma check_date_run skip_flags target d (w : world J) :
  try_formats skip_flags target formats = Ok (Some d) ->
  check_date J primary skip_flags target w =
  match get_date_status J primary d w with
  | (Raise e, w1) =>
      if is_NotImplementedError e
      then (Raise (HTTPException 400 (unsupported_year_error d)), w1)
      else (Raise e, w1)
  | (Ok status, w1) =>
      match find_next_rest_day J primary (clock w1) 30 w1 with
      | (Raise e, w2) =>
          if is_NotImplementedError e
          then (Raise (HTTPException 400 (unsupported_year_error d)), w2)
          else (Raise e, w2)
      | (Ok next, w2) =>
          (Ok {| cr_date := pop_next_rest_day status;
                 cr_next_rest_day := next |}, w2)
      end
  end.
Proof.
  intros Hparse. unfold check_date.
  unfold bind at 1. unfold lift at 1. rewrite Hparse.
  unfold try_except, bind, date_today, ret, raise, unsupported_year_error.
  destruct (get_date_status J primary d w) as [[status | e] w1];
    [| destruct (is_NotImplementedError e); reflexivity].
  destruct (find_next_rest_day J primary (clock w1) 30 w1)
    as [[next | e] w2]; [reflexivity |].
  destruct (is_NotImplementedError e); reflexivity.
Qed.

(** X18.  For a text that parses to a date, [check_date] answers with the
    400 error that names the year exactly when the primary source has no
    data for that date; it never lets [NotImplementedError] out. *)
Theorem check_date_unsupported_year skip_flags target d (w : world J) :
  try_formats skip_flags target formats = Ok (Some d) ->
  ((is_workday primary d = None \/ get_holiday_detail primary d = None) <->
   check_date J primary skip_flags target w
   = (Raise (HTTPException 400 (unsupported_year_error d)), w)) /\
  fst (check_date J primary skip_flags target w)
  <> Raise NotImplementedError.
Proof.
  intros Hparse. rewrite (check_date_run _ _ _ _ Hparse).
  split; [split |].
  - intros Hun. now rewrite (get_date_status_unsupported d w Hun).
  - destruct (get_date_status J primary d w) as [[status | e] w1] eqn:Hrun.
    + destruct (find_next_rest_day J primary (clock w1) 30 w1)
        as [[next | e] w2] eqn:Hfind; [discriminate |].
      rewrite (find_next_rest_day_errors _ _ _ _ _ Hfind). discriminate.
    + destruct (get_date_status_errors _ _ _ _ Hrun)
        as [[-> Hun] | [-> | [-> | [-> | ->]]]]; cbn; auto; discriminate.
  - destruct (get_date_status J primary d w) as [[status | e] w1] eqn:Hrun.
    + destruct (find_next_rest_day J primary (clock w1) 30 w1)
        as [[next | e] w2] eqn:Hfind; [discriminate |].
      rewrite (find_next_rest_day_errors _ _ _ _ _ Hfind). discriminate.
    + destruct (is_NotImplementedError e) eqn:He; [discriminate |].
      cbn. intros [= ->]. discriminate.
Qed.

(** X19.  The [next_rest_day] of the answer of [check_date] is the rest
    day that follows the current date, whatever date was asked, and the
    verdict beside it has no [next_rest_day] of its own. *)
Theorem check_date_rest_day_is_from_today skip_flags target
    (w w' : world J) r :
  check_date J primary skip_flags target w = (Ok r, w') ->
  fst (find_next_rest_day J primary (clock w) 30 w)
    = Ok (cr_next_rest_day r) /\
  ds_next_rest_day (cr_date r) = None.
Proof.
  destruct (try_formats skip_flags target formats) as [[d |] | e] eqn:Hparse.
  - rewrite (check_date_run _ _ _ _ Hparse).
    destruct (get_date_status J primary d w) as [[status | e] w1] eqn:Hrun;
      [| destruct (is_NotImplementedError e); discriminate].
    destruct (get_date_status_ok _ _ _ _ _ _ Hrun)
      as (? & ? & ? & ? & ? & _ & _ & _ & _ & -> & _).
    rewrite after_load_clock.
    pose proof (find_next_rest_day_same_clock J primary (clock w) 30
                  (after_load w) w (after_load_clock J w)) as Hsame.
    destruct (find_next_rest_day J primary (clock w) 30 (after_load w))
      as [[next | e] w2];
      [| destruct (is_NotImplementedError e); discriminate].
    intros [= <- _]. cbn in Hsame |- *. rewrite <- Hsame. auto.
  - unfold check_date. unfold bind at 1. unfold lift at 1. rewrite Hparse.
    discriminate.
  - unfold check_date. unfold bind at 1. unfold lift at 1. rewrite Hparse.
    discriminate.
Qed.

(** X20.  The three endpoints without a date in the path have no handler
    for a date the primary source does not cover: when today is not
    covered, [check_today] and [check_default] fail with
    [NotImplementedError]; when tomorrow is not covered, [check_tomorrow]
    does, and so does [check_default] when today's verdict can be given. *)
Theorem daily_endpoints_let_unsupported_out (w : world J) :
  clock w < PyDate.MAXORDINAL ->
  PyDate.valid (clock w) ->
  (no_data primary (clock w) ->
   check_today J primary w = (Raise NotImplementedError, w) /\
   check_default J primary w = (Raise NotImplementedError, w)) /\
  (no_data primary (clock w + 1) ->
   check_tomorrow J primary w = (Raise NotImplementedError, w) /\
   (forall v w', get_date_status J primary (clock w) w = (Ok v, w') ->
      fst (check_default J primary w) = Raise NotImplementedError)).
Proof.
  intros Hlast Hvalid.
  assert (Hadd : PyDate.add (clock w) 1 = Ok (clock w + 1)).
  { unfold PyDate.add. unfold PyDate.valid in Hvalid.
    replace ((0 <? clock w + 1) && (clock w + 1 <=? PyDate.MAXORDINAL))%bool
      with true by lia. reflexivity. }
  split; intros Hun.
  - split.
    + unfold check_today, bind, date_today.
      now rewrite (get_date_status_unsupported _ w Hun).
    + unfold check_default, bind, date_today, lift.
      change (PyDate.timedelta 1) with (@Ok Z 1). cbv beta iota.
      rewrite Hadd.
      now rewrite (get_date_status_unsupported _ w Hun).
  - split.
    + unfold check_tomorrow, bind, date_today, lift.
      change (PyDate.timedelta 1) with (@Ok Z 1). cbv beta iota.
      rewrite Hadd.
      now rewrite (get_date_status_unsupported _ w Hun).
    + intros v w' Hrun.
      unfold check_default, bind, date_today, lift.
      change (PyDate.timedelta 1) with (@Ok Z 1). cbv beta iota.
      rewrite Hadd, Hrun.
      now rewrite (get_date_status_unsupported _ w' Hun).
Qed.

(** X21.  In the answer of [check_today] the [next_rest_day] beside the
    verdict is the one the resolver had put in the verdict before it was
    popped; the run leaves the world as one load of the cache does. *)
Theorem check_today_rest_day_is_the_popped_one (w w' : world J) r :
  check_today J primary w = (Ok r, w') ->
  exists v,
    get_date_status J primary (clock w) w = (Ok v, w') /\
    tr_today r = pop_next_rest_day v /\
    ds_next_rest_day v = Some (tr_next_rest_day r) /\
    w' = after_load w.
Proof.
  unfold check_today, bind, date_today, ret.
  destruct (get_date_status J primary (clock w) w) as [[v | e] w1] eqn:Hrun;
    [| discriminate].
  destruct (get_date_status_ok _ _ _ _ _ _ Hrun)
    as (is_work & on_holiday & holiday_name & warning & next & _ & _ & _
        & Hnext & -> & _ & _ & _ & _ & Hv & _).
  rewrite Hnext. intros [= <- <-]. exists v. cbn. auto.
Qed.

(** X22.  When [check_tomorrow] reports tomorrow as a non-working day,
    the [next_rest_day] beside it is tomorrow itself, one day from now. *)
Theorem check_tomorrow_rest_day_is_tomorrow (w w' : world J) r :
  PyDate.valid (clock w) ->
  check_tomorrow J primary w = (Ok r, w') ->
  ds_is_workday (mr_tomorrow r) = false ->
  exists rd,
    mr_next_rest_day r = Some rd /\
    rd_date rd = ds_date (mr_tomorrow r) /\
    rd_weekday rd = ds_weekday (mr_tomorrow r) /\
    rd_days_from_now rd = 1.
Proof.
  intros Hvalid.
  unfold check_tomorrow, bind, date_today, lift, ret.
  change (PyDate.timedelta 1) with (@Ok Z 1). cbv beta iota.
  unfold PyDate.add. cbv zeta.
  destruct ((0 <? clock w + 1) && (clock w + 1 <=? PyDate.MAXORDINAL))%bool
    eqn:Hrange; [| discriminate].
  destruct (get_date_status J primary (clock w + 1) w)
    as [[v | e] w1] eqn:Hrun; [| discriminate].
  destruct (get_date_status_ok _ _ _ _ _ _ Hrun)
    as (is_work & on_holiday & holiday_name & warning & next & Hwork & Hdet
        & _ & _ & -> & Hdate & Hweekday & His & _).
  set (rd := {| rd_date := PyDate.isoformat (clock w + 1);
                rd_weekday := weekday_name (clock w + 1);
                rd_detail := name_if on_holiday holiday_name "周末";
                rd_days_from_now :=
                  PyDate.sub_days (clock w + 1) (clock (after_load w)) |}).
  assert (Hscan : is_work = false ->
            find_next_rest_day J primary (clock w) 30 (after_load w)
            = (Ok (Some rd), after_load w)).
  { intros ->.
    apply (scan_stops_at J primary (clock w) 30 1 (after_load w) rd);
      try assumption; try lia.
    - unfold reachable. unfold PyDate.valid in *. lia.
    - split; [exact Hwork |].
      exists on_holiday, holiday_name.
      repeat split; assumption || reflexivity. }
  destruct (find_next_rest_day J primary (clock w) 30 (after_load w))
    as [[found | e] w2] eqn:Hfound; [| discriminate].
  intros [= <- _] Hfalse. cbn in Hfalse.
  rewrite His in Hfalse. specialize (Hscan Hfalse).
  injection Hscan as -> _.
  exists rd. subst rd. cbn [mr_tomorrow mr_next_rest_day rd_date rd_weekday
                             rd_days_from_now].
  split; [reflexivity |]. split; [now rewrite <- Hdate |].
  split; [now rewrite <- Hweekday |].
  rewrite after_load_clock. unfold PyDate.sub_days. lia.
Qed.

Lemma months_spell_holds skip_flags st pad_month pad_day :
  spelled_unambiguously st pad_month pad_day = true ->
  months_spell skip_flags st pad_month pad_day = true.
Proof.
  intros Hok.
  destruct skip_flags, st, pad_month, pad_day;
    try discriminate Hok; vm_compute; reflexivity.
Qed.

Lemma tail_spells_holds skip_flags st pad_month pad_day m d :
  spelled_unambiguously st pad_month pad_day = true ->
  1 <= m <= 12 -> 1 <= d <= 31 ->
  tail_spells skip_flags (text_tail st pad_month pad_day m d) m d = true.
Proof.
  intros Hok Hm Hd.
  pose proof (months_spell_holds skip_flags st pad_month pad_day Hok)
    as Hmonths.
  assert (Hdays : days_spell skip_flags st pad_month pad_day m = true).
  { apply (forallb_In _ (range 1 13)); [exact Hmonths |].
    apply elem_of_range. lia. }
  apply (forallb_In (fun d =>
           tail_spells skip_flags (text_tail st pad_month pad_day m d) m d)
           (range 1 32)); [exact Hdays |].
  apply elem_of_range. lia.
Qed.

(** When every format that matches reads the month [m] and the day [d],
    and the calendar has no such day in the year [y], no format parses the
    text. *)
Lemma try_formats_no_such_day skip_flags y tail m d : forall fmts,
  forallb (format_spells skip_flags tail m d) fmts = true ->
  0 <= y <= 9999 ->
  PyDate.new y m d = Raise ValueError ->
  try_formats skip_flags (text_YYYY y +:+ tail) fmts = Ok None.
Proof.
  induction fmts as [| fmt fmts IH]; intros Hall Hy Hnew; [reflexivity |].
  cbn [forallb try_formats] in *.
  apply andb_prop in Hall as [Hfmt Hall]. specialize (IH Hall Hy Hnew).
  unfold format_spells in Hfmt.
  destruct (Strptime.tokenize skip_flags false fmt)
    as [[| [| | | c] dirs] |] eqn:Htok; try discriminate.
  - rewrite (strptime_after_year _ _ _ _ _ Htok Hy).
    destruct (tail_outcome dirs tail) as [g |]; [| exact IH].
    destruct (Strptime.f_Y g); [discriminate |].
    destruct (Strptime.f_m g) as [m' |]; [| discriminate].
    destruct (Strptime.f_d g) as [d' |]; [| discriminate].
    apply andb_prop in Hfmt as [Hm' Hd'].
    apply Z.eqb_eq in Hm', Hd'. subst m' d'. cbn [default from_option id]. unfold id.
    rewrite Hnew. exact IH.
  - rewrite strptime_bad_format by assumption. exact IH.
Qed.

(** X23.  A text in one of the styles that spells a day the calendar does
    not have (30 February, 31 April, 29 February of a common year) or the
    year 0000 is answered with the 400 error that lists the formats, and
    nothing else is done. *)
Theorem impossible_day_is_a_format_error skip_flags st pad_month pad_day
    y m d (w : world J) :
  spelled_unambiguously st pad_month pad_day = true ->
  0 <= y <= 9999 -> 1 <= m <= 12 -> 1 <= d <= 31 ->
  y = 0 \/ PyDate.days_in_month y m < d ->
  check_date J primary skip_flags (date_text st pad_month pad_day y m d) w
  = (Raise (HTTPException 400 FORMAT_ERROR), w).
Proof.
  intros Hok Hy Hm Hd Hbad.
  assert (Hnew : PyDate.new y m d = Raise ValueError).
  { unfold PyDate.new.
    replace ((1 <=? y) && (y <=? 9999) && (1 <=? m) && (m <=? 12)
             && (1 <=? d) && (d <=? PyDate.days_in_month y m))%bool
      with false; [reflexivity |].
    symmetry. destruct Hbad as [-> | Hlate].
    - reflexivity.
    - apply andb_false_iff. right. apply Z.leb_gt. exact Hlate. }
  unfold check_date, date_text. unfold bind at 1. unfold lift at 1.
  rewrite (try_formats_no_such_day skip_flags y _ m d formats
             (tail_spells_holds skip_flags st pad_month pad_day m d
                Hok Hm Hd) Hy Hnew).
  reflexivity.
Qed.

(** What the parser makes of a date text in one of the styles: the date
    it spells when the calendar has it, and nothing otherwise. *)
Lemma try_formats_spelled skip_flags st pad_month pad_day y m d :
  spelled_unambiguously st pad_month pad_day = true ->
  0 <= y <= 9999 -> 1 <= m <= 12 -> 1 <= d <= 31 ->
  try_formats skip_flags (date_text st pad_month pad_day y m d) formats =
  match PyDate.new y m d with
  | Ok dt => Ok (Some dt)
  | Raise _ => Ok None
  end.
Proof.
  intros Hok Hy Hm Hd. unfold date_text.
  destruct (PyDate.new y m d) as [dt | e] eqn:Hnew.
  - pose proof (tail_parses_holds skip_flags st pad_month pad_day m d
                  Hok Hm Hd) as Htail.
    unfold tail_parses in Htail.
    destruct (first_tail skip_flags (text_tail st pad_month pad_day m d)
                formats) as [g |] eqn:Hfirst; [| discriminate].
    apply (try_formats_after_year _ _ _ g _ _ Hfirst); [lia |].
    destruct g as [[gy |] [gm |] [gd |]]; cbn in Htail; try discriminate.
    apply andb_prop in Htail as [Hgm Hgd].
    apply Z.eqb_eq in Hgm, Hgd. subst gm gd.
    cbn [Strptime.f_Y Strptime.f_m Strptime.f_d default from_option id].
    unfold id. exact Hnew.
  - assert (e = ValueError) as ->.
    { unfold PyDate.new in Hnew.
      destruct ((1 <=? y) && (y <=? 9999) && (1 <=? m) && (m <=? 12)
                && (1 <=? d) && (d <=? PyDate.days_in_month y m))%bool;
        congruence. }
    apply (try_formats_no_such_day skip_flags y _ m d formats);
      [| assumption | assumption].
    apply tail_spells_holds; assumption.
Qed.

(** X24.  The answer of [check_date] does not depend on the style in
    which the date is written: every spelling of a year, a month and a day
    gets the answer that the zero-padded [YYYY-MM-DD] gets, an error
    included. *)
Theorem check_date_same_answer_in_every_style skip_flags st pad_month
    pad_day y m d (w : world J) :
  spelled_unambiguously st pad_month pad_day = true ->
  0 <= y <= 9999 -> 1 <= m <= 12 -> 1 <= d <= 31 ->
  check_date J primary skip_flags (date_text st pad_month pad_day y m d) w
  = check_date J primary skip_flags (date_text Dashed true true y m d) w.
Proof.
  intros Hok Hy Hm Hd. unfold check_date.
  rewrite (try_formats_spelled skip_flags st pad_month pad_day y m d
             Hok Hy Hm Hd).
  rewrite (try_formats_spelled skip_flags Dashed true true y m d
             eq_refl Hy Hm Hd).
  reflexivity.
Qed.

(** The verdict of the resolver depends on the world through the cache
    file and the current date only. *)
Lemma get_date_status_alike target_date (w1 w2 : world J) :
  cache_file w1 = cache_file w2 -> clock w1 = clock w2 ->
  fst (get_date_status J primary target_date w1)
  = fst (get_date_status J primary target_date w2).
Proof.
  intros Hfile Hclock. rewrite !get_date_status_run.
  assert (Hcheck : forall on_holiday,
    cache_check w1 target_date on_holiday
    = cache_check w2 target_date on_holiday).
  { intros on_holiday. unfold cache_check, load_outcome, cached_index.
    now rewrite Hfile. }
  destruct (is_workday primary target_date) as [is_work |]; [| reflexivity].
  destruct (get_holiday_detail primary target_date)
    as [[on_holiday holiday_name] |]; [| reflexivity].
  rewrite Hcheck.
  destruct (cache_check w2 target_date on_holiday)
    as [warning | e]; [| reflexivity].
  pose proof (find_next_rest_day_same_clock J primary target_date 30
                (after_load w1) (after_load w2)) as Hsame.
  rewrite !after_load_clock in Hsame. specialize (Hsame Hclock).
  destruct (find_next_rest_day J primary target_date 30 (after_load w1))
    as [[next1 | e1] a1];
    destruct (find_next_rest_day J primary target_date 30 (after_load w2))
      as [[next2 | e2] a2]; cbn in Hsame |- *; congruence.
Qed.

(** X25.  The answer of [check_default] is made of the answers of
    [check_today] and [check_tomorrow]: when it returns, so do they, with
    the same verdicts and the same [next_rest_day]. *)
Theorem check_default_combines_today_and_tomorrow (w w' : world J) r :
  check_default J primary w = (Ok r, w') ->
  exists r1 r2 w1 w2,
    check_today J primary w = (Ok r1, w1) /\
    check_tomorrow J primary w = (Ok r2, w2) /\
    dr_today r = tr_today r1 /\
    dr_tomorrow r = mr_tomorrow r2 /\
    dr_next_rest_day r = tr_next_rest_day r1 /\
    dr_next_rest_day r = mr_next_rest_day r2.
Proof.
  unfold check_default, check_today, check_tomorrow, bind, date_today, lift,
    ret.
  change (PyDate.timedelta 1) with (@Ok Z 1). cbv beta iota.
  destruct (PyDate.add (clock w) 1) as [tomorrow | e]; [| discriminate].
  destruct (get_date_status J primary (clock w) w)
    as [[v1 | e] a1] eqn:Hrun1; [| discriminate].
  destruct (get_date_status_ok _ _ _ _ _ _ Hrun1)
    as (? & ? & ? & ? & next1 & _ & _ & _ & Hnext1 & -> & _).
  destruct (get_date_status J primary tomorrow (after_load w))
    as [[v2 | e] a2] eqn:Hrun2; [| discriminate].
  destruct (get_date_status_ok _ _ _ _ _ _ Hrun2)
    as (? & ? & ? & ? & next2 & _ & _ & _ & _ & -> & _).
  pose proof (get_date_status_alike tomorrow w (after_load w)
                (eq_sym (after_load_cache_file J w))
                (eq_sym (after_load_clock J w))) as Halike.
  rewrite Hrun2 in Halike.
  destruct (get_date_status J primary tomorrow w)
    as [res a3] eqn:Hrun3. cbn in Halike. subst res.
  destruct (get_date_status_ok _ _ _ _ _ _ Hrun3)
    as (? & ? & ? & ? & next3 & _ & _ & _ & _ & -> & _).
  pose proof (find_next_rest_day_same_clock J primary (clock w) 30
                (after_load (after_load w)) (after_load w)
                (after_load_clock J (after_load w))) as Hsame.
  rewrite Hnext1 in Hsame |- *.
  destruct (find_next_rest_day J primary (clock w) 30
              (after_load (after_load w))) as [[next | e] a4];
    [| discriminate].
  cbn in Hsame. injection Hsame as ->.
  intros [= <- _]. do 4 eexists. repeat split; reflexivity.
Qed.

(** X26.  Asking [check_date] for the current date, in any of the styles,
    gives the verdict and the [next_rest_day] of [check_today]; and where
    [check_today] fails with [NotImplementedError], [check_date] answers
    with the 400 error that names the year. *)
Theorem check_date_of_today_is_check_today skip_flags st pad_month pad_day
    y m d (w : world J) :
  spelled_unambiguously st pad_month pad_day = true ->
  0 <= y <= 9999 -> 1 <= m <= 12 -> 1 <= d <= 31 ->
  PyDate.new y m d = Ok (clock w) ->
  match check_today J primary w with
  | (Ok r, w') =>
      check_date J primary skip_flags
        (date_text st pad_month pad_day y m d) w
      = (Ok {| cr_date := tr_today r;
               cr_next_rest_day := tr_next_rest_day r |}, w')
  | (Raise e, w') =>
      check_date J primary skip_flags
        (date_text st pad_month pad_day y m d) w
      = (if is_NotImplementedError e
         then Raise (HTTPException 400 (unsupported_year_error (clock w)))
         else Raise e, w')
  end.
Proof.
  intros Hok Hy Hm Hd Hnew.
  pose proof (try_formats_spelled skip_flags st pad_month pad_day y m d
                Hok Hy Hm Hd) as Hparse.
  rewrite Hnew in Hparse. rewrite (check_date_run _ _ _ _ Hparse).
  unfold check_today, bind, date_today, ret.
  destruct (get_date_status J primary (clock w) w)
    as [[v | e] w1] eqn:Hrun;
    [| destruct (is_NotImplementedError e); reflexivity].
  destruct (get_date_status_ok _ _ _ _ _ _ Hrun)
    as (? & ? & ? & ? & next & _ & _ & _ & Hnext & -> & _).
  rewrite after_load_clock, Hnext. reflexivity.
Qed.

End EndpointsMore.

Section StoreLog.

Context (J : json_codec).

(** X27.  [load_cache] logs one warning when the cache file is there,
    within reach, and cannot be read or does not parse, and nothing
    otherwise: a missing file is not reported, and neither is a file out
    of reach, on which [load_cache] raises before it logs. *)
Theorem load_cache_warns_iff_file_is_bad (w : world J) :
  let w' := snd (load_cache J w) in
  (log w' = log w \/
   log w' = log w ++ [(WARNING, "缓存文件读取失败，忽略")]) /\
  (log w' = log w <->
   cache_file w = FileAbsent \/ cache_file w = FileInaccessible \/
   exists t v, cache_file w = FileContent t /\ json_loads J t = Some v) /\
  (cache_file w = FileInaccessible ->
   load_cache J w = (Raise PermissionError, w)).
Proof.
  rewrite load_cache_run. cbn [snd].
  assert (Hgrow : forall x : log_level * string, log w ++ [x] <> log w).
  { intros x H. apply (f_equal (@length _)) in H.
    rewrite length_app in H. cbn in H. lia. }
  unfold after_load, load_outcome.
  destruct w as [[| | t |] fault today records]; cbn in *.
  - split; [auto |]. split; [split; auto | discriminate].
  - split; [auto |]. split; [| discriminate]. split.
    + intros H. now apply Hgrow in H.
    + intros [H | [H | (t & v & H & _)]]; discriminate.
  - destruct (json_loads J t) as [v |] eqn:Hloads; cbn.
    + split; [auto |]. split; [| discriminate].
      split; [| reflexivity].
      intros _. right. right. exists t, v. auto.
    + split; [auto |]. split; [| discriminate]. split.
      * intros H. now apply Hgrow in H.
      * intros [H | [H | (t' & v & [= <-] & Hv)]]; congruence.
  - split; [auto |]. split; [split; auto | reflexivity].
Qed.

End StoreLog.

(* ===================================================================== *)
(** * The further properties on sample inputs *)
(* ===================================================================== *)

Lemma empty_horizon_finds_nothing_witness :
  0 <= 0 /\
  find_next_rest_day sample_codec plain_calendar 739672 0
    (sample_world 739672) = (Ok None, sample_world 739672).
Proof.
  split; [lia |].
  apply (empty_horizon_finds_nothing sample_codec plain_calendar 739672 0).
  lia.
Defined.

(** From Wednesday 2026-02-25 the Saturday is found within 5 days, and
    within 30. *)
Lemma longer_horizon_same_rest_day_witness :
  exists rd,
    find_next_rest_day sample_codec plain_calendar 739672 5
      (sample_world 739672) = (Ok (Some rd), sample_world 739672) /\
    find_next_rest_day sample_codec plain_calendar 739672 30
      (sample_world 739672) = (Ok (Some rd), sample_world 739672).
Proof.
  eexists. split; [vm_compute; reflexivity |].
  apply (longer_horizon_same_rest_day sample_codec plain_calendar 739672 5 30
           (sample_world 739672) (sample_world 739672)).
  - unfold PyDate.valid, PyDate.MAXORDINAL. lia.
  - lia.
  - vm_compute. reflexivity.
Defined.

Lemma days_from_now_within_horizon_witness :
  exists rd,
    find_next_rest_day sample_codec plain_calendar 739672 30
      (sample_world 739672) = (Ok (Some rd), sample_world 739672) /\
    1 <= rd_days_from_now rd <= 30.
Proof.
  eexists. split; [vm_compute; reflexivity |].
  apply (days_from_now_within_horizon sample_codec plain_calendar 30
           (sample_world 739672) (sample_world 739672)).
  vm_compute. reflexivity.
Defined.

(** From Wednesday 2026-09-30 the rest day found is National Day. *)
Lemma rest_day_detail_is_name_or_weekend_witness :
  exists rd,
    find_next_rest_day sample_codec national_day_calendar 739889 30
      (sample_world 739889) = (Ok (Some rd), sample_world 739889) /\
    exists d on_holiday holiday_name,
      rd_date rd = PyDate.isoformat d /\
      get_holiday_detail national_day_calendar d
        = Some (on_holiday, holiday_name) /\
      ((exists name,
          on_holiday = true /\ holiday_name = Some name /\ name <> "" /\
          rd_detail rd = name) \/
       ((on_holiday = false \/ holiday_name = None \/
         holiday_name = Some "") /\
        rd_detail rd = "周末")).
Proof.
  eexists. split; [vm_compute; reflexivity |].
  apply (rest_day_detail_is_name_or_weekend sample_codec
           national_day_calendar 739889 30
           (sample_world 739889) (sample_world 739889)).
  vm_compute. reflexivity.
Defined.

Lemma holiday_name_iff_named_holiday_witness :
  exists v,
    get_date_status sample_codec national_day_calendar 739890
      (sample_world 739672) = (Ok v, sample_world 739672) /\
    (ds_holiday_name v = Some "国庆节" <->
     get_holiday_detail national_day_calendar 739890
       = Some (true, Some "国庆节") /\ "国庆节" <> "") /\
    (ds_holiday_name v = Some "国庆节" -> ds_detail v = "国庆节").
Proof.
  eexists. split; [vm_compute; reflexivity |].
  apply (holiday_name_iff_named_holiday sample_codec national_day_calendar
           739890 (sample_world 739672) (sample_world 739672)).
  vm_compute. reflexivity.
Defined.

(** Saturday 2026-02-28 in the calendar without holidays. *)
Lemma detail_label_tells_day_kind_witness :
  exists v,
    get_date_status sample_codec plain_calendar 739675
      (sample_world 739672) = (Ok v, sample_world 739672) /\
    get_holiday_detail plain_calendar 739675 = Some (false, None) /\
    (ds_detail v = "周末" <->
     ds_is_workday v = false /\ is_weekend 739675 = true).
Proof.
  eexists. split; [vm_compute; reflexivity |].
  split; [reflexivity |].
  apply (detail_label_tells_day_kind sample_codec plain_calendar 739675
           (sample_world 739672) (sample_world 739672) _ None).
  - vm_compute. reflexivity.
  - reflexivity.
Defined.

Lemma verdict_labels_well_formed_witness :
  exists v,
    get_date_status sample_codec plain_calendar 739672
      (sample_world 739672) = (Ok v, sample_world 739672) /\
    In (ds_weekday v) WEEKDAY_NAMES /\ ds_detail v <> "".
Proof.
  eexists. split; [vm_compute; reflexivity |].
  destruct (verdict_labels_well_formed sample_codec plain_calendar 739672
              (sample_world 739672) (sample_world 739672) _
              ltac:(vm_compute; reflexivity)) as (Hweekday & Hdetail & _).
  split; assumption.
Defined.

Lemma verdict_rest_day_follows_target_witness :
  exists v,
    get_date_status sample_codec plain_calendar 739672
      (sample_world 739670) = (Ok v, sample_world 739670) /\
    exists next,
      ds_next_rest_day v = Some next /\
      forall rd, next = Some rd ->
        exists i,
          1 <= i <= 30 /\
          non_working plain_calendar (739672 + i) /\
          rd_date rd = PyDate.isoformat (739672 + i) /\
          rd_days_from_now rd = 739672 + i - 739670.
Proof.
  eexists. split; [vm_compute; reflexivity |].
  apply (verdict_rest_day_follows_target sample_codec plain_calendar 739672
           (sample_world 739670) (sample_world 739670)).
  vm_compute. reflexivity.
Defined.


(** The payload names 1 January twice: the second name is kept. *)
Lemma fetch_maps_date_to_last_name_witness :
  pydict_get (fetched sample_codec repeating_http 2026) "2026-01-01"
    = last_name [("2026-01-01", JStr "New Year"); ("2026-02-17", JStr "春节");
                 ("2026-01-01", JStr "元旦")] "2026-01-01" /\
  entry (json_of_pydict (fetched sample_codec repeating_http 2026))
    "2026-01-01"
    = last_name [("2026-01-01", JStr "New Year"); ("2026-02-17", JStr "春节");
                 ("2026-01-01", JStr "元旦")] "2026-01-01".
Proof.
  apply (fetch_maps_date_to_last_name sample_codec repeating_http 2026
           (Some (JArr repeating_payload)) repeating_payload).
  - reflexivity.
  - reflexivity.
  - unfold repeating_payload.
    repeat (constructor; [vm_compute; reflexivity |]). constructor.
Defined.

(** The second item of the payload has no name: the first item is kept,
    the third is never read. *)
Lemma fetch_keeps_items_before_failure_witness :
  (forall d,
     pydict_get (fetched sample_codec broken_http 2026) d
     = last_name [("2026-01-01", JStr "元旦")] d) /\
  fetched sample_codec broken_http 2026 <> [].
Proof.
  destruct (fetch_keeps_items_before_failure sample_codec broken_http 2026
              (Some broken_payload)
              [JObj {[ "date" := JStr "2026-01-01";
                       "localName" := JStr "元旦" ]}]
              (JObj {[ "date" := JStr "2026-02-17" ]})
              [JObj {[ "date" := JStr "2026-02-18";
                       "localName" := JStr "春节" ]}]
              [("2026-01-01", JStr "元旦")] KeyError)
    as [Hget Hnonempty].
  - reflexivity.
  - reflexivity.
  - constructor; [vm_compute; reflexivity | constructor].
  - left. vm_compute. reflexivity.
  - split; [exact Hget |]. apply Hnonempty. discriminate.
Defined.

(** A refresh that starts from a cache file that is not JSON. *)
Lemma refresh_leaves_parseable_cache_witness :
  round_trips sample_codec /\
  fst (update_auxiliary_cache sample_codec sample_http (corrupt_world 739672))
    = Ok tt /\
  exists t index,
    cache_file (snd (update_auxiliary_cache sample_codec sample_http
                       (corrupt_world 739672))) = FileContent t /\
    json_loads sample_codec t = Some index /\
    cached_index (snd (update_auxiliary_cache sample_codec sample_http
                         (corrupt_world 739672))) = index.
Proof.
  split; [intros v; reflexivity |].
  assert (Hok : fst (update_auxiliary_cache sample_codec sample_http
                       (corrupt_world 739672)) = Ok tt).
  { assert (Hmerged :
      merged sample_codec sample_http
        [PyDate.year 739672; PyDate.year 739672 + 1] empty_dict
      = Ok (JObj {[ "2026" := JObj {[ "2026-01-01" := JStr "元旦" ]} ]}))
      by (vm_compute; reflexivity).
    destruct (update_auxiliary_cache_writes sample_codec sample_http
                (corrupt_world 739672) _ ltac:(discriminate) Hmerged)
      as [-> _].
    rewrite save_cache_writes;
      [reflexivity | discriminate | reflexivity |].
    rewrite sample_encodes. vm_compute. reflexivity. }
  split; [exact Hok |].
  apply (refresh_leaves_parseable_cache sample_codec sample_http
           (corrupt_world 739672)).
  - intros v. reflexivity.
  - exact Hok.
Defined.

Lemma refresh_twice_is_refresh_once_witness :
  round_trips sample_codec /\
  fst (update_auxiliary_cache sample_codec sample_http (sample_world 739672))
    = Ok tt /\
  cached_index
    (snd (update_auxiliary_cache sample_codec sample_http
            (snd (update_auxiliary_cache sample_codec sample_http
                    (sample_world 739672)))))
  = cached_index
      (snd (update_auxiliary_cache sample_codec sample_http
              (sample_world 739672))).
Proof.
  split; [intros v; reflexivity |].
  assert (Hok : fst (update_auxiliary_cache sample_codec sample_http
                       (sample_world 739672)) = Ok tt)
    by apply sample_refresh_completes.
  split; [exact Hok |].
  apply (refresh_twice_is_refresh_once sample_codec sample_http
           (sample_world 739672)).
  - intros v. reflexivity.
  - discriminate.
  - rewrite Hok. discriminate.
Defined.

(** 2027-01-01 is past what the calendar covers. *)
Lemma check_date_unsupported_year_witness :
  try_formats false "2027-01-01" formats = Ok (Some 739982) /\
  check_date sample_codec plain_calendar false "2027-01-01"
    (sample_world 739672)
  = (Raise (HTTPException 400 (unsupported_year_error 739982)),
     sample_world 739672).
Proof.
  split; [vm_compute; reflexivity |].
  apply (check_date_unsupported_year sample_codec plain_calendar false
           "2027-01-01" 739982 (sample_world 739672)).
  - vm_compute. reflexivity.
  - left. reflexivity.
Defined.

(** On 2026-12-31, the last day the calendar covers, tomorrow has no
    data. *)
Lemma daily_endpoints_let_unsupported_out_witness :
  no_data plain_calendar (739981 + 1) /\
  check_tomorrow sample_codec plain_calendar (sample_world 739981)
  = (Raise NotImplementedError, sample_world 739981) /\
  fst (check_default sample_codec plain_calendar (sample_world 739981))
  = Raise NotImplementedError.
Proof.
  assert (Hun : no_data plain_calendar (739981 + 1)) by (left; reflexivity).
  split; [exact Hun |].
  destruct (daily_endpoints_let_unsupported_out sample_codec plain_calendar
              (sample_world 739981)) as [_ Htomorrow].
  - unfold PyDate.MAXORDINAL. cbn. lia.
  - unfold PyDate.valid, PyDate.MAXORDINAL. cbn. lia.
  - destruct (Htomorrow Hun) as [Hrun Hdefault].
    split; [exact Hrun |].
    eapply Hdefault. vm_compute. reflexivity.
Defined.

Lemma check_today_rest_day_is_the_popped_one_witness :
  exists r v,
    check_today sample_codec plain_calendar (sample_world 739672)
      = (Ok r, sample_world 739672) /\
    get_date_status sample_codec plain_calendar 739672 (sample_world 739672)
      = (Ok v, sample_world 739672) /\
    tr_today r = pop_next_rest_day v /\
    ds_next_rest_day v = Some (tr_next_rest_day r).
Proof.
  eexists.
  destruct (check_today_rest_day_is_the_popped_one sample_codec
              plain_calendar (sample_world 739672) (sample_world 739672) _
              ltac:(vm_compute; reflexivity))
    as (v & Hrun & Hpop & Hnext & _).
  exists v. split; [vm_compute; reflexivity |].
  split; [exact Hrun |]. split; assumption.
Defined.

(** On Friday 2026-02-27 tomorrow is a Saturday. *)
Lemma check_tomorrow_rest_day_is_tomorrow_witness :
  exists r rd,
    check_tomorrow sample_codec plain_calendar (sample_world 739674)
      = (Ok r, sample_world 739674) /\
    ds_is_workday (mr_tomorrow r) = false /\
    mr_next_rest_day r = Some rd /\
    rd_date rd = ds_date (mr_tomorrow r) /\
    rd_weekday rd = ds_weekday (mr_tomorrow r) /\
    rd_days_from_now rd = 1.
Proof.
  eexists.
  destruct (check_tomorrow_rest_day_is_tomorrow sample_codec plain_calendar
              (sample_world 739674) (sample_world 739674) _
              ltac:(unfold PyDate.valid, PyDate.MAXORDINAL; cbn; lia)
              ltac:(vm_compute; reflexivity) eq_refl)
    as (rd & Hnext & Hdate & Hweekday & Hdays).
  exists rd. split; [vm_compute; reflexivity |].
  split; [reflexivity |]. repeat split; assumption.
Defined.

Lemma impossible_day_is_a_format_error_witness :
  date_text Dashed true true 2026 2 30 = "2026-02-30" /\
  check_date sample_codec plain_calendar false "2026-02-30"
    (sample_world 739672)
  = (Raise (HTTPException 400 FORMAT_ERROR), sample_world 739672).
Proof.
  split; [vm_compute; reflexivity |].
  apply (impossible_day_is_a_format_error sample_codec plain_calendar false
           Dashed true true 2026 2 30 (sample_world 739672)).
  - reflexivity.
  - lia.
  - lia.
  - lia.
  - right. vm_compute. reflexivity.
Defined.

(** Asked on 2026-02-25 for 2026-10-01, the endpoint reports the Saturday
    after 2026-02-25. *)
Lemma check_date_rest_day_is_from_today_witness :
  exists r,
    check_date sample_codec national_day_calendar false "2026-10-01"
      (sample_world 739672) = (Ok r, sample_world 739672) /\
    fst (find_next_rest_day sample_codec national_day_calendar 739672 30
           (sample_world 739672)) = Ok (cr_next_rest_day r) /\
    ds_next_rest_day (cr_date r) = None.
Proof.
  eexists. split; [vm_compute; reflexivity |].
  apply (check_date_rest_day_is_from_today sample_codec national_day_calendar
           false "2026-10-01" (sample_world 739672) (sample_world 739672)).
  vm_compute. reflexivity.
Defined.

Lemma check_date_same_answer_in_every_style_witness :
  date_text Cjk false false 2026 2 5 = "2026年2月5日" /\
  date_text Dashed true true 2026 2 5 = "2026-02-05" /\
  check_date sample_codec plain_calendar false "2026年2月5日"
    (sample_world 739672)
  = check_date sample_codec plain_calendar false "2026-02-05"
      (sample_world 739672).
Proof.
  split; [vm_compute; reflexivity |].
  split; [vm_compute; reflexivity |].
  apply (check_date_same_answer_in_every_style sample_codec plain_calendar
           false Cjk false false 2026 2 5 (sample_world 739672));
    [reflexivity | lia | lia | lia].
Defined.

Lemma check_default_combines_today_and_tomorrow_witness :
  exists r r1 r2,
    check_default sample_codec plain_calendar (sample_world 739672)
      = (Ok r, sample_world 739672) /\
    fst (check_today sample_codec plain_calendar (sample_world 739672))
      = Ok r1 /\
    fst (check_tomorrow sample_codec plain_calendar (sample_world 739672))
      = Ok r2 /\
    dr_today r = tr_today r1 /\
    dr_tomorrow r = mr_tomorrow r2 /\
    dr_next_rest_day r = tr_next_rest_day r1 /\
    dr_next_rest_day r = mr_next_rest_day r2.
Proof.
  eexists.
  destruct (check_default_combines_today_and_tomorrow sample_codec
              plain_calendar (sample_world 739672) (sample_world 739672) _
              ltac:(vm_compute; reflexivity))
    as (r1 & r2 & w1 & w2 & Htoday & Htomorrow & H).
  exists r1, r2. split; [vm_compute; reflexivity |].
  split; [now rewrite Htoday |]. split; [now rewrite Htomorrow |]. exact H.
Defined.

Lemma check_date_of_today_is_check_today_witness :
  exists r,
    check_today sample_codec plain_calendar (sample_world 739672)
      = (Ok r, sample_world 739672) /\
    check_date sample_codec plain_calendar false "2026_2_25"
      (sample_world 739672)
    = (Ok {| cr_date := tr_today r;
             cr_next_rest_day := tr_next_rest_day r |},
       sample_world 739672).
Proof.
  eexists. split; [vm_compute; reflexivity |].
  pose proof (check_date_of_today_is_check_today sample_codec plain_calendar
                false Underscored false false 2026 2 25
                (sample_world 739672) eq_refl
                ltac:(lia) ltac:(lia) ltac:(lia)
                ltac:(vm_compute; reflexivity)) as H.
  vm_compute in H. vm_compute. exact H.
Defined.
